(** * Otter data pipeline: [pipeline/train/data.py]

    A shallow embedding of the data-loading layer (shard sizing, batch
    planning, deterministic shuffling, record regrouping, the interleaved
    document assembler and the instruction-tuning loader construction) and
    the properties established about it.

    Conventions.  Python integers are [Z]; a Python float is shown by the
    rational [Q] it holds (every finite float is one): similarity scores
    and the coin of [random.random()] are given as such, and the true
    division [a / b] of two integers is the exact quotient rounded to the
    nearest binary64 value, as CPython computes it ([Float.true_div]);
    dictionaries are [gmap]; raised exceptions are values of [exn] carried
    by [result]. *)

From Stdlib Require Import ZArith QArith Qround String Ascii List Lia Bool.
From Stdlib.Strings Require Import Byte.
From stdpp Require Import base option list gmap strings fin_maps sorting.

Local Open Scope string_scope.
Local Open Scope list_scope.
Local Open Scope Z_scope.

(** ** Exceptions and results *)

Inductive exn : Type :=
| RuntimeError (msg : string)
| AssertionError (msg : string)
| ValueError (msg : string)
| IndexError (msg : string)
| ZeroDivisionError (msg : string)
| StatisticsError (msg : string)
| UnboundLocalError (msg : string)
| TypeError (msg : string)
| OverflowError (msg : string)
| OtherError (class_name : string) (msg : string).

(** [str(exn)]: the message of the exception. *)
Definition str (e : exn) : string :=
  match e with
  | RuntimeError m | AssertionError m | ValueError m
  | IndexError m | ZeroDivisionError m | StatisticsError m
  | UnboundLocalError m | TypeError m | OverflowError m
  | OtherError _ m => m
  end.

Definition class_name (e : exn) : string :=
  match e with
  | RuntimeError _ => "RuntimeError"
  | AssertionError _ => "AssertionError"
  | ValueError _ => "ValueError"
  | IndexError _ => "IndexError"
  | ZeroDivisionError _ => "ZeroDivisionError"
  | StatisticsError _ => "StatisticsError"
  | UnboundLocalError _ => "UnboundLocalError"
  | TypeError _ => "TypeError"
  | OverflowError _ => "OverflowError"
  | OtherError name _ => name
  end.

(** [repr(exn)], for messages without quotes. *)
Definition repr (e : exn) : string :=
  class_name e +:+ "('" +:+ str e +:+ "')".

Inductive result (A : Type) : Type :=
| Return (a : A)
| Raise (e : exn).

Arguments Return {A} a.
Arguments Raise {A} e.

(** Sequencing: an exception raised by a statement ends the function.
    The stdpp notation [x ← r; k] is used for it. *)
#[global] Instance result_ret : MRet result := fun A a => Return a.

#[global] Instance result_bind : MBind result := fun A B k r =>
  match r with
  | Return a => k a
  | Raise e => Raise e
  end.

#[global] Instance result_fmap : FMap result := fun A B f r =>
  match r with
  | Return a => Return (f a)
  | Raise e => Raise e
  end.


(** [assert cond, msg] *)
Definition assert (cond : bool) (msg : string) : result unit :=
  if cond then Return tt else Raise (AssertionError msg).

(** ** String helpers used by the source *)

Module Str.

Definition is_slash (c : ascii) : bool := Ascii.eqb c "/"%char.

(** [startswith p s]: the rest of [s] after the prefix [p], if any. *)
Fixpoint strip_prefix (p s : string) : option string :=
  match p with
  | EmptyString => Some s
  | String a p' =>
      match s with
      | EmptyString => None
      | String b s' => if Ascii.eqb a b then strip_prefix p' s' else None
      end
  end.

(** [needle in s] on strings. *)
Fixpoint contains (needle s : string) : bool :=
  match strip_prefix needle s with
  | Some _ => true
  | None =>
      match s with
      | EmptyString => false
      | String _ s' => contains needle s'
      end
  end.

(** [s.replace(old, new)] and [s.replace(old, new, count)] for a non-empty
    [old]: occurrences are replaced left to right without overlap.  [skip]
    counts the characters of a matched occurrence still to be dropped;
    [count = None] replaces every occurrence. *)
Fixpoint replace_from (old new : string) (count : option nat) (skip : nat)
  (s : string) : string :=
  match s with
  | EmptyString => EmptyString
  | String c s' =>
      match skip with
      | S k => replace_from old new count k s'
      | O =>
          match count, strip_prefix old s with
          | Some O, _ | _, None => String c (replace_from old new count O s')
          | _, Some _ =>
              new +:+ replace_from old new (Nat.pred <$> count)
                        (Nat.pred (String.length old)) s'
          end
      end
  end.

Definition replace (old new s : string) : string :=
  replace_from old new None O s.

Definition replace_n (old new : string) (count : nat) (s : string) : string :=
  replace_from old new (Some count) O s.

(** [sep.join(parts)] *)
Fixpoint join (sep : string) (parts : list string) : string :=
  match parts with
  | [] => EmptyString
  | [p] => p
  | p :: rest => p +:+ sep +:+ join sep rest
  end.

(** [s.split(",")]: always at least one field. *)
Fixpoint split_comma (s : string) : list string :=
  match s with
  | EmptyString => [EmptyString]
  | String c s' =>
      if Ascii.eqb c ","%char then EmptyString :: split_comma s'
      else
        match split_comma s' with
        | [] => [String c EmptyString]
        | f :: fs => String c f :: fs
        end
  end.

(** [s.lower()] for a string of ASCII characters: the letters [A]-[Z]
    become [a]-[z].  ([str.lower] also folds letters outside ASCII; the
    regrouping stage below takes the folding as a parameter, and this
    function is its instance for names written in ASCII.) *)
Definition lower_ascii (c : ascii) : ascii :=
  let n := nat_of_ascii c in
  if ((65 <=? n)%nat && (n <=? 90)%nat)%bool then ascii_of_nat (n + 32) else c.

Fixpoint ascii_lower (s : string) : string :=
  match s with
  | EmptyString => EmptyString
  | String c s' => String (lower_ascii c) (ascii_lower s')
  end.

End Str.

(** ** [os.path] on POSIX paths *)

Module Path.

(** [(p[:i], p[i:])] with [i = p.rfind("/") + 1]. *)
Fixpoint head_tail (p : string) : string * string :=
  match p with
  | EmptyString => (EmptyString, EmptyString)
  | String c r =>
      let '(h, t) := head_tail r in
      match h with
      | String _ _ => (String c h, t)
      | EmptyString =>
          if Str.is_slash c then (String c EmptyString, r)
          else (EmptyString, String c r)
      end
  end.

(** [s.rstrip("/")] *)
Fixpoint rstrip_slash (s : string) : string :=
  match s with
  | EmptyString => EmptyString
  | String c r =>
      match rstrip_slash r with
      | EmptyString => if Str.is_slash c then EmptyString else String c EmptyString
      | r' => String c r'
      end
  end.

(** [os.path.dirname]: the head, without trailing slashes unless it
    consists of slashes only. *)
Definition dirname (p : string) : string :=
  let head := fst (head_tail p) in
  match rstrip_slash head with
  | EmptyString => head
  | stripped => stripped
  end.

(** [os.path.basename] *)
Definition basename (p : string) : string := snd (head_tail p).

(** [os.path.join(a, b)] for two components. *)
Definition join (a b : string) : string :=
  match Str.strip_prefix "/" b with
  | Some _ => b
  | None =>
      match a with
      | EmptyString => b
      | _ =>
          match Str.strip_prefix "/" (String.string_of_list_ascii
                                        (rev (String.list_ascii_of_string a))) with
          | Some _ => a +:+ b
          | None => a +:+ "/" +:+ b
          end
      end
  end.

End Path.

(** ** Shard locator: [get_dataset_size] *)

Module ShardLocator.

(** A value read by [ast.literal_eval]: an integer, or a literal of
    another type (shown by its text). *)
Inductive literal : Type :=
| LitInt (n : Z)
| LitOther (text : string).

(** The two sidecar files [get_dataset_size] looks for, by file name.  A
    name outside a map is a file that does not exist.

    For a [sizes.json], [sizes_json] gives what [json.load(open(name))]
    does: it raises, or it returns an object, shown by what
    [int(sizes[key])] does for each of its keys: it returns an integer or
    raises.  (A JSON value that is not an object fits the same type: a
    number, [true], [false] or [null] makes the first [in] test raise a
    [TypeError], as a load that raises it; a list or a string makes [in]
    true for finitely many names, for which the subscript raises a
    [TypeError], as an object whose entries all raise.)

    For a [__len__] file, [len_file] gives what
    [ast.literal_eval(open(name).read())] does: it raises, or it returns a
    literal. *)
Record sidecars : Type := {
  sizes_json : gmap string (result (gmap string (result Z)));
  len_file : gmap string (result literal)
}.

(** [[int(sizes[basename(shard)]) if basename(shard) in sizes else 0
      for shard in shards_list]]: the first size that raises ends the
    comprehension. *)
Fixpoint shard_sizes (sizes : gmap string (result Z)) (shards_list : list string)
  : result (list Z) :=
  match shards_list with
  | [] => Return []
  | shard :: rest =>
      n ← match sizes !! Path.basename shard with
          | Some size => size
          | None => Return 0
          end;
      ns ← shard_sizes sizes rest;
      Return (n :: ns)
  end.

(** [sum(sizes)] *)
Definition sum (ns : list Z) : Z := foldr Z.add 0 ns.

Section WithBraceexpand.

(** [braceexpand.braceexpand], a library function. *)
Variable braceexpand : string -> list string.

(** [get_dataset_size(shards)], lines 64-83.  The result is
    [(total_size, num_shards)], with [None] for an undefined total; an
    exception raised while a sidecar is read leaves the function. *)
Definition get_dataset_size (fs : sidecars) (shards : string)
  : result (option literal * Z) :=
  let shards_list := braceexpand shards in
  match shards_list with
  | [] => Raise (IndexError "list index out of range")
  | first :: _ =>
      let dir_path := Path.dirname first in
      let sizes_filename := Path.join dir_path "sizes.json" in
      let len_filename := Path.join dir_path "__len__" in
      total_size ←
        match sizes_json fs !! sizes_filename with
        | Some loaded =>
            sizes ← loaded;
            ns ← shard_sizes sizes shards_list;
            Return (Some (LitInt (sum ns)))
        | None =>
            match len_file fs !! len_filename with
            | Some evaluated => total ← evaluated; Return (Some total)
            | None => Return None
            end
        end;
      let num_shards := Z.of_nat (length shards_list) in
      Return (total_size, num_shards)
  end.

End WithBraceexpand.

End ShardLocator.

(** ** Deterministic shuffle stage: [pytorch_worker_seed], [detshuffle2] *)

Module Shuffle.

(** The [epoch] attribute of a stage: a [SharedEpoch] cell (shown by the
    value [get_value()] reads), or a plain integer the stage counts up
    itself. *)
Inductive epoch_ref : Type :=
| SharedEpoch (value : Z)
| OwnCounter (epoch : Z).

(** What [get_worker_info()] returns inside a dataloader worker. *)
Record worker_info : Type := {
  wi_seed : Z;
  wi_num_workers : Z
}.

(** The process a stage runs in: its worker info, if it is a dataloader
    worker, and the rank based seed [wds.utils.pytorch_worker_seed()]
    gives there. *)
Record process : Type := {
  get_worker_info : option worker_info;
  wds_pytorch_worker_seed : Z
}.

(** [pytorch_worker_seed(increment=0)], lines 161-172. *)
Definition pytorch_worker_seed (p : process) (increment : Z) : Z :=
  match get_worker_info p with
  | Some worker_info =>
      let seed := wi_seed worker_info in
      if negb (increment =? 0)
      then seed + increment * Z.max 1 (wi_num_workers worker_info)
      else seed
  | None => wds_pytorch_worker_seed p
  end.

(** The attributes of a [detshuffle2] object, lines 182-192. *)
Record detshuffle2 : Type := {
  bufsize : Z;
  initial : Z;
  seed : Z;
  epoch : epoch_ref
}.

(** Lines 195-201: the epoch a run uses, and the object after the run. *)
Definition next_epoch (self : detshuffle2) : Z * detshuffle2 :=
  match epoch self with
  | SharedEpoch value => (value, self)
  | OwnCounter n =>
      (n + 1, {| bufsize := bufsize self; initial := initial self;
                 seed := seed self; epoch := OwnCounter (n + 1) |})
  end.

(** Lines 203-208: the seed given to [rng.seed]. *)
Definition run_seed (p : process) (self : detshuffle2) : Z :=
  let epoch := fst (next_epoch self) in
  if seed self <? 0 then pytorch_worker_seed p epoch
  else seed self + epoch.

Section WithRandom.

(** [random.Random] and webdataset's [_shuffle] are library code:
    [rng_seed s] is a fresh generator after [rng.seed(s)]. *)
Variable Rng : Type.
Variable rng_seed : Z -> Rng.
Variable A : Type.
Variable _shuffle : list A -> Z -> Z -> Rng -> list A.

(** [detshuffle2.run(src)], lines 194-210: the shuffled stream and the
    object afterwards. *)
Definition run (p : process) (self : detshuffle2) (src : list A)
  : list A * detshuffle2 :=
  let rng := rng_seed (run_seed p self) in
  (_shuffle src (bufsize self) (initial self) rng, snd (next_epoch self)).

End WithRandom.

(** *** A generator and a buffered shuffle to run the stage with

    A linear congruential generator stands in for Python's generator, and
    [buffered_shuffle] follows webdataset's [_shuffle]: every step appends
    up to two samples to the buffer and, once [initial] samples are
    buffered, yields a random one; the buffer is drained at the end. *)

Definition lcg_next (state : Z) : Z := (state * 1103515245 + 12345) mod 2147483648.

Definition lcg_seed (seed : Z) : Z := Z.abs seed mod 2147483648.

(** [rng.randint(0, n - 1)] *)
Definition lcg_randint (state n : Z) : Z * Z :=
  let state' := lcg_next state in (state' mod n, state').

(** [pick(buf, rng)]: swap the chosen sample with the last one and pop. *)
Definition pick {A : Type} (buf : list A) (rng : Z) : option (A * list A * Z) :=
  let '(k, rng') := lcg_randint rng (Z.of_nat (length buf)) in
  match buf !! Z.to_nat k, last buf with
  | Some sample, Some final =>
      Some (sample, take (length buf - 1) (<[Z.to_nat k := final]> buf), rng')
  | _, _ => None
  end.

Fixpoint drain {A : Type} (fuel : nat) (buf : list A) (rng : Z) : list A :=
  match fuel with
  | O => []
  | S fuel' =>
      match pick buf rng with
      | Some (sample, buf', rng') => sample :: drain fuel' buf' rng'
      | None => []
      end
  end.

Fixpoint fill {A : Type} (data buf : list A) (bufsize initial : Z) (rng : Z)
  : list A :=
  let step rest buf :=
    if initial <=? Z.of_nat (length buf) then
      match pick buf rng with
      | Some (sample, buf', rng') => (Some sample, buf', rng')
      | None => (None, buf, rng)
      end
    else (None, buf, rng) in
  match data with
  | [] => drain (length buf) buf rng
  | sample :: rest =>
      let buf := buf ++ [sample] in
      if Z.of_nat (length buf) <? bufsize then
        match rest with
        | [] =>
            let '(out, buf', rng') := step rest buf in
            from_option (fun x => [x]) [] out ++ drain (length buf') buf' rng'
        | sample' :: rest' =>
            let '(out, buf', rng') := step rest' (buf ++ [sample']) in
            from_option (fun x => [x]) [] out ++ fill rest' buf' bufsize initial rng'
        end
      else
        let '(out, buf', rng') := step rest buf in
        from_option (fun x => [x]) [] out ++ fill rest buf' bufsize initial rng'
  end.

Definition buffered_shuffle {A : Type} (data : list A) (bufsize initial : Z) (rng : Z)
  : list A :=
  fill data [] bufsize (Z.min initial bufsize) rng.

End Shuffle.

(** ** Python floats: the quotient of two integers

    [a / b] on Python integers is the exact quotient rounded to the
    nearest binary64 value, a tie going to the value with an even
    significand.  A binary64 value is [m * 2^q] with [m < 2^53] and
    [-1074 <= q <= 971]. *)

Module Float.

(** The integer nearest to [n / d] for [0 <= n] and [0 < d], a tie going
    to the even one. *)
Definition round_half_even (n d : Z) : Z :=
  let q := n / d in
  let r := n mod d in
  if 2 * r <? d then q
  else if d <? 2 * r then q + 1
  else if Z.even q then q else q + 1.

(** [a / b < 2^e], for an exponent of either sign. *)
Definition below (a b e : Z) : bool :=
  if 0 <=? e then a <? b * 2 ^ e else a * 2 ^ (- e) <? b.

(** The binary exponent of [a / b] for positive [a] and [b]: the [e] with
    [2^e <= a / b < 2^(e+1)]. *)
Definition exponent (a b : Z) : Z :=
  let e := Z.log2 a - Z.log2 b in
  if below a b e then e - 1 else e.

(** The float nearest to [a / b] for positive [a] and [b]: the quotient
    is rounded to a multiple of [2^q], where [q] leaves 53 bits to the
    significand and is at least [-1074].  [None] when the rounded value
    is [2^1024] or more, which no float holds. *)
Definition quotient (a b : Z) : option Q :=
  let e := exponent a b in
  let q := Z.max (e - 52) (-1074) in
  let m := if 0 <=? q then round_half_even a (b * 2 ^ q)
           else round_half_even (a * 2 ^ (- q)) b in
  if (971 <? q) || ((q =? 971) && (2 ^ 53 <=? m)) then None
  else Some (if 0 <=? q then inject_Z (m * 2 ^ q) else m # Z.to_pos (2 ^ (- q))).

End Float.

(** ** Batch planner and the webdataset constructors *)

Module Webdataset.

Import ShardLocator.

Inductive decoder : Type :=
| decode_base64_image_only_png
| decode_pil.

(** The stages handed to [wds.DataPipeline]; [shard_shuffle] holds the
    [detshuffle2] object placed in the pipeline. *)
Inductive stage : Type :=
| ResampledShards2 (urls : string) (deterministic : bool) (epoch : Shuffle.epoch_ref)
| SimpleShardList (urls : string)
| shard_shuffle (stage : Shuffle.detshuffle2)
| split_by_node
| split_by_worker
| tarfile_to_samples_nothrow
| shuffle (bufsize initial : Z)
| select_filter_no_caption_or_no_image
| decode (d : decoder)
| to_tuple (fields : list string)
| map_preprocess_interleaved (sim_threshold : Q)
| map_tuple_preprocess_image_text
| batched (batchsize : Z) (partial : bool).

Definition _SHARD_SHUFFLE_SIZE : Z := 2000.
Definition _SHARD_SHUFFLE_INITIAL : Z := 500.
Definition _SAMPLE_SHUFFLE_SIZE : Z := 5000.
Definition _SAMPLE_SHUFFLE_INITIAL : Z := 1000.

Record Args : Type := {
  laion_shards : option string;
  mmc4_shards : option string;
  cc3m_shards : option string;
  dataset_resampled : bool;
  train_num_samples_laion : option Z;
  train_num_samples_mmc4 : option Z;
  train_num_samples_cc3m : option Z;
  batch_size_laion : Z;
  batch_size_mmc4 : Z;
  batch_size_cc3m : Z;
  mmc4_textsim_threshold : Q;
  seed : Z;
  workers : Z;
  world_size : Z
}.

(** [wds.WebLoader] over [dataset.with_epoch(num_worker_batches)], with the
    two attributes the constructors attach to it. *)
Record WebLoader : Type := {
  pipeline : list stage;
  with_epoch : Z;
  loader_num_workers : Z;
  num_batches : Z;
  num_samples : Z
}.

Record DataInfo : Type := {
  dataloader : WebLoader;
  shared_epoch : Z
}.

(** Truthiness of an optional integer: [None] and [0] are false. *)
Definition truthy (n : option Z) : bool :=
  match n with
  | Some v => negb (v =? 0)
  | None => false
  end.

(** [a / b] on integers: the float nearest to the quotient. *)
Definition true_div (a b : Z) : result Q :=
  if b =? 0 then Raise (ZeroDivisionError "division by zero")
  else if a =? 0 then Return 0%Q
  else
    match Float.quotient (Z.abs a) (Z.abs b) with
    | Some x => Return (if xorb (a <? 0) (b <? 0) then (- x)%Q else x)
    | None =>
        Raise (OverflowError "integer division result too large for a float")
    end.

(** [round_fn = math.floor if floor else math.ceil] *)
Definition round_fn (floor : bool) (x : Q) : Z :=
  if floor then Qfloor x else Qceiling x.

(** [k] is the quotient [a / b] rounded down (when [floor]) or up, said
    by bounds instead of by a division. *)
Definition rounds_to (floor : bool) (a b k : Z) : Prop :=
  if floor then k * b <= a < (k + 1) * b else (k - 1) * b < a <= k * b.

(** What the planner hands on: the count given to [with_epoch] and the two
    loader attributes. *)
Record plan : Type := {
  global_batch_size : Z;
  num_worker_batches : Z;
  plan_num_batches : Z;
  plan_num_samples : Z
}.

(** Lines 432-438 (mmc4), 523-529 (laion), 614-620 (cc3m). *)
Definition plan_batches (floor : bool) (num_samples batch_size world_size workers : Z)
  : result plan :=
  let global_batch_size := batch_size * world_size in
  q ← true_div num_samples global_batch_size;
  let num_batches := round_fn floor q in
  let num_workers := Z.max 1 workers in
  q' ← true_div num_batches num_workers;
  let num_worker_batches := round_fn floor q' in
  let num_batches := num_worker_batches * num_workers in
  let num_samples := num_batches * global_batch_size in
  Return {| global_batch_size := global_batch_size;
            num_worker_batches := num_worker_batches;
            plan_num_batches := num_batches;
            plan_num_samples := num_samples |}.

Definition samples_error : string :=
  "Currently, number of dataset samples must be specified for training dataset. "
  +:+ "Please specify via `--train-num-samples` if no dataset length info present.".

Definition shards_error : string := "number of shards must be >= total workers".

(** Lines 370-378 (mmc4), 462-470 (laion), 553-561 (cc3m): the sample
    count the planner will use, next to the shard count.  The total that
    [get_dataset_size] returned is overwritten by [num_samples = None]
    before it is tested. *)
Definition resolve_num_samples (sized : option literal * Z) (fallback : option Z)
  : result (Z * Z) :=
  let '(num_samples, num_shards) := sized in
  let num_samples : option Z := None in
  if negb (truthy num_samples) then
    let num_samples := fallback in
    if negb (truthy num_samples) then Raise (RuntimeError samples_error)
    else
      match num_samples with
      | Some n => Return (n, num_shards)
      | None => Raise (RuntimeError samples_error)
      end
  else
    match num_samples with
    | Some n => Return (n, num_shards)
    | None => Raise (RuntimeError samples_error)
    end.

(** [SharedEpoch(epoch)] keeps the epoch in [Value("i", epoch)], a C
    [int]: the integer is reduced to 32 bits, two's complement. *)
Definition c_int (z : Z) : Z := (z + 2 ^ 31) mod 2 ^ 32 - 2 ^ 31.

(** The checks on the worker count that torch's [DataLoader] makes when
    [wds.WebLoader(dataset, batch_size=None, shuffle=False,
    num_workers=args.workers, persistent_workers=True)] constructs it. *)
Definition check_num_workers (num_workers : Z) : result unit :=
  if num_workers <? 0 then
    Raise (ValueError ("num_workers option should be non-negative; "
                       +:+ "use num_workers=0 to disable multiprocessing."))
  else if num_workers =? 0 then
    Raise (ValueError "persistent_workers option needs num_workers > 0")
  else Return tt.

Section WithBraceexpand.

Variable braceexpand : string -> list string.

(** The body shared by the three constructors; they differ in the
    arguments they read and in the stages after the sample shuffle. *)
Definition webdataset_constructor (fs : sidecars) (args : Args)
  (shards : option string) (fallback : option Z) (batch_size : Z)
  (assemble : list stage) (epoch : Z) (floor : bool) : result DataInfo :=
  _ ← assert (bool_decide (is_Some shards)) "";
  let input_shards := default "" shards in
  let resampled := dataset_resampled args in
  sized ← get_dataset_size braceexpand fs input_shards;
  '(num_samples, num_shards) ← resolve_num_samples sized fallback;
  let shared_epoch := c_int epoch in
  let pipeline :=
    if resampled
    then [ResampledShards2 input_shards true (Shuffle.SharedEpoch shared_epoch)]
    else [SimpleShardList input_shards] in
  let pipeline :=
    if negb resampled
    then pipeline ++
         [shard_shuffle
            {| Shuffle.bufsize := _SHARD_SHUFFLE_SIZE;
               Shuffle.initial := _SHARD_SHUFFLE_INITIAL;
               Shuffle.seed := seed args;
               Shuffle.epoch := Shuffle.SharedEpoch shared_epoch |};
          split_by_node; split_by_worker]
    else pipeline in
  let pipeline :=
    pipeline ++
    [tarfile_to_samples_nothrow;
     shuffle _SAMPLE_SHUFFLE_SIZE _SAMPLE_SHUFFLE_INITIAL] in
  let pipeline := pipeline ++ assemble in
  _ ← (if negb resampled
       then assert (workers args * world_size args <=? num_shards) shards_error
       else Return tt);
  p ← plan_batches floor num_samples batch_size (world_size args) (workers args);
  _ ← check_num_workers (workers args);
  Return {| dataloader :=
              {| pipeline := pipeline;
                 with_epoch := num_worker_batches p;
                 loader_num_workers := workers args;
                 num_batches := plan_num_batches p;
                 num_samples := plan_num_samples p |};
            shared_epoch := shared_epoch |}.

(** [get_mmc4_dataset], lines 365-454. *)
Definition get_mmc4_dataset (fs : sidecars) (args : Args) (epoch : Z) (floor : bool)
  : result DataInfo :=
  webdataset_constructor fs args (mmc4_shards args) (train_num_samples_mmc4 args)
    (batch_size_mmc4 args)
    [to_tuple ["json"];
     map_preprocess_interleaved (mmc4_textsim_threshold args);
     batched (batch_size_mmc4 args) false]
    epoch floor.

(** [get_laion_dataset], lines 457-545. *)
Definition get_laion_dataset (fs : sidecars) (args : Args) (epoch : Z) (floor : bool)
  : result DataInfo :=
  webdataset_constructor fs args (laion_shards args) (train_num_samples_laion args)
    (batch_size_laion args)
    [select_filter_no_caption_or_no_image;
     decode decode_base64_image_only_png;
     to_tuple ["jpg;png;jpeg"; "txt"];
     batched (batch_size_laion args) false;
     map_tuple_preprocess_image_text]
    epoch floor.

(** [get_cc3m_dataset], lines 548-636. *)
Definition get_cc3m_dataset (fs : sidecars) (args : Args) (epoch : Z) (floor : bool)
  : result DataInfo :=
  webdataset_constructor fs args (cc3m_shards args) (train_num_samples_cc3m args)
    (batch_size_cc3m args)
    [select_filter_no_caption_or_no_image;
     decode decode_pil;
     to_tuple ["jpg;png;jpeg"; "txt"];
     batched (batch_size_cc3m args) false;
     map_tuple_preprocess_image_text]
    epoch floor.

(** The webdataset branches of [get_dataset_fn], lines 806-816, and the
    arguments each constructor reads. *)
Inductive dataset_type : Type := laion | mmc4 | cc3m.

Definition get_dataset_fn (dataset_type : dataset_type)
  : sidecars -> Args -> Z -> bool -> result DataInfo :=
  match dataset_type with
  | laion => get_laion_dataset
  | mmc4 => get_mmc4_dataset
  | cc3m => get_cc3m_dataset
  end.

End WithBraceexpand.

Definition shards_of (k : dataset_type) (args : Args) : option string :=
  match k with
  | laion => laion_shards args
  | mmc4 => mmc4_shards args
  | cc3m => cc3m_shards args
  end.

Definition train_num_samples_of (k : dataset_type) (args : Args) : option Z :=
  match k with
  | laion => train_num_samples_laion args
  | mmc4 => train_num_samples_mmc4 args
  | cc3m => train_num_samples_cc3m args
  end.

Definition batch_size_of (k : dataset_type) (args : Args) : Z :=
  match k with
  | laion => batch_size_laion args
  | mmc4 => batch_size_mmc4 args
  | cc3m => batch_size_cc3m args
  end.

(** The stages after the sample shuffle. *)
Definition assemble_of (k : dataset_type) (args : Args) : list stage :=
  match k with
  | mmc4 =>
      [to_tuple ["json"];
       map_preprocess_interleaved (mmc4_textsim_threshold args);
       batched (batch_size_mmc4 args) false]
  | laion =>
      [select_filter_no_caption_or_no_image;
       decode decode_base64_image_only_png;
       to_tuple ["jpg;png;jpeg"; "txt"];
       batched (batch_size_laion args) false;
       map_tuple_preprocess_image_text]
  | cc3m =>
      [select_filter_no_caption_or_no_image;
       decode decode_pil;
       to_tuple ["jpg;png;jpeg"; "txt"];
       batched (batch_size_cc3m args) false;
       map_tuple_preprocess_image_text]
  end.

(** The pipeline a constructor builds around the shared epoch cell
    holding [epoch]. *)
Definition built_pipeline (k : dataset_type) (args : Args) (pattern : string)
  (epoch : Z) : list stage :=
  (if dataset_resampled args
   then [ResampledShards2 pattern true (Shuffle.SharedEpoch epoch)]
   else [SimpleShardList pattern;
         shard_shuffle
           {| Shuffle.bufsize := _SHARD_SHUFFLE_SIZE;
              Shuffle.initial := _SHARD_SHUFFLE_INITIAL;
              Shuffle.seed := seed args;
              Shuffle.epoch := Shuffle.SharedEpoch epoch |};
         split_by_node; split_by_worker])
  ++ [tarfile_to_samples_nothrow;
      shuffle _SAMPLE_SHUFFLE_SIZE _SAMPLE_SHUFFLE_INITIAL]
  ++ assemble_of k args.

(** The rest of a constructor's body once the sample count [n] and the
    shard count are settled: the planner, the loader and the result. *)
Definition planned (k : dataset_type) (args : Args) (pattern : string)
  (n epoch : Z) (floor : bool) : result DataInfo :=
  p ← plan_batches floor n (batch_size_of k args) (world_size args)
        (workers args);
  _ ← check_num_workers (workers args);
  Return {| dataloader :=
              {| pipeline := built_pipeline k args pattern (c_int epoch);
                 with_epoch := num_worker_batches p;
                 loader_num_workers := workers args;
                 num_batches := plan_num_batches p;
                 num_samples := plan_num_samples p |};
            shared_epoch := c_int epoch |}.




End Webdataset.

(** ** Error handler and the interleaved document assembler *)

Module Interleaved.

Definition MAX_NUM_TOKENS : Z := 256.
Definition MAX_NUM_IMAGES : nat := 5.
Definition MIN_KB : Z := 10.

(** [log_and_continue(exn)], lines 117-122, with the warnings issued so
    far as explicit state. *)
Definition log_and_continue (exn : exn) (log : list string) : bool * list string :=
  if (Str.contains "No images in sample" (str exn)
      || Str.contains "Only one image in sample" (str exn))%bool
  then (true, log)
  else (true,
        log ++ ["Handling webdataset error (" +:+ repr exn +:+ "). Ignoring."]).

(** webdataset's [map(f, handler=...)] stage, library code: a sample on
    which [f] raises is handed to the handler, which decides between
    going on with the next sample and ending the stream. *)
Fixpoint wds_map {A B : Type} (f : A -> result B)
  (handler : exn -> list string -> bool * list string)
  (data : list A) (log : list string) : list B * list string :=
  match data with
  | [] => ([], log)
  | sample :: rest =>
      match f sample with
      | Return b =>
          let '(out, log') := wds_map f handler rest log in (b :: out, log')
      | Raise e =>
          let '(continue, log') := handler e log in
          if continue then wds_map f handler rest log' else ([], log')
      end
  end.

(** One entry of [info["image_info"]]. *)
Record sample_image : Type := {
  image_base64 : string;
  matched_sim : Q;
  matched_text_index : Z
}.

(** [info = json.loads(sample[0])] *)
Record document : Type := {
  text_list : list string;
  image_info : list sample_image
}.

(** One image of a batch: a tensor of shape [(channels, height, width)]. *)
Definition Tensor3 : Type := list (list (list Q)).

(** [torch.zeros((n, c, h, w))] as the list of its [n] slices. *)
Definition torch_zeros (n c h w : nat) : list Tensor3 :=
  replicate n (replicate c (replicate h (replicate w 0%Q))).

Definition shape3 (t : Tensor3) : nat * nat * nat :=
  (length t, length (default [] (head t)),
   length (default [] (head (default [] (head t))))).

Definition all_zero (t : Tensor3) : bool :=
  forallb (forallb (forallb (fun x => Qeq_bool x 0))) t.

(** [l[ix]] for a Python index: negative indexes count from the end. *)
Definition py_index {A : Type} (l : list A) (ix : Z) : option nat :=
  let n := Z.of_nat (length l) in
  if (0 <=? ix) && (ix <? n) then Some (Z.to_nat ix)
  else if (ix <? 0) && (- n <=? ix) then Some (Z.to_nat (n + ix))
  else None.

(** Lines 340-341: [sentences[ix] = f"<|endofchunk|><image>{sentences[ix]}"]
    for each retained index, in order. *)
Fixpoint mark_sentences (sentences : list string) (sentence_ixs : list Z)
  : result (list string) :=
  match sentence_ixs with
  | [] => Return sentences
  | ix :: rest =>
      match py_index sentences ix with
      | Some i =>
          match sentences !! i with
          | Some sent =>
              mark_sentences (<[i := "<|endofchunk|><image>" +:+ sent]> sentences) rest
          | None => Raise (IndexError "list index out of range")
          end
      | None => Raise (IndexError "list index out of range")
      end
  end.

(** Lines 343-347. *)
Definition build_text (sentences : list string) (eos_token : string) : string :=
  let text := Str.join " " sentences in
  let text := Str.replace_n "<|endofchunk|>" "" 1 text in
  let text :=
    Str.replace " <image>" "<image>"
      (Str.replace "<image> " "<image>"
         (Str.replace " <|endofchunk|>" "<|endofchunk|>" text)) in
  text +:+ "<|endofchunk|>" +:+ eos_token.

Section WithCollaborators.

(** The decoder, the image library and the processors are opaque
    collaborators. *)
(** [base64.b64decode(image_base64)]: the bytes, or the exception raised
    on a payload that is not base64. *)
Variable b64decode : string -> result (list Byte.byte).
Variable Image : Type.
(** [Image.open(io.BytesIO(rawbytes))] followed by the conversions to RGB:
    the image, or the exception raised on bytes that are no image. *)
Variable Image_open : list Byte.byte -> result Image.
(** [image_processor.preprocess(s, return_tensors="pt")["pixel_values"]],
    one image of shape [(3, 224, 224)]. *)
Variable clip_preprocess : Image -> Tensor3.
(** The horizontal flip of one image. *)
Variable hflip : Tensor3 -> Tensor3.
(** [tokenizer.eos_token] *)
Variable eos_token : string.
(** [tokenizer(text, max_length=256, truncation=True, padding="max_length")]:
    the [input_ids] and the [attention_mask]. *)
Variable tokenizer : string -> list Z * list Z.
(** The id of the [<image>] special token. *)
Variable image_token_id : Z.

(** Lines 299-322: the images that pass the two filters, with their
    sentence indexes.  Every entry is decoded, in order, and the entries
    that pass the filters are opened; the first exception raised by
    either ends the loop. *)
Fixpoint collect_images (infos : list sample_image) (sim_threshold : Q)
  : result (list Image * list Z) :=
  match infos with
  | [] => Return ([], [])
  | sample_image :: rest =>
      rawbytes ← b64decode (image_base64 sample_image);
      if Z.of_nat (length rawbytes) / 1000 <=? MIN_KB
      then collect_images rest sim_threshold
      else if Qlt_le_dec (matched_sim sample_image) sim_threshold
      then collect_images rest sim_threshold
      else
        image ← Image_open rawbytes;
        '(images, sentence_ixs) ← collect_images rest sim_threshold;
        Return (image :: images,
                matched_text_index sample_image :: sentence_ixs)
  end.

(** [preprocess_image(sample, image_processor)], lines 260-268;
    [flip_draw] is the number [RandomHorizontalFlip(p=0.5)] draws, and the
    whole batch is flipped when it is below [p]. *)
Definition preprocess_image (sample : list Image) (flip_draw : Q) : list Tensor3 :=
  let image := map clip_preprocess sample in
  if Qlt_le_dec flip_draw (1 # 2) then map hflip image else image.

(** Line 352. *)
Definition count_image_tokens (input_ids : list Z) : nat :=
  length (filter (fun t => t = image_token_id) input_ids).

(** [preprocess_interleaved(sample, tokenizer, clip_processor, sim_threshold)],
    lines 295-362; [coin] is the value of [random.random()]. *)
Definition preprocess_interleaved (info : document) (sim_threshold : Q)
  (flip_draw coin : Q) : result (list Tensor3 * (list Z * list Z)) :=
  let sentences := text_list info in
  '(images, sentence_ixs) ← collect_images (image_info info) sim_threshold;
  if (length images =? 0)%nat then Raise (ValueError "No images in sample")
  else
    let images_tensors := preprocess_image images flip_draw in
    let keep := Nat.min (length images_tensors) MAX_NUM_IMAGES in
    let images_tensors := take keep images_tensors in
    let sentence_ixs := take keep sentence_ixs in
    let images_tensors :=
      if (length images_tensors <? MAX_NUM_IMAGES)%nat
      then images_tensors
           ++ torch_zeros (MAX_NUM_IMAGES - length images_tensors) 3 224 224
      else images_tensors in
    sentences ← mark_sentences sentences sentence_ixs;
    let text := build_text sentences eos_token in
    let text_tensor := tokenizer text in
    let num_images := count_image_tokens (fst text_tensor) in
    if (num_images =? 0)%nat then Raise (ValueError "No images in sample")
    else if ((num_images =? 1)%nat && Qle_bool coin (1 # 2))%bool
    then Raise (ValueError "Only one image in sample")
    else Return (images_tensors, text_tensor).


End WithCollaborators.


End Interleaved.

(** ** Regrouping records into samples: [group_by_keys_nothrow] *)

Module Regroup.

#[global] Instance byte_eq_dec : EqDecision Byte.byte := Byte.byte_eq_dec.

(** The values a sample holds: the prefix and the url are strings, the
    payload of a record is bytes. *)
Inductive value : Type :=
| VStr (s : string)
| VBytes (b : list Byte.byte).

#[global] Instance value_eq_dec : EqDecision value.
Proof. solve_decision. Defined.

(** One dictionary of the expanded tar stream. *)
Record filesample : Type := {
  fname : string;
  data : list Byte.byte;
  url : string
}.

(** Truthiness of a value: empty strings and empty bytes are false. *)
Definition truthy (v : value) : bool :=
  match v with
  | VStr s => negb (String.eqb s "")
  | VBytes b => match b with [] => false | _ => true end
  end.

(** webdataset's [valid_sample], library code: a sample is valid when it
    is not [None], has at least one key and has no true ["__bad__"]
    entry. *)
Definition valid_sample (sample : option (gmap string value)) : bool :=
  match sample with
  | None => false
  | Some sample =>
      (0 <? size sample)%nat
      && negb (from_option truthy false (sample !! "__bad__"))
  end.

(** [if valid_sample(current_sample): yield current_sample] *)
Definition flush (current_sample : option (gmap string value))
  : list (gmap string value) :=
  if valid_sample current_sample
  then from_option (fun sample => [sample]) [] current_sample
  else [].

Section WithKeys.

(** The [keys] argument: [None] stands for the pair [(None, None)]. *)
Variable keys : string -> option (string * string).

(** [suffix.lower()], Python's case folding of a string. *)
Variable lower : string -> string.

(** The loop of [group_by_keys_nothrow], lines 132-150, from a given
    [current_sample]; the result is the stream of yielded samples. *)
Fixpoint group_loop (lcase : bool) (suffixes : option (list string))
  (stream : list filesample) (current_sample : option (gmap string value))
  : list (gmap string value) :=
  match stream with
  | [] => flush current_sample
  | filesample :: rest =>
      let value := data filesample in
      match keys (fname filesample) with
      | None => group_loop lcase suffixes rest current_sample
      | Some (prefix, suffix) =>
          let suffix := if lcase then lower suffix else suffix in
          let start :=
            match current_sample with
            | None => true
            | Some cur =>
                bool_decide (cur !! "__key__" ≠ Some (VStr prefix))
                || bool_decide (is_Some (cur !! suffix))
            end in
          let yielded := if start then flush current_sample else [] in
          let current_sample :=
            if start
            then Some (<["__url__" := VStr (url filesample)]>
                         {["__key__" := VStr prefix]})
            else current_sample in
          let current_sample :=
            if match suffixes with
               | None => true
               | Some allowed => bool_decide (suffix ∈ allowed)
               end
            then (fun cur => <[suffix := VBytes value]> cur) <$> current_sample
            else current_sample in
          yielded ++ group_loop lcase suffixes rest current_sample
      end
  end.

(** [group_by_keys_nothrow(data, keys, lcase, suffixes)], lines 125-150. *)
Definition group_by_keys_nothrow (stream : list filesample) (lcase : bool)
  (suffixes : option (list string)) : list (gmap string value) :=
  group_loop lcase suffixes stream None.

(** *** What a regrouped stream should look like

    A group is a prefix with the records that carry it, in stream order. *)

(** [dict(__key__=prefix, __url__=url)] *)
Definition new_sample (prefix url : string) : gmap string value :=
  <["__url__" := VStr url]> {["__key__" := VStr prefix]}.

(** The case-folded extension of a record. *)
Definition suffix_of (r : filesample) : option string :=
  (fun ps => lower (snd ps)) <$> keys (fname r).

Definition prefix_of (r : filesample) : option string :=
  fst <$> keys (fname r).

(** [sample[suffix] = value] for one record. *)
Definition add_field (sample : gmap string value) (r : filesample)
  : gmap string value :=
  match suffix_of r with
  | Some suffix => <[suffix := VBytes (data r)]> sample
  | None => sample
  end.

(** The sample of a group: the fields of all its records, next to the
    prefix and the url of its first record. *)
Definition sample_of (g : string * list filesample) : gmap string value :=
  let '(prefix, records) := g in
  foldl add_field
    (new_sample prefix (from_option url "" (head records))) records.

(** A group is well formed when it is not empty, all its records carry
    its prefix, no case-folded extension repeats or collides with the two
    bookkeeping keys, and its sample is valid. *)
Definition group_ok (g : string * list filesample) : bool :=
  let '(prefix, records) := g in
  match records with [] => false | _ => true end
  && forallb (fun r => bool_decide (prefix_of r = Some prefix)) records
  && bool_decide (NoDup (map suffix_of records))
  && forallb (fun r => bool_decide (suffix_of r ≠ Some "__key__")
                       && bool_decide (suffix_of r ≠ Some "__url__")) records
  && valid_sample (Some (sample_of g)).

End WithKeys.

(** webdataset's [base_plus_ext], the default of [keys] (library code),
    for names without line breaks: a name is split at the first dot of
    its last path component; when that component starts with the dot, the
    directory before it must be free of dots. *)
Fixpoint split_dot (s : string) : option (string * string) :=
  match s with
  | EmptyString => None
  | String c r =>
      if Ascii.eqb c "."%char then Some (EmptyString, r)
      else
        match split_dot r with
        | Some (a, b) => Some (String c a, b)
        | None => None
        end
  end.

Definition base_plus_ext (path : string) : option (string * string) :=
  let '(head, tail) := Path.head_tail path in
  match split_dot tail with
  | None => None
  | Some (String c base, ext) => Some (head +:+ String c base, ext)
  | Some (EmptyString, ext) =>
      match head with
      | EmptyString => None
      | _ =>
          let parent :=
            String.substring 0 (String.length head - 1) head in
          if Str.contains "." (snd (Path.head_tail parent)) then None
          else Some (head, ext)
      end
  end.

End Regroup.

(** ** Instruction-tuning path: [get_mimicit_dataset] *)

Module Mimicit.

Record Args : Type := {
  mimicit_ic_path : string;
  past_mimicit_ic_path : string;
  images_ic_path : string;
  past_images_ic_path : string;
  train_config_ic_path : string;
  past_train_config_ic_path : string;
  val_mimicit_ic_path : string;
  val_images_ic_path : string;
  val_config_ic_path : string;
  mimicit_path : string;
  past_mimicit_path : string;
  images_path : string;
  past_images_path : string;
  train_config_path : string;
  past_train_config_path : string;
  val_mimicit_path : string;
  val_images_path : string;
  val_config_path : string;
  mimicit_text_path : string;
  past_mimicit_text_path : string;
  train_config_text_path : string;
  past_train_config_text_path : string;
  mimicit_vt_path : string;
  past_mimicit_vt_path : string;
  images_vt_path : string;
  past_images_vt_path : string;
  train_num_samples : Z;
  val_num_samples : Z;
  batch_size : Z;
  world_size : Z;
  rank : Z;
  workers : Z;
  distributed_type : string
}.

(** A [MimicitDataset] object: the constructor call of the function that
    created it ([slot], which tells objects apart), its positional path
    lists and its [status_list]. *)
Record MimicitDataset : Type := {
  slot : nat;
  paths : list (list string);
  status_list : list string
}.

#[global] Instance MimicitDataset_eq_dec : EqDecision MimicitDataset.
Proof. solve_decision. Defined.

Inductive sampler : Type :=
| RandomSampler (data_source : MimicitDataset) (replacement : bool) (num_samples : Z)
| DistributedProxySampler (inner : sampler) (num_replicas rank : Z).

(** A [torch.utils.data.DataLoader]; [collate_fn] is shown by the dataset
    object whose bound [collate] method it is. *)
Record DataLoader : Type := {
  dataset : MimicitDataset;
  loader_sampler : sampler;
  loader_batch_size : Z;
  num_workers : Z;
  pin_memory : bool;
  drop_last : bool;
  collate_fn : MimicitDataset
}.

Definition nonempty (s : string) : bool := negb (String.eqb s "").

(** [new.split(",") + past.split(",") if past != "" else new.split(",")] *)
Definition all_paths (new past gate : string) : list string :=
  if nonempty gate then Str.split_comma new ++ Str.split_comma past
  else Str.split_comma new.

(** [["new"] * len(new.split(",")) + ["past"] * len(past.split(","))], or
    the first summand alone when [past] is empty. *)
Definition status_of (new past : string) : list string :=
  if nonempty past
  then replicate (length (Str.split_comma new)) "new"
       ++ replicate (length (Str.split_comma past)) "past"
  else replicate (length (Str.split_comma new)) "new".

(** Lines 651-735: the training and the validation datasets, in the order
    they are appended. *)
Definition build_datasets (args : Args)
  : list MimicitDataset * list MimicitDataset :=
  let unified_datasets : list MimicitDataset := [] in
  let val_unified_datasets : list MimicitDataset := [] in
  let '(unified_datasets, val_unified_datasets) :=
    if nonempty (mimicit_ic_path args) then
      let all_mimicit_ic_path :=
        all_paths (mimicit_ic_path args) (past_mimicit_ic_path args)
          (past_mimicit_ic_path args) in
      let all_images_ic_path :=
        all_paths (images_ic_path args) (past_images_ic_path args)
          (past_images_ic_path args) in
      let all_train_config_ic_path :=
        all_paths (train_config_ic_path args) (past_train_config_ic_path args)
          (past_train_config_ic_path args) in
      let ic_status :=
        status_of (mimicit_ic_path args) (past_mimicit_ic_path args) in
      let unified_dataset :=
        {| slot := 0;
           paths := [all_mimicit_ic_path; all_images_ic_path;
                     all_train_config_ic_path];
           status_list := ic_status |} in
      let unified_datasets := unified_datasets ++ [unified_dataset] in
      if nonempty (val_mimicit_ic_path args) then
        let val_unified_dataset :=
          {| slot := 1;
             paths := [Str.split_comma (val_mimicit_ic_path args);
                       Str.split_comma (val_images_ic_path args);
                       Str.split_comma (val_config_ic_path args)];
             status_list := ic_status |} in
        (unified_datasets, val_unified_datasets ++ [val_unified_dataset])
      else (unified_datasets, val_unified_datasets)
    else (unified_datasets, val_unified_datasets) in
  let '(unified_datasets, val_unified_datasets) :=
    if nonempty (mimicit_path args) then
      let all_mimicit_path :=
        all_paths (mimicit_path args) (past_mimicit_path args)
          (past_mimicit_path args) in
      let all_images_path :=
        all_paths (images_path args) (past_images_path args)
          (past_images_path args) in
      let all_train_config_path :=
        all_paths (train_config_path args) (past_train_config_path args)
          (past_train_config_path args) in
      let status := status_of (mimicit_path args) (past_mimicit_path args) in
      let unified_dataset :=
        {| slot := 2;
           paths := [all_mimicit_path; all_images_path; all_train_config_path];
           status_list := status |} in
      let unified_datasets := unified_datasets ++ [unified_dataset] in
      if nonempty (val_mimicit_path args) then
        let val_unified_dataset :=
          {| slot := 3;
             paths := [Str.split_comma (val_mimicit_path args);
                       Str.split_comma (val_images_path args);
                       Str.split_comma (val_config_path args)];
             status_list := status |} in
        (unified_datasets, val_unified_datasets ++ [val_unified_dataset])
      else (unified_datasets, val_unified_datasets)
    else (unified_datasets, val_unified_datasets) in
  let unified_datasets :=
    if nonempty (mimicit_text_path args) then
      let all_mimicit_text_path :=
        all_paths (mimicit_text_path args) (past_mimicit_text_path args)
          (past_mimicit_text_path args) in
      let all_train_config_text_path :=
        all_paths (train_config_text_path args)
          (past_train_config_text_path args)
          (past_train_config_text_path args) in
      let text_status :=
        status_of (mimicit_text_path args) (past_mimicit_text_path args) in
      unified_datasets
      ++ [{| slot := 4;
             paths := [all_mimicit_text_path; all_train_config_text_path];
             status_list := text_status |}]
    else unified_datasets in
  let unified_datasets :=
    if nonempty (mimicit_vt_path args) then
      let all_mimicit_vt_path :=
        all_paths (mimicit_vt_path args) (past_mimicit_vt_path args)
          (past_mimicit_vt_path args) in
      let all_images_vt_path :=
        all_paths (images_vt_path args) (past_images_vt_path args)
          (past_images_vt_path args) in
      let vt_status :=
        status_of (mimicit_vt_path args) (past_mimicit_vt_path args) in
      unified_datasets
      ++ [{| slot := 5;
             paths := [all_mimicit_vt_path; all_images_vt_path];
             status_list := vt_status |}]
    else unified_datasets in
  (unified_datasets, val_unified_datasets).

(** [statistics.median] *)
Definition median (data : list Z) : result Q :=
  let data := merge_sort Z.le data in
  let n := length data in
  if (n =? 0)%nat then Raise (StatisticsError "no median for empty data")
  else if Nat.odd n then Return (inject_Z (nth (n / 2) data 0))
  else
    let i := (n / 2)%nat in
    let low := nth (i - 1) data 0 in
    let high := nth i data 0 in
    Return ((inject_Z low + inject_Z high) / 2)%Q.

(** [max] of a list *)
Definition py_max (data : list Z) : result Z :=
  match data with
  | [] => Raise (ValueError "max() arg is an empty sequence")
  | x :: rest => Return (foldl Z.max x rest)
  end.

(** [a / b] for a number [a] and an integer [b]. *)
Definition true_div (a : Q) (b : Z) : result Q :=
  if b =? 0 then Raise (ZeroDivisionError "division by zero")
  else Return (a / inject_Z b)%Q.

Definition size_error : string := "your train_num_samples is larger than dataset".

Section WithLen.

(** [len(dataset)], answered by the dataset object. *)
Variable len : MimicitDataset -> Z.

(** Lines 768-769. *)
Definition wrap_distributed (args : Args) (inner : sampler) : sampler :=
  if (String.eqb (distributed_type args) "DEEPSPEED"
      || String.eqb (distributed_type args) "MULTI_GPU")%bool
  then DistributedProxySampler inner (world_size args) (rank args)
  else inner.

(** The body of the loop of lines 763-780. *)
Definition train_loader (args : Args) (unified_datasets : list MimicitDataset)
  (num_samples : Z) (unified_dataset : MimicitDataset) : DataLoader :=
  let sampler :=
    if (length unified_datasets =? 1)%nat
    then RandomSampler unified_dataset false (len unified_dataset)
    else RandomSampler unified_dataset true num_samples in
  let sampler := wrap_distributed args sampler in
  {| dataset := unified_dataset;
     loader_sampler := sampler;
     loader_batch_size := batch_size args;
     num_workers := workers args;
     pin_memory := true;
     drop_last := true;
     collate_fn := unified_dataset |}.

(** The body of the loop of lines 781-798; [unified_dataset] is the
    variable the first loop left bound. *)
Definition val_loader (args : Args) (val_unified_datasets : list MimicitDataset)
  (num_samples : Z) (unified_dataset : MimicitDataset)
  (val_unified_dataset : MimicitDataset) : DataLoader :=
  let sampler :=
    if (length val_unified_datasets =? 1)%nat
    then RandomSampler val_unified_dataset false (len val_unified_dataset)
    else RandomSampler val_unified_dataset true num_samples in
  let sampler := wrap_distributed args sampler in
  {| dataset := val_unified_dataset;
     loader_sampler := sampler;
     loader_batch_size := batch_size args;
     num_workers := workers args;
     pin_memory := true;
     drop_last := true;
     collate_fn := unified_dataset |}.

(** [get_mimicit_dataset(args, image_processor, tokenizer, epoch, floor)],
    lines 646-803. *)
Definition get_mimicit_dataset (args : Args) (floor : bool)
  : result (list DataLoader * list DataLoader) :=
  let '(unified_datasets, val_unified_datasets) := build_datasets args in
  train_num_samples ←
    (if train_num_samples args =? -1
     then median (map len unified_datasets)
     else Return (inject_Z (train_num_samples args)));
  val_num_samples ←
    (if val_num_samples args =? -1
     then median (map len val_unified_datasets)
     else Return (inject_Z (val_num_samples args)));
  largest ← py_max (map len unified_datasets);
  _ ← assert (Qle_bool train_num_samples (inject_Z largest)) size_error;
  val_largest ← py_max (map len val_unified_datasets);
  _ ← assert (Qle_bool val_num_samples (inject_Z val_largest)) size_error;
  let global_batch_size := batch_size args * world_size args in
  let num_samples := train_num_samples in
  q ← true_div num_samples global_batch_size;
  let num_batches := Webdataset.round_fn floor q in
  q' ← true_div val_num_samples global_batch_size;
  let num_val_batches := Webdataset.round_fn floor q' in
  let num_samples := num_batches * global_batch_size in
  let val_num_samples := num_val_batches * global_batch_size in
  let dataloaders :=
    map (train_loader args unified_datasets num_samples) unified_datasets in
  match val_unified_datasets with
  | [] => Return (dataloaders, [])
  | _ =>
      match last unified_datasets with
      | Some unified_dataset =>
          Return (dataloaders,
                  map (val_loader args val_unified_datasets num_samples
                         unified_dataset) val_unified_datasets)
      | None =>
          Raise (UnboundLocalError
                   "local variable 'unified_dataset' referenced before assignment")
      end
  end.

End WithLen.

End Mimicit.

(** ** Concrete configurations to run the model on *)

Module Examples.

Import ShardLocator Webdataset.

(** A pattern without braces expands to itself. *)
Definition one_shard (pattern : string) : list string := [pattern].

(** A directory whose [sizes.json] lists 100 samples for the one shard. *)
Definition sized_directory : sidecars :=
  {| sizes_json :=
       {[ "/data/mmc4/sizes.json" := Return {[ "shard-0.tar" := Return 100 ]} ]};
     len_file := ∅ |}.

(** A directory whose [sizes.json] is not JSON. *)
Definition unreadable_directory : sidecars :=
  {| sizes_json :=
       {[ "/data/mmc4/sizes.json" :=
            Raise (OtherError "JSONDecodeError"
                     "Expecting value: line 1 column 1 (char 0)") ]};
     len_file := ∅ |}.

Definition no_sidecars : sidecars := {| sizes_json := ∅; len_file := ∅ |}.

(** One shard per dataset, 64 configured samples, batches of 8 on one
    node with one worker. *)
Definition small_args : Args :=
  {| laion_shards := Some "/data/laion/shard-0.tar";
     mmc4_shards := Some "/data/mmc4/shard-0.tar";
     cc3m_shards := Some "/data/cc3m/shard-0.tar";
     dataset_resampled := false;
     train_num_samples_laion := Some 64;
     train_num_samples_mmc4 := Some 64;
     train_num_samples_cc3m := Some 64;
     batch_size_laion := 8;
     batch_size_mmc4 := 8;
     batch_size_cc3m := 8;
     mmc4_textsim_threshold := 24 # 100;
     seed := 42;
     workers := 1;
     world_size := 1 |}.


(** One shard per dataset for 4 nodes with 2 workers each, without
    resampling. *)
Definition few_shards_args : Args :=
  {| laion_shards := Some "/data/laion/shard-0.tar";
     mmc4_shards := Some "/data/mmc4/shard-0.tar";
     cc3m_shards := Some "/data/cc3m/shard-0.tar";
     dataset_resampled := false;
     train_num_samples_laion := Some 1000;
     train_num_samples_mmc4 := Some 1000;
     train_num_samples_cc3m := Some 1000;
     batch_size_laion := 8;
     batch_size_mmc4 := 8;
     batch_size_cc3m := 8;
     mmc4_textsim_threshold := 24 # 100;
     seed := 42;
     workers := 2;
     world_size := 4 |}.

(** The same without a configured sample count for mmc4. *)
Definition few_shards_without_count : Args :=
  {| laion_shards := Some "/data/laion/shard-0.tar";
     mmc4_shards := Some "/data/mmc4/shard-0.tar";
     cc3m_shards := Some "/data/cc3m/shard-0.tar";
     dataset_resampled := false;
     train_num_samples_laion := Some 1000;
     train_num_samples_mmc4 := None;
     train_num_samples_cc3m := Some 1000;
     batch_size_laion := 8;
     batch_size_mmc4 := 8;
     batch_size_cc3m := 8;
     mmc4_textsim_threshold := 24 # 100;
     seed := 42;
     workers := 2;
     world_size := 4 |}.

(** Resampling without a shard pattern for mmc4. *)
Definition resampled_without_shards : Args :=
  {| laion_shards := Some "/data/laion/shard-0.tar";
     mmc4_shards := None;
     cc3m_shards := Some "/data/cc3m/shard-0.tar";
     dataset_resampled := true;
     train_num_samples_laion := Some 1000;
     train_num_samples_mmc4 := Some 1000;
     train_num_samples_cc3m := Some 1000;
     batch_size_laion := 8;
     batch_size_mmc4 := 8;
     batch_size_cc3m := 8;
     mmc4_textsim_threshold := 24 # 100;
     seed := 42;
     workers := 2;
     world_size := 4 |}.


(** The shard shuffle of a pipeline in epoch 3, once reading a shared
    epoch cell inside a dataloader worker and once counting epochs itself
    (two runs done) in a process without worker info. *)
Definition shared_stage : Shuffle.detshuffle2 :=
  {| Shuffle.bufsize := 4; Shuffle.initial := 2; Shuffle.seed := 42;
     Shuffle.epoch := Shuffle.SharedEpoch 3 |}.

Definition counting_stage : Shuffle.detshuffle2 :=
  {| Shuffle.bufsize := 4; Shuffle.initial := 2; Shuffle.seed := 42;
     Shuffle.epoch := Shuffle.OwnCounter 2 |}.

Definition worker_process : Shuffle.process :=
  {| Shuffle.get_worker_info :=
       Some {| Shuffle.wi_seed := 1234; Shuffle.wi_num_workers := 2 |};
     Shuffle.wds_pytorch_worker_seed := 77 |}.

Definition main_process : Shuffle.process :=
  {| Shuffle.get_worker_info := None;
     Shuffle.wds_pytorch_worker_seed := 77 |}.

Definition seven_shards : list string :=
  ["s0"; "s1"; "s2"; "s3"; "s4"; "s5"; "s6"].

(** Stand-ins for the collaborators of the assembler: the decoder reads
    canonical base64 (characters of the alphabet in groups of four, the
    last group padded with [=]) and raises on any other text, every
    payload opens and the image is shown by the number of its bytes, the
    processor gives every image the same grey tensor, and the tokenizer emits one id per character,
    the id 32000 for each [<image>] placeholder, truncated and padded to
    256 ids. *)
Definition b64_digit (c : ascii) : option Z :=
  let n := Z.of_nat (nat_of_ascii c) in
  if (65 <=? n) && (n <=? 90) then Some (n - 65)
  else if (97 <=? n) && (n <=? 122) then Some (n - 71)
  else if (48 <=? n) && (n <=? 57) then Some (n + 4)
  else if n =? 43 then Some 62
  else if n =? 47 then Some 63
  else None.

Definition byte_of_Z (z : Z) : Byte.byte :=
  default "000"%byte (Byte.of_N (Z.to_N (z mod 256))).

Fixpoint b64decode_chars (cs : list ascii) : option (list Byte.byte) :=
  match cs with
  | [] => Some []
  | a :: b :: c :: d :: rest =>
      match b64_digit a, b64_digit b with
      | Some x, Some y =>
          if Ascii.eqb d "="%char then
            match rest with
            | [] =>
                if Ascii.eqb c "="%char then Some [byte_of_Z (x * 4 + y / 16)]
                else
                  match b64_digit c with
                  | Some z =>
                      Some [byte_of_Z (x * 4 + y / 16); byte_of_Z (y * 16 + z / 4)]
                  | None => None
                  end
            | _ => None
            end
          else
            match b64_digit c, b64_digit d with
            | Some z, Some w =>
                tail ← b64decode_chars rest;
                Some (byte_of_Z (x * 4 + y / 16) :: byte_of_Z (y * 16 + z / 4)
                      :: byte_of_Z (z * 64 + w) :: tail)
            | _, _ => None
            end
      | _, _ => None
      end
  | _ => None
  end.

Definition toy_b64decode (image_base64 : string) : result (list Byte.byte) :=
  match b64decode_chars (String.list_ascii_of_string image_base64) with
  | Some rawbytes => Return rawbytes
  | None => Raise (OtherError "Error" "Incorrect padding")
  end.

Definition toy_open (rawbytes : list Byte.byte) : result Z :=
  Return (Z.of_nat (length rawbytes)).

Definition toy_preprocess (image : Z) : Interleaved.Tensor3 :=
  replicate 3 (replicate 224 (replicate 224 (1 # 2)%Q)).

Definition toy_hflip (t : Interleaved.Tensor3) : Interleaved.Tensor3 :=
  map (map (@rev Q)) t.

Fixpoint toy_ids (skip : nat) (text : string) : list Z :=
  match text with
  | EmptyString => []
  | String c rest =>
      match skip with
      | S k => toy_ids k rest
      | O =>
          match Str.strip_prefix "<image>" text with
          | Some _ => 32000 :: toy_ids 6 rest
          | None => Z.of_nat (nat_of_ascii c) :: toy_ids 0 rest
          end
      end
  end.

Definition toy_tokenizer (text : string) : list Z * list Z :=
  let ids := take 256 (toy_ids 0 text) in
  (ids ++ replicate (256 - length ids) 0,
   replicate (length ids) 1 ++ replicate (256 - length ids) 0).

Abbreviation toy_assembler :=
  (Interleaved.preprocess_interleaved toy_b64decode Z toy_open
     toy_preprocess toy_hflip "</s>" toy_tokenizer 32000).

(** The base64 text of [size] zero bytes. *)
Definition zeros_base64 (size : Z) : string :=
  String.concat "" (replicate (Z.to_nat (size / 3)) "AAAA")
  +:+ (if size mod 3 =? 1 then "AA=="
       else if size mod 3 =? 2 then "AAA=" else "").

(** An image descriptor with a payload of [size] bytes. *)
Definition image_of_size (size : Z) (sim : Q) (ix : Z) : Interleaved.sample_image :=
  {| Interleaved.image_base64 := zeros_base64 size;
     Interleaved.matched_sim := sim;
     Interleaved.matched_text_index := ix |}.

Definition sentences7 : list string :=
  ["One."; "Two."; "Three."; "Four."; "Five."; "Six."; "Seven."].

(** Seven images above both thresholds. *)
Definition seven_image_doc : Interleaved.document :=
  {| Interleaved.text_list := sentences7;
     Interleaved.image_info :=
       map (fun ix => image_of_size 12000 (3 # 10) ix) [0; 1; 2; 3; 4; 5; 6] |}.

(** Two images above both thresholds, one too small, one too dissimilar. *)
Definition two_image_doc : Interleaved.document :=
  {| Interleaved.text_list := sentences7;
     Interleaved.image_info :=
       [image_of_size 12000 (3 # 10) 0; image_of_size 500 (3 # 10) 1;
        image_of_size 12000 (1 # 10) 2; image_of_size 20000 (1 # 4) 3] |}.

(** No image passes. *)
Definition no_image_doc : Interleaved.document :=
  {| Interleaved.text_list := sentences7;
     Interleaved.image_info :=
       [image_of_size 500 (3 # 10) 1; image_of_size 12000 (1 # 10) 2] |}.

(** One image of 10500 bytes, similar enough. *)
Definition ten_kb_doc : Interleaved.document :=
  {| Interleaved.text_list := sentences7;
     Interleaved.image_info := [image_of_size 10500 (3 # 10) 0] |}.

(** One image above both thresholds, matched to a sentence the document
    does not have. *)
Definition misindexed_doc : Interleaved.document :=
  {| Interleaved.text_list := sentences7;
     Interleaved.image_info := [image_of_size 12000 (3 # 10) 99] |}.

(** One image above both thresholds whose payload is not base64. *)
Definition undecodable_doc : Interleaved.document :=
  {| Interleaved.text_list := sentences7;
     Interleaved.image_info :=
       [{| Interleaved.image_base64 := "not base64";
           Interleaved.matched_sim := 3 # 10;
           Interleaved.matched_text_index := 0 |}] |}.

(** The image tensor and the text tensor of [two_image_doc]. *)
Definition two_image_tensors : list Interleaved.Tensor3 :=
  [toy_preprocess 12000; toy_preprocess 20000]
  ++ Interleaved.torch_zeros 3 3 224 224.

Definition two_image_text : list Z * list Z :=
  toy_tokenizer
    (Interleaved.build_text
       ["<|endofchunk|><image>One."; "Two."; "Three.";
        "<|endofchunk|><image>Four."; "Five."; "Six."; "Seven."] "</s>").

Definition record (name : string) (payload : list Byte.byte) : Regroup.filesample :=
  {| Regroup.fname := name; Regroup.data := payload;
     Regroup.url := "/data/laion/shard-0.tar" |}.

(** Two samples stored one after the other. *)
Definition grouped_stream : list (string * list Regroup.filesample) :=
  [("0001", [record "0001.JPG" ["001"%byte]; record "0001.txt" ["002"%byte]]);
   ("0002", [record "0002.jpg" ["003"%byte]; record "0002.txt" ["004"%byte]])].

(** The records of sample [a] with a record of sample [b] in between. *)
Definition interleaved_stream : list Regroup.filesample :=
  [record "a.jpg" ["001"%byte]; record "b.jpg" ["002"%byte];
   record "a.txt" ["003"%byte]].

(** Two records of one prefix, the second with the extension [__url__]. *)
Definition bookkeeping_stream : list Regroup.filesample :=
  [record "a.txt" ["001"%byte]; record "a.__url__" ["002"%byte]].

(** One image-text training dataset of 100 records with a validation
    dataset of 20 records, nothing else configured. *)
Definition mimicit_args (train_count val_count : Z) (val_path : string)
  : Mimicit.Args :=
  {| Mimicit.mimicit_ic_path := "";
     Mimicit.past_mimicit_ic_path := "";
     Mimicit.images_ic_path := "";
     Mimicit.past_images_ic_path := "";
     Mimicit.train_config_ic_path := "";
     Mimicit.past_train_config_ic_path := "";
     Mimicit.val_mimicit_ic_path := "";
     Mimicit.val_images_ic_path := "";
     Mimicit.val_config_ic_path := "";
     Mimicit.mimicit_path := "train/instructions.json";
     Mimicit.past_mimicit_path := "";
     Mimicit.images_path := "train/images.json";
     Mimicit.past_images_path := "";
     Mimicit.train_config_path := "train/config.json";
     Mimicit.past_train_config_path := "";
     Mimicit.val_mimicit_path := val_path;
     Mimicit.val_images_path := "val/images.json";
     Mimicit.val_config_path := "val/config.json";
     Mimicit.mimicit_text_path := "";
     Mimicit.past_mimicit_text_path := "";
     Mimicit.train_config_text_path := "";
     Mimicit.past_train_config_text_path := "";
     Mimicit.mimicit_vt_path := "";
     Mimicit.past_mimicit_vt_path := "";
     Mimicit.images_vt_path := "";
     Mimicit.past_images_vt_path := "";
     Mimicit.train_num_samples := train_count;
     Mimicit.val_num_samples := val_count;
     Mimicit.batch_size := 4;
     Mimicit.world_size := 1;
     Mimicit.rank := 0;
     Mimicit.workers := 2;
     Mimicit.distributed_type := "no" |}.

Definition mimicit_len (d : Mimicit.MimicitDataset) : Z :=
  match Mimicit.slot d with
  | 1%nat | 3%nat => 20
  | _ => 100
  end.

Definition train_dataset : Mimicit.MimicitDataset :=
  {| Mimicit.slot := 2;
     Mimicit.paths := [["train/instructions.json"]; ["train/images.json"];
                       ["train/config.json"]];
     Mimicit.status_list := ["new"] |}.

Definition val_dataset : Mimicit.MimicitDataset :=
  {| Mimicit.slot := 3;
     Mimicit.paths := [["val/instructions.json"]; ["val/images.json"];
                       ["val/config.json"]];
     Mimicit.status_list := ["new"] |}.

(** Loading in the main process: no dataloader workers. *)
Definition main_process_args : Webdataset.Args :=
  {| Webdataset.laion_shards := Some "/data/laion/shard-0.tar";
     Webdataset.mmc4_shards := Some "/data/mmc4/shard-0.tar";
     Webdataset.cc3m_shards := Some "/data/cc3m/shard-0.tar";
     Webdataset.dataset_resampled := false;
     Webdataset.train_num_samples_laion := Some 64;
     Webdataset.train_num_samples_mmc4 := Some 64;
     Webdataset.train_num_samples_cc3m := Some 64;
     Webdataset.batch_size_laion := 8;
     Webdataset.batch_size_mmc4 := 8;
     Webdataset.batch_size_cc3m := 8;
     Webdataset.mmc4_textsim_threshold := 24 # 100;
     Webdataset.seed := 42;
     Webdataset.workers := 0;
     Webdataset.world_size := 2 |}.

End Examples.

(** ** Resampled shard source: [ResampledShards2] *)

Module Resample.

Import Shuffle.

Section WithRandom.

(** Python's generator is library code: [rng_seed s] is a generator after
    [rng.seed(s)] and [randbelow rng n] is [rng._randbelow(n)], the draw
    behind [rng.choice]. *)
Variable Rng : Type.
Variable rng_seed : Z -> Rng.
Variable randbelow : Rng -> nat -> nat * Rng.

(** The attributes of a [ResampledShards2] object, lines 227-235;
    [worker_seed] is the value the callable returns, [nshards] the number
    of draws. *)
Record ResampledShards2 : Type := {
  urls : list string;
  nshards : nat;
  rng : Rng;
  worker_seed : option Z;
  deterministic : bool;
  epoch : epoch_ref
}.

(** [__init__], lines 216-235, on the expanded url list; [fresh] is the
    state of the new [random.Random()]. *)
Definition init (fresh : Rng) (urls : list string) (nshards : nat)
  (worker_seed : option Z) (deterministic : bool) (epoch : epoch_ref)
  : result ResampledShards2 :=
  match urls with
  | [] => Raise (IndexError "list index out of range")
  | _ =>
      Return {| urls := urls; nshards := nshards; rng := fresh;
                worker_seed := worker_seed; deterministic := deterministic;
                epoch := epoch |}
  end.

(** [rng.choice(seq)] *)
Definition choice (rng : Rng) (seq : list string) : result (string * Rng) :=
  match seq with
  | [] => Raise (IndexError "Cannot choose from an empty sequence")
  | _ =>
      let '(i, rng') := randbelow rng (length seq) in
      match seq !! i with
      | Some url => Return (url, rng')
      | None => Raise (IndexError "list index out of range")
      end
  end.

(** Lines 255-256: the urls yielded by [n] draws, the generator
    afterwards, and the exception that ended the loop early, if any. *)
Fixpoint draw (n : nat) (rng : Rng) (urls : list string)
  : list string * Rng * option exn :=
  match n with
  | O => ([], rng, None)
  | S n' =>
      match choice rng urls with
      | Return (url, rng') =>
          let '(out, rng'', e) := draw n' rng' urls in (url :: out, rng'', e)
      | Raise e => ([], rng, Some e)
      end
  end.

(** Lines 239-245: the epoch of an iteration and the attribute afterwards. *)
Definition iter_epoch (self : ResampledShards2) : Z * epoch_ref :=
  match epoch self with
  | SharedEpoch value => (value, SharedEpoch value)
  | OwnCounter n => (n + 1, OwnCounter (n + 1))
  end.

(** Lines 247-254: the generator the draws start from. *)
Definition iter_rng (p : process) (self : ResampledShards2) : Rng :=
  let epoch := fst (iter_epoch self) in
  if deterministic self then
    let seed :=
      match worker_seed self with
      | None => pytorch_worker_seed p epoch
      | Some s => s + epoch
      end in
    rng_seed seed
  else rng self.

(** [__iter__], lines 237-256: the yielded urls (each stands for the
    dictionary [dict(url=...)]), the exception that ended the iteration,
    if any, and the object afterwards. *)
Definition iter (p : process) (self : ResampledShards2)
  : list string * option exn * ResampledShards2 :=
  let '(out, rng', e) := draw (nshards self) (iter_rng p self) (urls self) in
  (out, e,
   {| urls := urls self; nshards := nshards self; rng := rng';
      worker_seed := worker_seed self; deterministic := deterministic self;
      epoch := snd (iter_epoch self) |}).

End WithRandom.

(** [_randbelow] of the linear congruential generator of [Shuffle]. *)
Definition lcg_randbelow (state : Z) (n : nat) : nat * Z :=
  let state' := lcg_next state in
  (Z.to_nat (state' mod Z.of_nat n), state').

End Resample.

(** ** Sample counting, sample selection and dataset dispatch *)

Module Loader.

(** The loop of [count_samples], lines 89-92. *)
Fixpoint count_loop {I T : Type} (dataloader : list (list I * list T))
  (n_elements n_batches : Z) : result (Z * Z) :=
  match dataloader with
  | [] => Return (n_elements, n_batches)
  | (images, texts) :: rest =>
      let n_batches := n_batches + 1 in
      let n_elements := n_elements + Z.of_nat (length images) in
      _ ← assert (Z.of_nat (length images) =? Z.of_nat (length texts)) "";
      count_loop rest n_elements n_batches
  end.

(** [count_samples(dataloader)], lines 86-93: the environment after the
    call and its result. *)
Definition count_samples {I T : Type} (environ : gmap string string)
  (dataloader : list (list I * list T))
  : gmap string string * result (Z * Z) :=
  let environ := <["WDS_EPOCH" := "0"]> environ in
  (environ, count_loop dataloader 0 0).

(** [filter_no_caption_or_no_image(sample)], lines 96-97. *)
Definition filter_no_caption_or_no_image (sample : gmap string Regroup.value)
  : bool :=
  bool_decide (is_Some (sample !! "txt"))
  && (bool_decide (is_Some (sample !! "png"))
      || bool_decide (is_Some (sample !! "jpg"))
      || bool_decide (is_Some (sample !! "jpeg"))).

(** The functions [get_dataset_fn] can return. *)
Inductive constructor : Type :=
| get_laion_dataset
| get_mmc4_dataset
| get_mimicit_dataset
| get_cc3m_dataset.

(** [get_dataset_fn(dataset_type)], lines 806-816. *)
Definition get_dataset_fn (dataset_type : string) : result constructor :=
  if String.eqb dataset_type "laion" then Return get_laion_dataset
  else if String.eqb dataset_type "mmc4" then Return get_mmc4_dataset
  else if String.eqb dataset_type "mimicit" then Return get_mimicit_dataset
  else if String.eqb dataset_type "cc3m" then Return get_cc3m_dataset
  else Raise (ValueError ("Unsupported dataset type: " +:+ dataset_type)).

Section WithEnvironment.

Variable braceexpand : string -> list string.
Variable len : Mimicit.MimicitDataset -> Z.


End WithEnvironment.

End Loader.

(** ** Notions used to state the properties *)

Module Notions.

(** The seeds of [k] successive runs of a [detshuffle2] object. *)
Fixpoint seeds_of_runs (k : nat) (p : Shuffle.process)
  (self : Shuffle.detshuffle2) : list Z :=
  match k with
  | O => []
  | S k' =>
      Shuffle.run_seed p self
      :: seeds_of_runs k' p (snd (Shuffle.next_epoch self))
  end.

(** [ix] is a valid Python index into a list of [n] elements. *)
Definition in_range (n : nat) (ix : Z) : bool :=
  (- Z.of_nat n <=? ix) && (ix <? Z.of_nat n).


(** The name of a record splits into a prefix and an extension. *)
Definition splittable (keys : string -> option (string * string))
  (r : Regroup.filesample) : bool :=
  match keys (Regroup.fname r) with
  | Some _ => true
  | None => false
  end.

(** A key of the bookkeeping entries [__key__] and [__url__]. *)
Definition bookkeeping (key : string) : bool :=
  String.eqb key "__key__" || String.eqb key "__url__".

(** A group has a caption record and an image record. *)
Definition has_caption_and_image (keys : string -> option (string * string))
  (lower : string -> string) (g : string * list Regroup.filesample) : bool :=
  let suffixes := map (Regroup.suffix_of keys lower) (snd g) in
  bool_decide (Some "txt" ∈ suffixes)
  && (bool_decide (Some "png" ∈ suffixes)
      || bool_decide (Some "jpg" ∈ suffixes)
      || bool_decide (Some "jpeg" ∈ suffixes)).

(** The warning [log_and_continue] issues for an exception, if any. *)
Definition warning_of (e : exn) : list string :=
  if (Str.contains "No images in sample" (str e)
      || Str.contains "Only one image in sample" (str e))%bool
  then []
  else ["Handling webdataset error (" +:+ repr e +:+ "). Ignoring."].

(** The warnings for the samples of a stream on which [f] raises. *)
Fixpoint warnings {A B : Type} (f : A -> result B) (data : list A)
  : list string :=
  match data with
  | [] => []
  | sample :: rest =>
      match f sample with
      | Return _ => warnings f rest
      | Raise e => warning_of e ++ warnings f rest
      end
  end.

(** The sampler is wrapped in a distributed proxy. *)
Definition is_proxy (s : Mimicit.sampler) : bool :=
  match s with
  | Mimicit.DistributedProxySampler _ _ _ => true
  | Mimicit.RandomSampler _ _ _ => false
  end.

(** The sampler under the proxy, if there is one. *)
Definition base_sampler (s : Mimicit.sampler) : Mimicit.sampler :=
  match s with
  | Mimicit.DistributedProxySampler inner _ _ => inner
  | Mimicit.RandomSampler _ _ _ => s
  end.

(** The run is distributed with DeepSpeed or over several GPUs. *)
Definition distributed (args : Mimicit.Args) : bool :=
  String.eqb (Mimicit.distributed_type args) "DEEPSPEED"
  || String.eqb (Mimicit.distributed_type args) "MULTI_GPU".


End Notions.

(** ** Further configurations to run the model on *)

Module Fixtures.

(** A resampling source over three shards, as the constructors build it:
    deterministic, without a worker seed function, reading a shared
    epoch. *)
Definition three_urls : list string := ["s0.tar"; "s1.tar"; "s2.tar"].

Definition resampled_source : Resample.ResampledShards2 Z :=
  {| Resample.urls := three_urls; Resample.nshards := 5;
     Resample.rng := 99; Resample.worker_seed := None;
     Resample.deterministic := true;
     Resample.epoch := Shuffle.SharedEpoch 3 |}.

(** A shuffle stage left at its default epoch of -1. *)
Definition default_stage : Shuffle.detshuffle2 :=
  {| Shuffle.bufsize := 1000; Shuffle.initial := 100; Shuffle.seed := 7;
     Shuffle.epoch := Shuffle.OwnCounter (-1) |}.

(** A sample with an upper-case image extension and a caption, and a
    sample with a caption only. *)
Definition mixed_groups : list (string * list Regroup.filesample) :=
  [("0001", [Examples.record "0001.JPG" ["001"%byte];
             Examples.record "0001.txt" ["002"%byte]]);
   ("0002", [Examples.record "0002.txt" ["003"%byte]])].

(** The loaders of the configuration with one training and one
    validation dataset. *)
Definition train_loaders : list Mimicit.DataLoader :=
  [{| Mimicit.dataset := Examples.train_dataset;
      Mimicit.loader_sampler :=
        Mimicit.RandomSampler Examples.train_dataset false 100;
      Mimicit.loader_batch_size := 4;
      Mimicit.num_workers := 2;
      Mimicit.pin_memory := true;
      Mimicit.drop_last := true;
      Mimicit.collate_fn := Examples.train_dataset |}].

Definition val_loaders : list Mimicit.DataLoader :=
  [{| Mimicit.dataset := Examples.val_dataset;
      Mimicit.loader_sampler :=
        Mimicit.RandomSampler Examples.val_dataset false 20;
      Mimicit.loader_batch_size := 4;
      Mimicit.num_workers := 2;
      Mimicit.pin_memory := true;
      Mimicit.drop_last := true;
      Mimicit.collate_fn := Examples.train_dataset |}].

End Fixtures.

(** * Properties *)

(** ** Rounding of integer quotients *)

Section Rounding.

Import Webdataset.

Lemma Qfloor_quotient (a b : Z) :
  0 < b -> Qfloor (inject_Z a / inject_Z b) = a / b.
Proof.
  intros Hb. destruct b as [|p|p]; try lia.
  unfold Qdiv, Qinv, inject_Z, Qmult, Qfloor. simpl.
  now rewrite Z.mul_1_r.
Qed.

Lemma Qceiling_quotient (a b : Z) :
  0 < b -> Qceiling (inject_Z a / inject_Z b) = - ((- a) / b).
Proof.
  intros Hb. destruct b as [|p|p]; try lia.
  unfold Qceiling, Qdiv, Qinv, inject_Z, Qmult, Qopp, Qfloor. simpl.
  now rewrite Z.mul_1_r.
Qed.

Lemma round_fn_rounds_to (floor : bool) (a b : Z) :
  0 < b -> rounds_to floor a b (round_fn floor (inject_Z a / inject_Z b)).
Proof.
  intros Hb. unfold rounds_to, round_fn. destruct floor.
  - rewrite Qfloor_quotient by done.
    pose proof (Z.mul_div_le a b Hb).
    pose proof (Z.mul_succ_div_gt a b Hb). lia.
  - rewrite Qceiling_quotient by done.
    pose proof (Z.mul_div_le (- a) b Hb).
    pose proof (Z.mul_succ_div_gt (- a) b Hb). lia.
Qed.

Lemma rounds_to_unique (floor : bool) (a b k k' : Z) :
  0 < b -> rounds_to floor a b k -> rounds_to floor a b k' -> k = k'.
Proof.
  unfold rounds_to. intros Hb H H'. destruct floor; nia.
Qed.

(** The exponent [Float.exponent] finds is not above the quotient. *)
Lemma exponent_lower (a b : Z) :
  0 < a -> 0 < b ->
  (0 <= Float.exponent a b -> b * 2 ^ Float.exponent a b <= a) /\
  (Float.exponent a b < 0 -> b <= a * 2 ^ (- Float.exponent a b)).
Proof.
  intros Ha Hb. unfold Float.exponent, Float.below.
  pose proof (Z.log2_spec a Ha) as [Hla Hla'].
  pose proof (Z.log2_spec b Hb) as [Hlb Hlb'].
  pose proof (Z.log2_nonneg a) as Hna. pose proof (Z.log2_nonneg b) as Hnb.
  set (la := Z.log2 a) in *. set (lb := Z.log2 b) in *.
  destruct (0 <=? la - lb) eqn:He.
  - apply Z.leb_le in He.
    destruct (a <? b * 2 ^ (la - lb)) eqn:Hlt.
    + split; intros H.
      * assert (Hp : 2 ^ la = 2 ^ (lb + 1) * 2 ^ (la - lb - 1)).
        { rewrite <- Z.pow_add_r by lia. f_equal; lia. }
        assert (0 < 2 ^ (la - lb - 1)) by (apply Z.pow_pos_nonneg; lia).
        unfold Z.succ in *. nia.
      * assert (la - lb = 0) as -> by lia. simpl. unfold Z.succ in *.
        assert (la = lb) as Heq by lia. rewrite Heq in *.
        rewrite Z.pow_add_r in Hlb' by lia. change (2 ^ 1) with 2 in *. lia.
    + apply Z.ltb_ge in Hlt. split; intros H; lia.
  - apply Z.leb_gt in He.
    destruct (a * 2 ^ (- (la - lb)) <? b) eqn:Hlt.
    + split; intros H; [lia|].
      assert (Hp : 2 ^ la * 2 ^ (- (la - lb - 1)) = 2 ^ (lb + 1)).
      { rewrite <- Z.pow_add_r by lia. f_equal; lia. }
      assert (0 < 2 ^ (- (la - lb - 1))) by (apply Z.pow_pos_nonneg; lia).
      unfold Z.succ in *. nia.
    + apply Z.ltb_ge in Hlt. split; intros H; lia.
Qed.

(** Rounding [a / b] to a multiple of [1 / P] does not cross an integer
    when [b < 2 * P]. *)
Lemma round_half_even_scaled (a b P : Z) :
  0 <= a -> 0 < b -> 0 < P -> b < 2 * P ->
  let m := Float.round_half_even (a * P) b in
  (a / b) * P <= m < (a / b + 1) * P /\
  (a mod b = 0 -> m = (a / b) * P) /\
  (0 < a mod b -> (a / b) * P < m).
Proof.
  intros Ha Hb HP HbP m.
  pose proof (Z.div_mod a b ltac:(lia)) as Hdm.
  pose proof (Z.mod_pos_bound a b Hb) as Hr.
  set (k := a / b) in *. set (r := a mod b) in *.
  pose proof (Z.div_mod (r * P) b ltac:(lia)) as Hdm'.
  pose proof (Z.mod_pos_bound (r * P) b Hb) as Hu.
  set (t := (r * P) / b) in *. set (u := (r * P) mod b) in *.
  assert (Ht : 0 <= t < P).
  { split; [apply Z.div_pos; nia|]. apply Z.div_lt_upper_bound; nia. }
  assert (Hq : (a * P) / b = k * P + t).
  { symmetry. apply Z.div_unique with u; [lia|]. nia. }
  assert (Hm : (a * P) mod b = u).
  { symmetry. apply Z.mod_unique with (k * P + t); [lia|]. nia. }
  subst m. unfold Float.round_half_even. rewrite Hq, Hm.
  assert (Hup : b <= 2 * u -> t + 1 < P).
  { intros H2. destruct (Z.eq_dec t (P - 1)) as [->|]; [|lia].
    assert (u <= b - P) by nia. lia. }
  assert (Hlow : 0 < r -> t = 0 -> b < 2 * u).
  { intros Hr0 ->. assert (u = r * P) by lia. nia. }
  assert (Hzero : r = 0 -> t = 0 /\ u = 0).
  { intros ->. unfold t, u. rewrite Z.mul_0_l.
    rewrite Z.div_0_l, Z.mod_0_l by lia. done. }
  destruct (2 * u <? b) eqn:H1; [apply Z.ltb_lt in H1|apply Z.ltb_ge in H1].
  - split; [nia|]. split.
    + intros Hr0. destruct (Hzero Hr0) as [-> _]. lia.
    + intros Hr0. destruct (Z.eq_dec t 0) as [Ht0|]; [|nia].
      specialize (Hlow Hr0 Ht0). lia.
  - specialize (Hup H1).
    assert (Hr0 : r <> 0).
    { intros Hr0. destruct (Hzero Hr0) as [_ ->]. lia. }
    destruct (b <? 2 * u) eqn:H2.
    + split; [nia|]. split; [intros; lia|intros; nia].
    + apply Z.ltb_ge in H2.
      destruct (Z.even (k * P + t)).
      * split; [nia|]. split; [intros; lia|].
        intros _. destruct (Z.eq_dec t 0) as [Ht0|]; [|nia].
        specialize (Hlow ltac:(lia) Ht0). lia.
      * split; [nia|]. split; [intros; lia|intros; nia].
Qed.

(** Below [2^53] the float nearest to a quotient rounds, down or up, to
    the same integer as the quotient itself. *)
Lemma quotient_rounds (floor : bool) (a b : Z) :
  0 < a < 2 ^ 53 -> 0 < b < 2 ^ 1075 ->
  exists x, Float.quotient a b = Some x
            /\ rounds_to floor a b (round_fn floor x).
Proof.
  intros [Ha Ha'] [Hb Hb'].
  destruct (exponent_lower a b Ha Hb) as [Hpos Hneg].
  unfold Float.quotient. set (e := Float.exponent a b) in *.
  pose proof (Z.div_mod a b ltac:(lia)) as Hdm.
  pose proof (Z.mod_pos_bound a b Hb) as Hr.
  destruct (0 <=? Z.max (e - 52) (-1074)) eqn:Hq.
  - apply Z.leb_le in Hq.
    assert (He : 52 <= e) by lia.
    specialize (Hpos ltac:(lia)).
    assert (He' : e < 53).
    { destruct (Z_lt_le_dec e 53) as [|Hge]; [done|].
      assert (2 ^ 53 <= 2 ^ e) by (apply Z.pow_le_mono_r; lia). nia. }
    assert (e = 52) as Hee by lia. rewrite Hee in *.
    assert (b = 1) as -> by (change (2 ^ 53) with (2 * 2 ^ 52) in Ha'; nia).
    change (Z.max (52 - 52) (-1074)) with 0. cbn [Z.ltb Z.compare Z.eqb orb andb].
    change (1 * 2 ^ 0) with 1.
    assert (Hm : Float.round_half_even a 1 = a).
    { unfold Float.round_half_even. rewrite Z.mod_1_r, Z.div_1_r. reflexivity. }
    rewrite Hm. eexists; split; [reflexivity|].
    change (2 ^ 0) with 1. rewrite Z.mul_1_r.
    unfold rounds_to, round_fn. destruct floor.
    + rewrite Qfloor_Z. lia.
    + rewrite Qceiling_Z. lia.
  - apply Z.leb_gt in Hq.
    set (q := Z.max (e - 52) (-1074)) in *.
    assert (Hs : 0 < - q <= 1074) by lia.
    assert (HP : 0 < 2 ^ (- q)) by (apply Z.pow_pos_nonneg; lia).
    assert (HbP : b < 2 * 2 ^ (- q)).
    { change 2 with (2 ^ 1) at 1. rewrite <- Z.pow_add_r by lia.
      destruct (Z.max_spec (e - 52) (-1074)) as [[_ Hmax]|[Hle Hmax]];
        fold q in Hmax.
      - rewrite Hmax. exact Hb'.
      - assert (1 + - q = 53 - e) as -> by lia.
        destruct (Z_lt_le_dec e 0) as [Hlt|Hge].
        + specialize (Hneg Hlt).
          assert (2 ^ (53 - e) = 2 ^ 53 * 2 ^ (- e)) as ->.
          { rewrite <- Z.pow_add_r by lia. f_equal; lia. }
          assert (0 < 2 ^ (- e)) by (apply Z.pow_pos_nonneg; lia). nia.
        + specialize (Hpos Hge).
          assert (2 ^ 53 = 2 ^ (53 - e) * 2 ^ e) as Hsplit.
          { rewrite <- Z.pow_add_r by lia. f_equal; lia. }
          assert (0 < 2 ^ e) by (apply Z.pow_pos_nonneg; lia). nia. }
    assert (H971 : (971 <? q) = false) by (apply Z.ltb_ge; lia).
    assert (H971' : (q =? 971) = false) by (apply Z.eqb_neq; lia).
    rewrite H971, H971'. cbn [orb andb].
    eexists; split; [reflexivity|].
    destruct (round_half_even_scaled a b (2 ^ (- q)) ltac:(lia) Hb HP HbP)
      as [[Hlo Hhi] [Hexact Hstrict]].
    set (m := Float.round_half_even (a * 2 ^ (- q)) b) in *.
    set (k := a / b) in *. set (r := a mod b) in *.
    unfold rounds_to, round_fn. destruct floor.
    + unfold Qfloor. rewrite Z2Pos.id by lia.
      assert (m / 2 ^ (- q) = k) as ->.
      { symmetry. apply Z.div_unique with (m - k * 2 ^ (- q)); lia. }
      nia.
    + unfold Qceiling, Qfloor. cbn [Qopp Qnum Qden]. rewrite Z2Pos.id by lia.
      destruct (Z.eq_dec r 0) as [Hr0|Hr0].
      * rewrite (Hexact Hr0). rewrite <- Z.mul_opp_l, Z.div_mul by lia. nia.
      * specialize (Hstrict ltac:(lia)).
        assert ((- m) / 2 ^ (- q) = - (k + 1)) as ->.
        { symmetry. apply Z.div_unique with ((k + 1) * 2 ^ (- q) - m); lia. }
        nia.
Qed.

Lemma true_div_rounds (floor : bool) (a b : Z) :
  0 <= a < 2 ^ 53 -> 0 < b < 2 ^ 1075 ->
  exists x, true_div a b = Return x /\ rounds_to floor a b (round_fn floor x).
Proof.
  intros [Ha Ha'] Hb. unfold true_div.
  destruct (Z.eqb_spec b 0) as [E|_]; [lia|].
  destruct (Z.eqb_spec a 0) as [->|Ha0].
  - exists 0%Q. split; [done|].
    unfold rounds_to, round_fn. destruct floor.
    + change (Qfloor 0) with 0. lia.
    + change (Qceiling 0) with 0. lia.
  - destruct (quotient_rounds floor a b ltac:(lia) Hb) as (x & Hx & Hround).
    rewrite !Z.abs_eq by lia. rewrite Hx.
    assert ((a <? 0) = false) as -> by (apply Z.ltb_ge; lia).
    assert ((b <? 0) = false) as -> by (apply Z.ltb_ge; lia).
    exists x. done.
Qed.


End Rounding.

(** ** The webdataset constructors *)

Section Constructors.

Import ShardLocator Webdataset.

Variable braceexpand : string -> list string.

Lemma get_dataset_fn_unfold (k : dataset_type) fs args epoch floor :
  get_dataset_fn braceexpand k fs args epoch floor =
  webdataset_constructor braceexpand fs args (shards_of k args)
    (train_num_samples_of k args) (batch_size_of k args) (assemble_of k args)
    epoch floor.
Proof. by destruct k. Qed.

(** A locator that returns has expanded the pattern to at least one
    shard and reports their number. *)
Lemma get_dataset_size_shards fs pattern sized :
  get_dataset_size braceexpand fs pattern = Return sized ->
  braceexpand pattern ≠ []
  /\ snd sized = Z.of_nat (length (braceexpand pattern)).
Proof.
  unfold get_dataset_size.
  destruct (braceexpand pattern) as [|first rest]; [done|].
  unfold mbind, result_bind.
  destruct (match sizes_json fs !! _ with Some _ => _ | None => _ end)
    as [total|e]; [|done].
  by intros [= <-].
Qed.

(** Without sidecars next to the first shard the total is undefined. *)
Lemma get_dataset_size_no_sidecars fs pattern first rest :
  braceexpand pattern = first :: rest ->
  sizes_json fs !! Path.join (Path.dirname first) "sizes.json" = None ->
  len_file fs !! Path.join (Path.dirname first) "__len__" = None ->
  get_dataset_size braceexpand fs pattern =
  Return (None, Z.of_nat (length (first :: rest))).
Proof.
  intros Hbe Hs Hl. unfold get_dataset_size. by rewrite Hbe, Hs, Hl.
Qed.


Lemma resolve_num_samples_fallback (sized : option literal * Z)
  (fallback : option Z) :
  resolve_num_samples sized fallback =
  match fallback with
  | Some n => if n =? 0 then Raise (RuntimeError samples_error)
              else Return (n, snd sized)
  | None => Raise (RuntimeError samples_error)
  end.
Proof.
  destruct sized as [total shards]. unfold resolve_num_samples. simpl.
  destruct fallback as [n|]; [|done]. simpl. by destruct (n =? 0).
Qed.

(** Every outcome of a constructor whose shard pattern is configured and
    whose sidecars are read without an error. *)
Lemma get_dataset_fn_cases (k : dataset_type) fs args pattern sized epoch floor :
  shards_of k args = Some pattern ->
  get_dataset_size braceexpand fs pattern = Return sized ->
  get_dataset_fn braceexpand k fs args epoch floor =
  match train_num_samples_of k args with
  | None => Raise (RuntimeError samples_error)
  | Some n =>
      if n =? 0 then Raise (RuntimeError samples_error)
      else if negb (dataset_resampled args)
              && (Z.of_nat (length (braceexpand pattern))
                  <? workers args * world_size args)
      then Raise (AssertionError shards_error)
      else planned k args pattern n epoch floor
  end.
Proof.
  intros Hs Hsized. rewrite get_dataset_fn_unfold, Hs.
  unfold webdataset_constructor. simpl. rewrite Hsized.
  destruct (get_dataset_size_shards fs pattern sized Hsized) as [_ Hlen].
  unfold mbind at 1, result_bind at 1.
  rewrite resolve_num_samples_fallback, Hlen. simpl.
  destruct (train_num_samples_of k args) as [n|]; [|done].
  destruct (n =? 0); [done|]. simpl.
  unfold planned, built_pipeline.
  destruct (dataset_resampled args); simpl.
  - done.
  - rewrite Z.leb_antisym.
    destruct (Z.of_nat (length (braceexpand pattern))
              <? workers args * world_size args); simpl; [done|].
    done.
Qed.

(** An error raised while the sidecars are read leaves the constructor. *)
Lemma get_dataset_fn_unreadable (k : dataset_type) fs args pattern e epoch floor :
  shards_of k args = Some pattern ->
  get_dataset_size braceexpand fs pattern = Raise e ->
  get_dataset_fn braceexpand k fs args epoch floor = Raise e.
Proof.
  intros Hs Hsized. rewrite get_dataset_fn_unfold, Hs.
  unfold webdataset_constructor. simpl. by rewrite Hsized.
Qed.

Lemma plan_batches_positive (floor : bool) (ns bs ws w : Z) :
  0 <= ns < 2 ^ 53 -> 0 < bs -> 0 < ws -> bs * ws < 2 ^ 1075 ->
  w < 2 ^ 1075 ->
  exists nb nwb,
    rounds_to floor ns (bs * ws) nb /\
    rounds_to floor nb (Z.max 1 w) nwb /\
    plan_batches floor ns bs ws w =
    Return {| global_batch_size := bs * ws;
              num_worker_batches := nwb;
              plan_num_batches := nwb * Z.max 1 w;
              plan_num_samples := nwb * Z.max 1 w * (bs * ws) |}.
Proof.
  intros Hns Hbs Hws Hg Hw.
  assert (Hg0 : 0 < bs * ws) by lia.
  destruct (true_div_rounds floor ns (bs * ws) ltac:(lia) ltac:(lia))
    as (x & Hx & Hnb).
  assert (Hrange : 0 <= round_fn floor x < 2 ^ 53).
  { unfold rounds_to in Hnb. destruct floor; nia. }
  destruct (true_div_rounds floor (round_fn floor x) (Z.max 1 w)
              Hrange ltac:(lia)) as (y & Hy & Hnwb).
  exists (round_fn floor x), (round_fn floor y).
  split; [done|]. split; [done|].
  unfold plan_batches. rewrite Hx. simpl. rewrite Hy. done.
Qed.






End Constructors.



(** C2 fails as stated: the quotient is a float.  With [2^53 + 1] samples
    in batches of one the planner arrives at [2^53] batches, which is not
    the quotient rounded up; with a global batch size or a worker count of
    [2^1075] the quotient of one sample underflows to zero and the planner
    arrives at no batch at all; with [10^400] samples the division raises
    an overflow error. *)
Lemma planner_rounds_a_float :
  Webdataset.plan_batches false (2 ^ 53 + 1) 1 1 1 =
    Return {| Webdataset.global_batch_size := 1;
              Webdataset.num_worker_batches := 2 ^ 53;
              Webdataset.plan_num_batches := 2 ^ 53;
              Webdataset.plan_num_samples := 2 ^ 53 |}
  /\ ~ Webdataset.rounds_to false (2 ^ 53 + 1) 1 (2 ^ 53)
  /\ Webdataset.plan_batches false 1 (2 ^ 1075) 1 1 =
     Return {| Webdataset.global_batch_size := 2 ^ 1075;
               Webdataset.num_worker_batches := 0;
               Webdataset.plan_num_batches := 0;
               Webdataset.plan_num_samples := 0 |}
  /\ ~ Webdataset.rounds_to false 1 (2 ^ 1075) 0
  /\ Webdataset.plan_batches false 1 1 1 (2 ^ 1075) =
     Return {| Webdataset.global_batch_size := 1;
               Webdataset.num_worker_batches := 0;
               Webdataset.plan_num_batches := 0;
               Webdataset.plan_num_samples := 0 |}
  /\ ~ Webdataset.rounds_to false 1 (Z.max 1 (2 ^ 1075)) 0
  /\ Webdataset.plan_batches false (10 ^ 400) 1 1 1 =
     Raise (OverflowError "integer division result too large for a float").
Proof.
  repeat split; try (vm_compute; reflexivity);
    unfold Webdataset.rounds_to; vm_compute; intros [H1 H2]; congruence.
Qed.


(** C8 fails as stated: in resampled mode a constructor without a shard
    pattern fails with an assertion error; with resampled mode off and one
    shard for eight workers, a constructor without a configured sample
    count fails with the runtime error, and one whose [sizes.json] cannot
    be read fails with the error of the reader, neither of them an
    assertion error. *)
Lemma shard_assertion_is_not_alone :
  Webdataset.dataset_resampled Examples.resampled_without_shards = true
  /\ Webdataset.get_mmc4_dataset Examples.one_shard Examples.no_sidecars
       Examples.resampled_without_shards 0 false = Raise (AssertionError "")
  /\ Webdataset.dataset_resampled Examples.few_shards_without_count = false
  /\ Z.of_nat (length (Examples.one_shard "/data/mmc4/shard-0.tar"))
     < Webdataset.workers Examples.few_shards_without_count
       * Webdataset.world_size Examples.few_shards_without_count
  /\ Webdataset.get_mmc4_dataset Examples.one_shard Examples.no_sidecars
       Examples.few_shards_without_count 0 false
     = Raise (RuntimeError Webdataset.samples_error)
  /\ Webdataset.get_mmc4_dataset Examples.one_shard
       Examples.unreadable_directory Examples.few_shards_args 0 false
     = Raise (OtherError "JSONDecodeError"
                "Expecting value: line 1 column 1 (char 0)").
Proof. repeat split; vm_compute; reflexivity. Qed.


(** ** The deterministic shuffle stage *)

Section DeterministicShuffle.

Import Shuffle.

Variable Rng : Type.
Variable rng_seed : Z -> Rng.
Variable A : Type.
Variable _shuffle : list A -> Z -> Z -> Rng -> list A.

Lemma next_epoch_shared (self : detshuffle2) (value : Z) :
  epoch self = SharedEpoch value -> next_epoch self = (value, self).
Proof. unfold next_epoch. by intros ->. Qed.

Lemma next_epoch_own (self : detshuffle2) (n : Z) :
  epoch self = OwnCounter n ->
  fst (next_epoch self) = n + 1
  /\ epoch (snd (next_epoch self)) = OwnCounter (n + 1).
Proof. unfold next_epoch. by intros ->. Qed.

Lemma run_seed_fixed (p : process) (self : detshuffle2) :
  0 <= seed self -> run_seed p self = seed self + fst (next_epoch self).
Proof.
  intros H. unfold run_seed.
  by destruct (Z.ltb_spec (seed self) 0); [lia|].
Qed.

Lemma run_seed_worker (p : process) (self : detshuffle2) :
  seed self < 0 ->
  run_seed p self = pytorch_worker_seed p (fst (next_epoch self)).
Proof.
  intros H. unfold run_seed.
  by destruct (Z.ltb_spec (seed self) 0); [|lia].
Qed.

Lemma pytorch_worker_seed_in_worker (p : process) (wi : worker_info) (increment : Z) :
  get_worker_info p = Some wi ->
  pytorch_worker_seed p increment
  = wi_seed wi + increment * Z.max 1 (wi_num_workers wi).
Proof.
  intros H. unfold pytorch_worker_seed. rewrite H.
  destruct (Z.eqb_spec increment 0) as [->|_]; simpl; lia.
Qed.

(** C3.  With a non-negative base seed, a run of the stage seeds its
    generator with [base_seed + epoch], where [epoch] is the epoch the run
    reads; two runs of stages with the same buffer sizes, base seed and
    epoch, in whatever processes, therefore seed alike and put the same
    input in the same order.  With a negative base seed the seed is
    [pytorch_worker_seed(epoch)], which inside a dataloader worker is the
    worker's seed plus [epoch * max(1, num_workers)]. *)
Theorem detshuffle2_reproducible (p1 p2 : process) (s1 s2 : detshuffle2)
  (src : list A) :
  0 <= seed s1 ->
  seed s1 = seed s2 ->
  bufsize s1 = bufsize s2 ->
  initial s1 = initial s2 ->
  fst (next_epoch s1) = fst (next_epoch s2) ->
  run_seed p1 s1 = seed s1 + fst (next_epoch s1)
  /\ run_seed p2 s2 = run_seed p1 s1
  /\ fst (run Rng rng_seed A _shuffle p1 s1 src)
     = fst (run Rng rng_seed A _shuffle p2 s2 src)
  /\ (forall p s, seed s < 0 ->
        run_seed p s = pytorch_worker_seed p (fst (next_epoch s))
        /\ forall wi, get_worker_info p = Some wi ->
             run_seed p s
             = wi_seed wi + fst (next_epoch s) * Z.max 1 (wi_num_workers wi)).
Proof.
  intros Hseed Hs Hb Hi He.
  assert (H1 : run_seed p1 s1 = seed s1 + fst (next_epoch s1))
    by by apply run_seed_fixed.
  assert (H2 : run_seed p2 s2 = run_seed p1 s1).
  { rewrite H1, run_seed_fixed by lia. by rewrite Hs, He. }
  split; [done|]. split; [done|]. split.
  - unfold run. simpl. by rewrite H2, Hb, Hi.
  - intros p s Hneg. split; [by apply run_seed_worker|].
    intros wi Hwi. rewrite run_seed_worker by done.
    by apply pytorch_worker_seed_in_worker.
Qed.

End DeterministicShuffle.

Lemma detshuffle2_reproducible_witness :
  (0 <= Shuffle.seed Examples.shared_stage
   /\ Shuffle.seed Examples.shared_stage = Shuffle.seed Examples.counting_stage
   /\ Shuffle.bufsize Examples.shared_stage
      = Shuffle.bufsize Examples.counting_stage
   /\ Shuffle.initial Examples.shared_stage
      = Shuffle.initial Examples.counting_stage
   /\ fst (Shuffle.next_epoch Examples.shared_stage)
      = fst (Shuffle.next_epoch Examples.counting_stage))
  /\ fst (Shuffle.run Z Shuffle.lcg_seed string Shuffle.buffered_shuffle
            Examples.worker_process Examples.shared_stage
            Examples.seven_shards)
     = fst (Shuffle.run Z Shuffle.lcg_seed string Shuffle.buffered_shuffle
              Examples.main_process Examples.counting_stage
              Examples.seven_shards).
Proof.
  split; [repeat split; vm_compute; congruence|].
  apply (detshuffle2_reproducible Z Shuffle.lcg_seed string
           Shuffle.buffered_shuffle Examples.worker_process
           Examples.main_process Examples.shared_stage
           Examples.counting_stage Examples.seven_shards);
    vm_compute; congruence.
Defined.

(** The stage run on seven shards in epoch 3 and in epoch 4. *)
Example shard_order_by_epoch :
  fst (Shuffle.run Z Shuffle.lcg_seed string Shuffle.buffered_shuffle
         Examples.worker_process Examples.shared_stage Examples.seven_shards)
  = ["s0"; "s2"; "s1"; "s3"; "s5"; "s6"; "s4"]
  /\ fst (Shuffle.run Z Shuffle.lcg_seed string Shuffle.buffered_shuffle
            Examples.main_process
            {| Shuffle.bufsize := 4; Shuffle.initial := 2; Shuffle.seed := 42;
               Shuffle.epoch := Shuffle.SharedEpoch 4 |}
            Examples.seven_shards)
     = ["s1"; "s3"; "s2"; "s4"; "s0"; "s6"; "s5"].
Proof. split; vm_compute; reflexivity. Qed.

(** ** Python indexes and the marking of sentences *)

Section Indexing.

Import Interleaved Notions.

Lemma py_index_in_range {A : Type} (l : list A) (ix : Z) :
  in_range (length l) ix = true ->
  exists i, py_index l ix = Some i
            /\ (i < length l)%nat
            /\ i = Z.to_nat (ix mod Z.of_nat (length l)).
Proof.
  unfold in_range, py_index. intros [Hlo Hhi]%andb_true_iff.
  apply Z.leb_le in Hlo. apply Z.ltb_lt in Hhi.
  destruct (Z.leb_spec 0 ix) as [Hpos|Hneg]; simpl.
  - rewrite (proj2 (Z.ltb_lt _ _) Hhi). exists (Z.to_nat ix).
    split; [done|]. split; [lia|]. by rewrite Z.mod_small by lia.
  - rewrite (proj2 (Z.ltb_lt ix 0) Hneg), (proj2 (Z.leb_le _ _) Hlo). simpl.
    exists (Z.to_nat (Z.of_nat (length l) + ix)).
    split; [done|]. split; [lia|].
    f_equal. apply (Z.mod_unique_pos _ _ (-1)); lia.
Qed.

Lemma py_index_out_of_range {A : Type} (l : list A) (ix : Z) :
  in_range (length l) ix = false -> py_index l ix = None.
Proof.
  unfold in_range, py_index. intros H%andb_false_iff.
  destruct (Z.leb_spec 0 ix), (Z.ltb_spec ix (Z.of_nat (length l))),
    (Z.ltb_spec ix 0), (Z.leb_spec (- Z.of_nat (length l)) ix);
    simpl; try done; destruct H as [H|H];
    try apply Z.leb_gt in H; try apply Z.ltb_ge in H; lia.
Qed.


End Indexing.

(** ** The interleaved document assembler *)

Section Assembler.

Import Interleaved Notions.

Variable b64decode : string -> result (list Byte.byte).
Variable Image : Type.
Variable Image_open : list Byte.byte -> result Image.
Variable clip_preprocess : Image -> Tensor3.
Variable hflip : Tensor3 -> Tensor3.
Variable eos_token : string.
Variable tokenizer : string -> list Z * list Z.
Variable image_token_id : Z.

Local Abbreviation collect := (collect_images b64decode Image Image_open).
Local Abbreviation process := (preprocess_image Image clip_preprocess hflip).
Local Abbreviation assembler :=
  (preprocess_interleaved b64decode Image Image_open clip_preprocess hflip
     eos_token tokenizer image_token_id).
Local Abbreviation count_tokens := (count_image_tokens image_token_id).

Lemma collect_images_lengths (infos : list sample_image) (thr : Q)
  (images : list Image) (sentence_ixs : list Z) :
  collect infos thr = Return (images, sentence_ixs) ->
  length images = length sentence_ixs.
Proof.
  revert images sentence_ixs.
  induction infos as [|x infos IH]; intros images sentence_ixs.
  - by intros [= <- <-].
  - simpl. unfold mbind, result_bind.
    destruct (b64decode (image_base64 x)) as [raw|e]; [|done].
    destruct (_ <=? MIN_KB); [by apply IH|].
    destruct (Qlt_le_dec _ _); [by apply IH|].
    destruct (Image_open raw) as [image|e]; [|done].
    destruct (collect infos thr) as [[imgs ixs]|e]; [|done].
    intros [= <- <-]. simpl. by rewrite (IH imgs ixs).
Qed.

Lemma preprocess_image_length (images : list Image) (flip_draw : Q) :
  length (process images flip_draw) = length images.
Proof.
  unfold preprocess_image.
  destruct (Qlt_le_dec _ _); by rewrite ?length_map.
Qed.

(** Every payload is decoded; an image is retained, and then opened,
    exactly when its payload has at least 11000 bytes and its similarity
    is not below the threshold. *)
Lemma collect_images_cons (x : sample_image) (infos : list sample_image) (thr : Q) :
  collect (x :: infos) thr =
  rawbytes ← b64decode (image_base64 x);
  if bool_decide (11000 <= Z.of_nat (length rawbytes))
     && Qle_bool thr (matched_sim x)
  then
    image ← Image_open rawbytes;
    '(images, sentence_ixs) ← collect infos thr;
    Return (image :: images, matched_text_index x :: sentence_ixs)
  else collect infos thr.
Proof.
  cbn [collect_images]. unfold mbind, result_bind.
  destruct (b64decode (image_base64 x)) as [raw|e]; [|done].
  unfold MIN_KB.
  destruct (Z.leb_spec (Z.of_nat (length raw) / 1000) 10) as [Hs|Hs].
  - rewrite bool_decide_eq_false_2; [done|].
    intros H. apply (Z.div_le_mono _ _ 1000) in H; [|lia].
    change (11000 / 1000) with 11 in H. lia.
  - rewrite bool_decide_eq_true_2.
    2:{ destruct (Z.le_gt_cases 11000 (Z.of_nat (length raw)))
          as [|Hlt]; [done|].
        assert (Z.of_nat (length raw) / 1000 < 11); [|lia].
        apply Z.div_lt_upper_bound; lia. }
    simpl. destruct (Qlt_le_dec (matched_sim x) thr) as [Hlt|Hle].
    + replace (Qle_bool thr (matched_sim x)) with false; [done|].
      symmetry. apply not_true_is_false. intros H%Qle_bool_iff.
      by apply Qle_not_lt in H.
    + apply Qle_bool_iff in Hle. rewrite Hle.
      destruct (Image_open raw) as [image|e]; [|done].
      by destruct (collect infos thr) as [[images sentence_ixs]|e].
Qed.

Lemma torch_zeros_slots (n : nat) (z : Tensor3) :
  z ∈ torch_zeros n 3 224 224 ->
  shape3 z = (3, 224, 224)%nat /\ all_zero z = true.
Proof.
  unfold torch_zeros. intros ->%elem_of_replicate_inv. split.
  - reflexivity.
  - unfold all_zero.
    apply forallb_forall. intros plane ->%list_elem_of_In%elem_of_replicate_inv.
    apply forallb_forall. intros row ->%list_elem_of_In%elem_of_replicate_inv.
    apply forallb_forall. by intros x ->%list_elem_of_In%elem_of_replicate_inv.
Qed.

(** The assembler, with the bookkeeping of slices and indexes resolved. *)
Lemma preprocess_interleaved_cases (info : document) (thr flip_draw coin : Q) :
  assembler info thr flip_draw coin =
  '(images, sentence_ixs) ← collect (image_info info) thr;
  match images with
  | [] => Raise (ValueError "No images in sample")
  | _ =>
      marked ← mark_sentences (text_list info) (take MAX_NUM_IMAGES sentence_ixs);
      let text_tensor := tokenizer (build_text marked eos_token) in
      let num_images := count_tokens (fst text_tensor) in
      if (num_images =? 0)%nat then Raise (ValueError "No images in sample")
      else if (num_images =? 1)%nat && Qle_bool coin (1 # 2)
      then Raise (ValueError "Only one image in sample")
      else Return (take MAX_NUM_IMAGES (process images flip_draw)
                   ++ torch_zeros (MAX_NUM_IMAGES - length images) 3 224 224,
                   text_tensor)
  end.
Proof.
  unfold preprocess_interleaved, mbind at 1 3, result_bind at 1 3.
  destruct (collect (image_info info) thr) as [[imgs ixs]|e] eqn:E; [|done].
  pose proof (collect_images_lengths _ _ _ _ E) as Hlen.
  destruct imgs as [|img imgs]; [done|].
  change (length (img :: imgs) =? 0)%nat with false. cbv iota.
  set (tensors := process (img :: imgs) flip_draw).
  assert (Ht : length tensors = length (img :: imgs))
    by apply preprocess_image_length.
  assert (Hixs : take (length tensors `min` MAX_NUM_IMAGES) ixs
                 = take MAX_NUM_IMAGES ixs).
  { destruct (Nat.le_gt_cases MAX_NUM_IMAGES (length tensors)).
    - by rewrite Nat.min_r.
    - rewrite Nat.min_l by lia. rewrite !take_ge; [done|lia|lia]. }
  assert (Hts : take (length tensors `min` MAX_NUM_IMAGES) tensors
                = take MAX_NUM_IMAGES tensors).
  { destruct (Nat.le_gt_cases MAX_NUM_IMAGES (length tensors)).
    - by rewrite Nat.min_r.
    - rewrite Nat.min_l by lia. rewrite !take_ge; [done|lia|lia]. }
  rewrite Hixs, Hts.
  assert (Hpad :
    (if (length (take MAX_NUM_IMAGES tensors) <? MAX_NUM_IMAGES)%nat
     then take MAX_NUM_IMAGES tensors
          ++ torch_zeros (MAX_NUM_IMAGES - length (take MAX_NUM_IMAGES tensors))
               3 224 224
     else take MAX_NUM_IMAGES tensors)
    = take MAX_NUM_IMAGES tensors
      ++ torch_zeros (MAX_NUM_IMAGES - length (img :: imgs)) 3 224 224).
  { rewrite length_take, Ht.
    destruct (Nat.ltb_spec (MAX_NUM_IMAGES `min` length (img :: imgs))
                MAX_NUM_IMAGES) as [Hlt|Hge].
    - by rewrite Nat.min_r by lia.
    - replace (MAX_NUM_IMAGES - length (img :: imgs))%nat with 0%nat by lia.
      unfold torch_zeros. simpl replicate. by rewrite app_nil_r. }
  rewrite Hpad. done.
Qed.






(** C5.  When the assembler returns, at least one image passed the
    filters and the image tensor has exactly [MAX_NUM_IMAGES = 5] slots:
    the processed first five retained images in their order, followed by
    [5 - n] all-zero slots of shape [(3, 224, 224)] when only [n < 5] were
    retained; with five or more retained there is no padding.  Seven
    retained images give five slots and no padding, two give three
    all-zero slots. *)
Theorem image_slots (info : document) (thr flip_draw coin : Q)
  (tensors : list Tensor3) (text : list Z * list Z) :
  assembler info thr flip_draw coin = Return (tensors, text) ->
  exists images sentence_ixs,
    collect (image_info info) thr = Return (images, sentence_ixs) /\
    let n := length images in
    let processed := process images flip_draw in
    (1 <= n)%nat
    /\ length tensors = MAX_NUM_IMAGES
    /\ tensors = take MAX_NUM_IMAGES processed
                 ++ torch_zeros (MAX_NUM_IMAGES - n) 3 224 224
    /\ length (take MAX_NUM_IMAGES processed) = Nat.min n MAX_NUM_IMAGES
    /\ (MAX_NUM_IMAGES <= n -> tensors = take MAX_NUM_IMAGES processed)%nat
    /\ (n < MAX_NUM_IMAGES ->
        tensors = processed ++ torch_zeros (MAX_NUM_IMAGES - n) 3 224 224
        /\ length (torch_zeros (MAX_NUM_IMAGES - n) 3 224 224)
           = (MAX_NUM_IMAGES - n)%nat)%nat
    /\ (forall z, z ∈ torch_zeros (MAX_NUM_IMAGES - n) 3 224 224 ->
          shape3 z = (3, 224, 224)%nat /\ all_zero z = true)
    /\ (n = 7%nat -> tensors = take 5 processed)
    /\ (n = 2%nat -> tensors = processed ++ torch_zeros 3 3 224 224).
Proof.
  intros Hret.
  rewrite preprocess_interleaved_cases in Hret.
  destruct (collect (image_info info) thr) as [[images sentence_ixs]|e];
    [|done].
  exists images, sentence_ixs. split; [done|].
  unfold mbind at 1, result_bind at 1 in Hret. cbv beta iota in Hret.
  intros n processed.
  assert (Hp : length processed = n) by apply preprocess_image_length.
  assert (Hn : (1 <= n)%nat).
  { subst n. destruct images; [done|]. simpl. lia. }
  assert (Ht : tensors = take MAX_NUM_IMAGES processed
                         ++ torch_zeros (MAX_NUM_IMAGES - n) 3 224 224).
  { destruct images as [|img imgs] eqn:E; [done|].
    destruct (mark_sentences _ _) as [marked|e]; [|done].
    simpl in Hret.
    destruct (_ =? 0)%nat; [done|].
    destruct (_ && _); [done|].
    by injection Hret as <- _. }
  assert (Hfull : (MAX_NUM_IMAGES <= n)%nat -> tensors = take MAX_NUM_IMAGES processed).
  { intros Hge. rewrite Ht.
    replace (MAX_NUM_IMAGES - n)%nat with 0%nat by lia.
    unfold torch_zeros. simpl replicate. by rewrite app_nil_r. }
  assert (Hpad : (n < MAX_NUM_IMAGES)%nat ->
                 tensors = processed ++ torch_zeros (MAX_NUM_IMAGES - n) 3 224 224).
  { intros Hlt. rewrite Ht. by rewrite take_ge by lia. }
  repeat split.
  - done.
  - rewrite Ht, length_app, length_take. unfold torch_zeros.
    rewrite length_replicate, Hp. unfold MAX_NUM_IMAGES. lia.
  - done.
  - rewrite length_take, Hp. lia.
  - done.
  - by apply Hpad.
  - unfold torch_zeros. by rewrite length_replicate.
  - by eapply torch_zeros_slots.
  - by eapply torch_zeros_slots.
  - intros H7. apply Hfull. unfold MAX_NUM_IMAGES. lia.
  - intros H2. rewrite Hpad by (unfold MAX_NUM_IMAGES; lia).
    by rewrite H2.
Qed.

End Assembler.

(** C6, at an image the claim lets pass.  A payload of 10500 bytes with a
    similarity of 0.3 against a threshold of 0.24 is at least 10 KB and
    similar enough, yet the filter [len(rawbytes) // 1000 <= MIN_KB] skips
    it: only payloads of 11000 bytes or more are retained. *)
Theorem ten_kilobyte_image_is_skipped :
  Examples.toy_b64decode
    (Interleaved.image_base64 (Examples.image_of_size 10500 (3 # 10) 0))
  = Return (replicate (Z.to_nat 10500) "000"%byte)
  /\ 10 * 1024 <= Z.of_nat (length (replicate (Z.to_nat 10500) "000"%byte))
  /\ (24 # 100
      <= Interleaved.matched_sim (Examples.image_of_size 10500 (3 # 10) 0))%Q
  /\ (forall Image Image_open,
        Interleaved.collect_images Examples.toy_b64decode Image Image_open
          (Interleaved.image_info Examples.ten_kb_doc) (24 # 100)
        = Return ([], []))
  /\ forall b64decode Image Image_open x infos thr,
       Interleaved.collect_images b64decode Image Image_open (x :: infos) thr =
       rawbytes ← b64decode (Interleaved.image_base64 x);
       if bool_decide (11000 <= Z.of_nat (length rawbytes))
          && Qle_bool thr (Interleaved.matched_sim x)
       then
         image ← Image_open rawbytes;
         '(images, sentence_ixs) ←
           Interleaved.collect_images b64decode Image Image_open infos thr;
         Return (image :: images,
                 Interleaved.matched_text_index x :: sentence_ixs)
       else Interleaved.collect_images b64decode Image Image_open infos thr.
Proof.
  assert (Hdecode :
    Examples.toy_b64decode
      (Interleaved.image_base64 (Examples.image_of_size 10500 (3 # 10) 0))
    = Return (replicate (Z.to_nat 10500) "000"%byte)) by (vm_compute; reflexivity).
  split; [exact Hdecode|]. split; [|split; [|split]].
  - vm_compute. discriminate.
  - vm_compute. discriminate.
  - intros Image Image_open.
    change (Interleaved.image_info Examples.ten_kb_doc)
      with [Examples.image_of_size 10500 (3 # 10) 0].
    rewrite collect_images_cons, Hdecode.
    unfold mbind at 1, result_bind at 1.
    rewrite bool_decide_eq_false_2; [done|]. vm_compute. by intros H.
  - apply collect_images_cons.
Qed.

(** C4 fails as stated: a document whose only image passes both filters
    but is matched to sentence 99 of seven is rejected with an
    [IndexError], which is none of the three cases and is logged; a
    document whose payload is not base64 is rejected with the error of
    the decoder. *)
Lemma misindexed_document_is_rejected :
  (exists image,
     Interleaved.collect_images Examples.toy_b64decode Z
       Examples.toy_open (Interleaved.image_info Examples.misindexed_doc)
       (24 # 100) = Return ([image], [99]))
  /\ Examples.toy_assembler Examples.misindexed_doc (24 # 100) (9 # 10) (1 # 10)
     = Raise (IndexError "list index out of range")
  /\ Interleaved.log_and_continue (IndexError "list index out of range") []
     = (true,
        ["Handling webdataset error (IndexError('list index out of range')). Ignoring."])
  /\ Examples.toy_assembler Examples.undecodable_doc (24 # 100) (9 # 10) (1 # 10)
     = Raise (OtherError "Error" "Incorrect padding").
Proof.
  split; [eexists; vm_compute; reflexivity|].
  repeat split; vm_compute; reflexivity.
Qed.


Lemma image_slots_witness :
  Examples.toy_assembler Examples.two_image_doc (24 # 100) (9 # 10) (9 # 10)
  = Return (Examples.two_image_tensors, Examples.two_image_text)
  /\ length Examples.two_image_tensors = Interleaved.MAX_NUM_IMAGES.
Proof.
  assert (H : Examples.toy_assembler Examples.two_image_doc (24 # 100)
                (9 # 10) (9 # 10)
              = Return (Examples.two_image_tensors, Examples.two_image_text))
    by (vm_compute; reflexivity).
  split; [exact H|].
  destruct (image_slots Examples.toy_b64decode Z
              Examples.toy_open Examples.toy_preprocess
              Examples.toy_hflip "</s>" Examples.toy_tokenizer 32000
              Examples.two_image_doc (24 # 100) (9 # 10) (9 # 10)
              Examples.two_image_tensors Examples.two_image_text H)
    as (images & sentence_ixs & _ & _ & Hlen & _).
  exact Hlen.
Defined.

(** ** Regrouping records into samples *)

Section Regrouping.

Import Regroup.

Variable keys : string -> option (string * string).
Variable lower : string -> string.

Local Abbreviation loop := (group_loop keys lower true None).
Local Abbreviation suffix := (suffix_of keys lower).
Local Abbreviation prefix := (prefix_of keys).
Local Abbreviation add := (add_field keys lower).
Local Abbreviation sample := (sample_of keys lower).

Lemma new_sample_key (p u : string) :
  new_sample p u !! "__key__" = Some (VStr p).
Proof. unfold new_sample. by rewrite lookup_insert_ne, lookup_singleton_eq. Qed.

Lemma new_sample_fresh (p u s : string) :
  s ≠ "__key__" -> s ≠ "__url__" -> new_sample p u !! s = None.
Proof.
  intros Hk Hu. unfold new_sample.
  rewrite lookup_insert_ne by done. by rewrite lookup_singleton_ne.
Qed.

Lemma keys_of_record (r : filesample) (p s : string) :
  prefix r = Some p -> suffix r = Some s ->
  exists s0, keys (fname r) = Some (p, s0) /\ s = lower s0.
Proof.
  unfold prefix_of, suffix_of.
  destruct (keys (fname r)) as [[p0 s0]|]; [|done]. simpl.
  intros [= <-] [= <-]. eauto.
Qed.

(** One step of the loop on a record that splits into a prefix and an
    extension. *)
Lemma group_loop_step (r : filesample) (rest : list filesample)
  (c : gmap string value) (p s : string) :
  keys (fname r) = Some (p, s) ->
  loop (r :: rest) (Some c) =
  if bool_decide (c !! "__key__" ≠ Some (VStr p))
     || bool_decide (is_Some (c !! lower s))
  then flush (Some c)
       ++ loop rest (Some (<[lower s := VBytes (data r)]>
                             (new_sample p (url r))))
  else loop rest (Some (<[lower s := VBytes (data r)]> c)).
Proof.
  intros Hk. simpl. rewrite Hk.
  by destruct (bool_decide _ || bool_decide _).
Qed.

Lemma group_loop_first (r : filesample) (rest : list filesample) (p s : string) :
  keys (fname r) = Some (p, s) ->
  loop (r :: rest) None =
  loop rest (Some (<[lower s := VBytes (data r)]> (new_sample p (url r)))).
Proof. intros Hk. simpl. by rewrite Hk. Qed.

(** A record that goes on with the current sample. *)
Lemma group_loop_continue (r : filesample) (rest : list filesample)
  (c : gmap string value) (p s : string) :
  prefix r = Some p -> suffix r = Some s ->
  c !! "__key__" = Some (VStr p) -> c !! s = None ->
  loop (r :: rest) (Some c) = loop rest (Some (add c r)).
Proof.
  intros Hp Hs Hkey Hfree.
  destruct (keys_of_record r p s Hp Hs) as (s0 & Hk & ->).
  rewrite (group_loop_step r rest c p s0 Hk).
  rewrite bool_decide_eq_false_2 by (by intros H; apply H).
  rewrite bool_decide_eq_false_2 by (rewrite Hfree; by intros [? ?]).
  simpl. unfold add_field. by rewrite Hs.
Qed.

(** A record that starts a sample. *)
Lemma group_loop_start (r : filesample) (rest : list filesample)
  (cur : option (gmap string value)) (p s : string) :
  prefix r = Some p -> suffix r = Some s ->
  (forall c, cur = Some c -> c !! "__key__" ≠ Some (VStr p)) ->
  loop (r :: rest) cur
  = flush cur ++ loop rest (Some (add (new_sample p (url r)) r)).
Proof.
  intros Hp Hs Hcur.
  destruct (keys_of_record r p s Hp Hs) as (s0 & Hk & ->).
  unfold add_field. rewrite Hs.
  destruct cur as [c|].
  - rewrite (group_loop_step r rest c p s0 Hk).
    by rewrite bool_decide_eq_true_2 by (by apply Hcur).
  - by rewrite (group_loop_first r rest p s0 Hk).
Qed.

Lemma foldl_add_untouched (rs : list filesample) (c : gmap string value)
  (s : string) :
  Some s ∉ map suffix rs -> foldl add c rs !! s = c !! s.
Proof.
  revert c. induction rs as [|r rs IH]; intros c Hnot; [done|].
  simpl in *. apply not_elem_of_cons in Hnot as [Hne Hnot].
  rewrite IH by done. unfold add_field.
  destruct (suffix r) as [s'|]; [|done].
  apply lookup_insert_ne. congruence.
Qed.

Lemma foldl_add_field (rs : list filesample) (c : gmap string value)
  (r : filesample) (s : string) :
  NoDup (map suffix rs) -> r ∈ rs -> suffix r = Some s ->
  foldl add c rs !! s = Some (VBytes (data r)).
Proof.
  revert c. induction rs as [|r0 rs IH]; intros c Hnd Hin Hs.
  - by apply elem_of_nil in Hin.
  - simpl in Hnd. apply NoDup_cons in Hnd as [Hnot Hnd].
    apply elem_of_cons in Hin as [->|Hin].
    + simpl. rewrite foldl_add_untouched by (by rewrite <- Hs).
      unfold add_field. rewrite Hs. apply lookup_insert_eq.
    + simpl. by apply IH.
Qed.

(** The records of a group after its first one are added to the sample
    without a flush. *)
Lemma group_loop_body (rs rest : list filesample) (c : gmap string value)
  (p : string) :
  Forall (fun r => prefix r = Some p) rs ->
  NoDup (map suffix rs) ->
  Forall (fun r => exists s, suffix r = Some s /\ c !! s = None) rs ->
  c !! "__key__" = Some (VStr p) ->
  loop (rs ++ rest) (Some c) = loop rest (Some (foldl add c rs)).
Proof.
  revert c. induction rs as [|r rs IH]; intros c Hp Hnd Hfree Hkey; [done|].
  apply Forall_cons in Hp as [Hpr Hp].
  apply Forall_cons in Hfree as [(s & Hs & Hnone) Hfree].
  simpl in Hnd. apply NoDup_cons in Hnd as [Hnot Hnd].
  change ((r :: rs) ++ rest) with (r :: (rs ++ rest)).
  rewrite (group_loop_continue r (rs ++ rest) c p s Hpr Hs Hkey Hnone).
  simpl. apply IH; try done.
  - apply Forall_forall. intros r' Hin.
    rewrite Forall_forall in Hfree.
    destruct (Hfree r' Hin) as (s' & Hs' & Hnone').
    exists s'. split; [done|].
    unfold add_field. rewrite Hs. rewrite lookup_insert_ne; [done|].
    intros ->. apply Hnot. rewrite Hs, <- Hs'.
    apply list_elem_of_fmap. by exists r'.
  - unfold add_field. rewrite Hs. rewrite lookup_insert_ne; [done|].
    intros ->. congruence.
Qed.

(** What [group_ok] checks. *)
Lemma group_ok_spec (p : string) (rs : list filesample) :
  group_ok keys lower (p, rs) = true ->
  rs ≠ []
  /\ Forall (fun r => prefix r = Some p) rs
  /\ NoDup (map suffix rs)
  /\ Forall (fun r => suffix r ≠ Some "__key__" /\ suffix r ≠ Some "__url__") rs
  /\ valid_sample (Some (sample (p, rs))) = true.
Proof.
  unfold group_ok. rewrite !andb_true_iff.
  intros ((((Hne & Hp) & Hnd) & Hs) & Hv).
  split; [destruct rs; [discriminate Hne|intros [=]]|]. split.
  { apply Forall_forall. intros r Hin%list_elem_of_In.
    rewrite forallb_forall in Hp. by eapply bool_decide_eq_true_1, Hp. }
  split; [by apply bool_decide_eq_true in Hnd|]. split; [|done].
  apply Forall_forall. intros r Hin%list_elem_of_In.
  rewrite forallb_forall in Hs. specialize (Hs r Hin).
  apply andb_true_iff in Hs as [H1 H2].
  by apply bool_decide_eq_true in H1, H2.
Qed.

Lemma suffix_of_group (p : string) (rs : list filesample) (r : filesample) :
  Forall (fun r => prefix r = Some p) rs -> r ∈ rs -> exists s, suffix r = Some s.
Proof.
  intros Hp Hin. rewrite Forall_forall in Hp. specialize (Hp r Hin).
  unfold prefix_of, suffix_of in *.
  destruct (keys (fname r)) as [[p0 s0]|]; [|done]. simpl. eauto.
Qed.

(** A whole group met at a sample boundary. *)
Lemma group_loop_group (p : string) (rs rest : list filesample)
  (cur : option (gmap string value)) :
  group_ok keys lower (p, rs) = true ->
  (forall c, cur = Some c -> c !! "__key__" ≠ Some (VStr p)) ->
  loop (rs ++ rest) cur = flush cur ++ loop rest (Some (sample (p, rs))).
Proof.
  intros (Hne & Hp & Hnd & Hs & _)%group_ok_spec Hcur.
  destruct rs as [|r rs]; [done|].
  pose proof Hp as Hp'. apply Forall_cons in Hp' as [Hpr Hprs].
  pose proof Hs as Hs'. apply Forall_cons in Hs' as [[Hk Hu] Hsrs].
  simpl in Hnd. apply NoDup_cons in Hnd as [Hnot Hnd].
  destruct (suffix_of_group p (r :: rs) r Hp) as [s Hsr]; [by left|].
  change ((r :: rs) ++ rest) with (r :: (rs ++ rest)).
  rewrite (group_loop_start r (rs ++ rest) cur p s Hpr Hsr Hcur).
  f_equal. unfold sample_of. simpl.
  assert (Hadd : add (new_sample p (url r)) r
                 = <[s := VBytes (data r)]> (new_sample p (url r))).
  { unfold add_field. by rewrite Hsr. }
  apply (group_loop_body rs rest _ p); try done.
  - apply Forall_forall. intros r' Hin.
    destruct (suffix_of_group p (r :: rs) r' Hp) as [s' Hs'];
      [by right|].
    exists s'. split; [done|].
    rewrite Forall_forall in Hsrs. destruct (Hsrs r' Hin) as [Hk' Hu'].
    rewrite Hadd, lookup_insert_ne.
    + apply new_sample_fresh; congruence.
    + intros ->. apply Hnot. rewrite Hsr, <- Hs'.
      apply list_elem_of_fmap. by exists r'.
  - rewrite Hadd, lookup_insert_ne; [apply new_sample_key|]. congruence.
Qed.

Lemma sample_of_key (p : string) (rs : list filesample) :
  group_ok keys lower (p, rs) = true -> sample (p, rs) !! "__key__" = Some (VStr p).
Proof.
  intros (Hne & Hp & Hnd & Hs & _)%group_ok_spec.
  unfold sample_of. rewrite foldl_add_untouched; [apply new_sample_key|].
  intros (r & Heq & Hin)%list_elem_of_fmap.
  rewrite Forall_forall in Hs. destruct (Hs r Hin) as [Hk _]. congruence.
Qed.

Lemma sample_of_field (p : string) (rs : list filesample) (r : filesample) :
  group_ok keys lower (p, rs) = true -> r ∈ rs ->
  exists s, suffix r = Some s /\ sample (p, rs) !! s = Some (VBytes (data r)).
Proof.
  intros (Hne & Hp & Hnd & Hs & _)%group_ok_spec Hin.
  destruct (suffix_of_group p rs r Hp Hin) as [s Hsr].
  exists s. split; [done|]. unfold sample_of. by apply foldl_add_field.
Qed.

(** The stream of a list of well-formed groups with distinct prefixes,
    from any sample boundary. *)
Lemma group_loop_groups (groups : list (string * list filesample))
  (cur : option (gmap string value)) :
  forallb (group_ok keys lower) groups = true ->
  NoDup (map fst groups) ->
  (forall c, cur = Some c ->
     exists p0, c !! "__key__" = Some (VStr p0) /\ p0 ∉ map fst groups) ->
  loop (concat (map snd groups)) cur = flush cur ++ map sample groups.
Proof.
  revert cur. induction groups as [|[p rs] groups IH]; intros cur Hok Hnd Hcur.
  - simpl. by rewrite app_nil_r.
  - simpl in Hok. apply andb_true_iff in Hok as [Hg Hok].
    simpl in Hnd. apply NoDup_cons in Hnd as [Hnot Hnd].
    simpl. rewrite (group_loop_group p rs _ cur Hg).
    2:{ intros c Hc. destruct (Hcur c Hc) as (p0 & Hk & Hp0).
        rewrite Hk. intros [= ->]. apply Hp0. by left. }
    rewrite IH; try done.
    + f_equal. unfold flush.
      apply group_ok_spec in Hg as (_ & _ & _ & _ & Hv). by rewrite Hv.
    + intros c [= <-]. exists p. split; [|done]. by apply sample_of_key.
Qed.

(** C7, for streams in which the records of a prefix are adjacent, with
    [lower] for the case folding of [suffix.lower()].  When
    the stream is a sequence of well-formed groups with pairwise distinct
    prefixes (every group non-empty, no case-folded extension repeated in a
    group, every group's sample valid), [group_by_keys_nothrow] yields
    exactly one sample per group, in order; the sample carries the group's
    prefix under [__key__] and, under its case-folded extension, the bytes
    of every record of the group.  At each record the current sample is
    flushed when the prefix changes or the extension is already in it, and
    a flushed sample is yielded only if it is valid. *)
Theorem regroup_adjacent_records (groups : list (string * list filesample)) :
  forallb (group_ok keys lower) groups = true ->
  NoDup (map fst groups) ->
  let out := group_by_keys_nothrow keys lower (concat (map snd groups)) true None in
  out = map sample groups
  /\ length out = length groups
  /\ (forall i g, groups !! i = Some g ->
        exists smp, out !! i = Some smp
          /\ smp !! "__key__" = Some (VStr (fst g))
          /\ forall r, r ∈ snd g ->
               exists s, suffix r = Some s /\ smp !! s = Some (VBytes (data r)))
  /\ (forall r rest c p s,
        keys (fname r) = Some (p, s) ->
        loop (r :: rest) (Some c) =
        if bool_decide (c !! "__key__" ≠ Some (VStr p))
           || bool_decide (is_Some (c !! lower s))
        then flush (Some c)
             ++ loop rest (Some (<[lower s := VBytes (data r)]>
                                   (new_sample p (url r))))
        else loop rest (Some (<[lower s := VBytes (data r)]> c)))
  /\ (forall c, flush (Some c) = if valid_sample (Some c) then [c] else [])
  /\ flush None = [].
Proof.
  intros Hok Hnd out.
  assert (Hout : out = map sample groups).
  { subst out. unfold group_by_keys_nothrow.
    by rewrite group_loop_groups. }
  split; [done|]. split; [by rewrite Hout, length_map|]. split.
  { intros i [p rs] Hi. exists (sample (p, rs)).
    assert (Hg : group_ok keys lower (p, rs) = true).
    { rewrite forallb_forall in Hok. apply Hok, list_elem_of_In.
      by eapply list_elem_of_lookup_2. }
    split; [by rewrite Hout, list_lookup_fmap, Hi|].
    split; [by apply sample_of_key|].
    intros r Hin. by apply sample_of_field. }
  split; [apply group_loop_step|]. split; [|done].
  intros c. unfold flush. by destruct (valid_sample (Some c)).
Qed.

End Regrouping.

(** C7 fails as stated: in this stream the records of prefix [a] form a
    valid sample without a repeated extension, and so does the record of
    prefix [b], but the record of [b] stands between those of [a]; three
    samples are yielded, two of them for [a], and none holds both
    extensions of [a].  Likewise a record whose extension is the
    bookkeeping key [__url__] starts a second sample for its prefix. *)
Lemma interleaved_prefixes_split :
  map (fun smp => (smp !! "__key__", smp !! "jpg", smp !! "txt"))
    (Regroup.group_by_keys_nothrow Regroup.base_plus_ext Str.ascii_lower
       Examples.interleaved_stream true None)
  = [(Some (Regroup.VStr "a"), Some (Regroup.VBytes ["001"%byte]), None);
     (Some (Regroup.VStr "b"), Some (Regroup.VBytes ["002"%byte]), None);
     (Some (Regroup.VStr "a"), None, Some (Regroup.VBytes ["003"%byte]))]
  /\ map Regroup.base_plus_ext (map Regroup.fname Examples.interleaved_stream)
     = [Some ("a", "jpg"); Some ("b", "jpg"); Some ("a", "txt")]
  /\ map (fun smp => (smp !! "__key__", smp !! "txt", smp !! "__url__"))
       (Regroup.group_by_keys_nothrow Regroup.base_plus_ext Str.ascii_lower
          Examples.bookkeeping_stream true None)
     = [(Some (Regroup.VStr "a"), Some (Regroup.VBytes ["001"%byte]),
         Some (Regroup.VStr "/data/laion/shard-0.tar"));
        (Some (Regroup.VStr "a"), None, Some (Regroup.VBytes ["002"%byte]))].
Proof. repeat split; vm_compute; reflexivity. Qed.

Lemma regroup_adjacent_records_witness :
  (forallb (Regroup.group_ok Regroup.base_plus_ext Str.ascii_lower) Examples.grouped_stream = true
   /\ NoDup (map fst Examples.grouped_stream))
  /\ length (Regroup.group_by_keys_nothrow Regroup.base_plus_ext Str.ascii_lower
               (concat (map snd Examples.grouped_stream)) true None)
     = length Examples.grouped_stream.
Proof.
  assert (H1 : forallb (Regroup.group_ok Regroup.base_plus_ext Str.ascii_lower)
                 Examples.grouped_stream = true) by (vm_compute; reflexivity).
  assert (H2 : NoDup (map fst Examples.grouped_stream))
    by (eapply bool_decide_eq_true_1; vm_compute; reflexivity).
  split; [by split|].
  exact (proj1 (proj2 (regroup_adjacent_records Regroup.base_plus_ext
                         Str.ascii_lower Examples.grouped_stream H1 H2))).
Defined.

Example grouped_stream_samples :
  map (fun smp => (smp !! "__key__", smp !! "jpg", smp !! "txt"))
    (Regroup.group_by_keys_nothrow Regroup.base_plus_ext Str.ascii_lower
       (concat (map snd Examples.grouped_stream)) true None)
  = [(Some (Regroup.VStr "0001"), Some (Regroup.VBytes ["001"%byte]),
      Some (Regroup.VBytes ["002"%byte]));
     (Some (Regroup.VStr "0002"), Some (Regroup.VBytes ["003"%byte]),
      Some (Regroup.VBytes ["004"%byte]))].
Proof. vm_compute. reflexivity. Qed.

(** ** The instruction-tuning path *)

Section InstructionTuning.

Import Mimicit.

Variable len : MimicitDataset -> Z.

Lemma nonempty_empty : nonempty "" = false.
Proof. reflexivity. Qed.

(** Without validation paths no validation dataset is built. *)
Lemma build_datasets_no_validation (args : Args) :
  val_mimicit_ic_path args = "" -> val_mimicit_path args = "" ->
  snd (build_datasets args) = [].
Proof.
  intros Hic Hv. unfold build_datasets. rewrite Hic, Hv, nonempty_empty.
  by destruct (nonempty (mimicit_ic_path args)),
       (nonempty (mimicit_path args)).
Qed.

(** A configured training path gives a training dataset. *)
Lemma build_datasets_training (args : Args) :
  nonempty (mimicit_ic_path args) || nonempty (mimicit_path args)
  || nonempty (mimicit_text_path args) || nonempty (mimicit_vt_path args) = true ->
  fst (build_datasets args) ≠ [].
Proof.
  unfold build_datasets.
  destruct (nonempty (mimicit_ic_path args)),
    (nonempty (val_mimicit_ic_path args)),
    (nonempty (mimicit_path args)),
    (nonempty (val_mimicit_path args)),
    (nonempty (mimicit_text_path args)),
    (nonempty (mimicit_vt_path args)); simpl; try done.
Qed.

Lemma median_empty : median [] = Raise (StatisticsError "no median for empty data").
Proof. reflexivity. Qed.

Lemma median_nonempty (data : list Z) :
  data ≠ [] -> exists m, median data = Return m.
Proof.
  intros Hne. unfold median.
  assert (Hlen : length (merge_sort Z.le data) = length data)
    by (apply Permutation_length, merge_sort_Permutation).
  destruct (Nat.eqb_spec (length (merge_sort Z.le data)) 0) as [E|_].
  - rewrite Hlen in E. by destruct data.
  - destruct (Nat.odd _); eauto.
Qed.

Lemma py_max_nonempty (data : list Z) :
  data ≠ [] -> exists m, py_max data = Return m.
Proof. destruct data; [done|]. simpl. eauto. Qed.

Lemma Qle_bool_inject_Z (a b : Z) : Qle_bool (inject_Z a) (inject_Z b) = (a <=? b).
Proof. unfold Qle_bool, inject_Z. simpl. by rewrite !Z.mul_1_r. Qed.

(** C10, as the code has it.  With a training dataset configured and no
    validation path, [get_mimicit_dataset] always raises and builds no
    loader: the median over the empty validation list fails when
    [val_num_samples] is -1; otherwise the training-size assertion fails
    when the training target exceeds the largest training dataset, and
    else the [max] over the empty validation list fails. *)
Theorem validation_datasets_required (args : Args) (floor : bool) :
  nonempty (mimicit_ic_path args) || nonempty (mimicit_path args)
  || nonempty (mimicit_text_path args) || nonempty (mimicit_vt_path args) = true ->
  val_mimicit_ic_path args = "" ->
  val_mimicit_path args = "" ->
  let train := fst (build_datasets args) in
  snd (build_datasets args) = []
  /\ train ≠ []
  /\ exists e,
       get_mimicit_dataset len args floor = Raise e
       /\ (val_num_samples args = -1 ->
           e = StatisticsError "no median for empty data")
       /\ (val_num_samples args ≠ -1 ->
           e = ValueError "max() arg is an empty sequence"
           \/ e = AssertionError size_error)
       /\ (val_num_samples args ≠ -1 ->
           train_num_samples args ≠ -1 ->
           forall largest,
             py_max (map len train) = Return largest ->
             e = if train_num_samples args <=? largest
                 then ValueError "max() arg is an empty sequence"
                 else AssertionError size_error).
Proof.
  intros Htrain Hic Hv train.
  pose proof (build_datasets_no_validation args Hic Hv) as Hval.
  pose proof (build_datasets_training args Htrain) as Hne.
  fold train in Hne.
  split; [done|]. split; [done|].
  unfold get_mimicit_dataset.
  destruct (build_datasets args) as [tr va] eqn:E.
  simpl in Hval, train. subst va train.
  assert (Hlen : map len tr ≠ []) by (by destruct tr).
  destruct (py_max_nonempty _ Hlen) as [largest Hmax].
  destruct (median_nonempty _ Hlen) as [m Hmed].
  unfold mbind, result_bind. simpl map. rewrite median_empty, Hmax.
  destruct (Z.eqb_spec (val_num_samples args) (-1)) as [Hvn|Hvn].
  - destruct (train_num_samples args =? -1); [rewrite Hmed|];
      (eexists; split; [done|]; split; [done|]; split; done).
  - destruct (Z.eqb_spec (train_num_samples args) (-1)) as [Htn|Htn].
    + rewrite Hmed. unfold assert.
      destruct (Qle_bool m (inject_Z largest)); simpl;
        (eexists; split; [done|]; split; [done|]; split; [by auto|done]).
    + unfold assert. rewrite Qle_bool_inject_Z.
      destruct (train_num_samples args <=? largest) eqn:Hle; simpl.
      * eexists. split; [done|]. split; [done|]. split; [by auto|].
        intros _ _ largest' [= <-]. by rewrite Hle.
      * eexists. split; [done|]. split; [done|]. split; [by auto|].
        intros _ _ largest' [= <-]. by rewrite Hle.
Qed.

End InstructionTuning.

(** C10 fails as stated: with a training dataset of 100 records, no
    validation path, [train_num_samples = 500] and [val_num_samples = 5]
    the function raises, but from the training-size assertion: neither the
    median nor the [max] over the empty validation list is reached. *)
Lemma training_assertion_fails_first :
  Mimicit.get_mimicit_dataset Examples.mimicit_len
    (Examples.mimicit_args 500 5 "") false
  = Raise (AssertionError Mimicit.size_error)
  /\ snd (Mimicit.build_datasets (Examples.mimicit_args 500 5 "")) = []
  /\ fst (Mimicit.build_datasets (Examples.mimicit_args 500 5 ""))
     = [Examples.train_dataset].
Proof. repeat split; vm_compute; reflexivity. Qed.

Lemma validation_datasets_required_witness :
  (Mimicit.nonempty (Mimicit.mimicit_ic_path (Examples.mimicit_args (-1) (-1) ""))
   || Mimicit.nonempty (Mimicit.mimicit_path (Examples.mimicit_args (-1) (-1) ""))
   || Mimicit.nonempty (Mimicit.mimicit_text_path (Examples.mimicit_args (-1) (-1) ""))
   || Mimicit.nonempty (Mimicit.mimicit_vt_path (Examples.mimicit_args (-1) (-1) ""))
   = true
   /\ Mimicit.val_mimicit_ic_path (Examples.mimicit_args (-1) (-1) "") = ""
   /\ Mimicit.val_mimicit_path (Examples.mimicit_args (-1) (-1) "") = "")
  /\ snd (Mimicit.build_datasets (Examples.mimicit_args (-1) (-1) "")) = [].
Proof.
  split; [repeat split; reflexivity|].
  exact (proj1 (validation_datasets_required Examples.mimicit_len
                  (Examples.mimicit_args (-1) (-1) "") false
                  eq_refl eq_refl eq_refl)).
Defined.

(** C9, at a configuration with one training and one validation dataset.
    Both loaders get a without-replacement sampler over their own dataset,
    unwrapped since the run is not distributed, and the training loader
    collates with its own dataset; the validation loader is built with
    [collate_fn=unified_dataset.collate], the collate function of the
    training dataset, not that of the validation dataset it reads. *)
Theorem validation_loader_collates_with_training_dataset :
  Mimicit.get_mimicit_dataset Examples.mimicit_len
    (Examples.mimicit_args (-1) (-1) "val/instructions.json") false
  = Return
      ([{| Mimicit.dataset := Examples.train_dataset;
           Mimicit.loader_sampler :=
             Mimicit.RandomSampler Examples.train_dataset false 100;
           Mimicit.loader_batch_size := 4;
           Mimicit.num_workers := 2;
           Mimicit.pin_memory := true;
           Mimicit.drop_last := true;
           Mimicit.collate_fn := Examples.train_dataset |}],
       [{| Mimicit.dataset := Examples.val_dataset;
           Mimicit.loader_sampler :=
             Mimicit.RandomSampler Examples.val_dataset false 20;
           Mimicit.loader_batch_size := 4;
           Mimicit.num_workers := 2;
           Mimicit.pin_memory := true;
           Mimicit.drop_last := true;
           Mimicit.collate_fn := Examples.train_dataset |}])
  /\ Examples.train_dataset ≠ Examples.val_dataset.
Proof. split; [vm_compute; reflexivity|discriminate]. Qed.

Example two_image_doc_runs :
  (fun r => (map Interleaved.all_zero (fst r),
             Interleaved.count_image_tokens 32000 (fst (snd r))))
    <$> Examples.toy_assembler Examples.two_image_doc (24 # 100) (9 # 10) (9 # 10)
  = Return ([false; false; true; true; true], 2%nat).
Proof. vm_compute. reflexivity. Qed.

Example seven_image_doc_runs :
  (fun r => (map Interleaved.all_zero (fst r),
             Interleaved.count_image_tokens 32000 (fst (snd r))))
    <$> Examples.toy_assembler Examples.seven_image_doc (24 # 100) (9 # 10) (9 # 10)
  = Return ([false; false; false; false; false], 5%nat).
Proof. vm_compute. reflexivity. Qed.

Example no_image_doc_rejected :
  Examples.toy_assembler Examples.no_image_doc (24 # 100) (9 # 10) (9 # 10)
  = Raise (ValueError "No images in sample").
Proof. vm_compute. reflexivity. Qed.

(** * Further properties *)

(** ** The batch planner and the constructors *)

Section Planning.

Import ShardLocator Webdataset.

Variable braceexpand : string -> list string.






(** A constructor never returns with a worker count of zero or less: the
    loader is built with [persistent_workers=True], which needs a worker.
    When the sample count is configured, the world size is not negative
    and the planner returns, the shard-count assertion cannot fail and
    the error is the one the loader raises. *)
Theorem no_loader_without_workers (k : dataset_type) fs args epoch floor :
  workers args <= 0 ->
  let outcome := get_dataset_fn braceexpand k fs args epoch floor in
  (forall info, outcome ≠ Return info)
  /\ (forall pattern sized n p,
        shards_of k args = Some pattern ->
        get_dataset_size braceexpand fs pattern = Return sized ->
        train_num_samples_of k args = Some n ->
        n ≠ 0 ->
        0 <= world_size args ->
        plan_batches floor n (batch_size_of k args) (world_size args)
          (workers args) = Return p ->
        outcome =
        Raise (ValueError
                 (if workers args <? 0
                  then "num_workers option should be non-negative; "
                       +:+ "use num_workers=0 to disable multiprocessing."
                  else "persistent_workers option needs num_workers > 0"))).
Proof.
  intros Hw outcome.
  assert (Hcheck : check_num_workers (workers args)
                   = Raise (ValueError
                       (if workers args <? 0
                        then "num_workers option should be non-negative; "
                             +:+ "use num_workers=0 to disable multiprocessing."
                        else "persistent_workers option needs num_workers > 0"))).
  { unfold check_num_workers.
    destruct (Z.ltb_spec (workers args) 0); [done|].
    destruct (Z.eqb_spec (workers args) 0); [done|lia]. }
  assert (Hplanned : forall pattern n info,
            planned k args pattern n epoch floor ≠ Return info).
  { intros pattern n info. unfold planned, mbind, result_bind.
    destruct (plan_batches _ _ _ _ _); [|done]. by rewrite Hcheck. }
  split.
  - intros info. subst outcome.
    destruct (shards_of k args) as [pattern|] eqn:Hs.
    + destruct (get_dataset_size braceexpand fs pattern) as [sized|e] eqn:Hsized.
      * rewrite (get_dataset_fn_cases braceexpand k fs args pattern sized
                   epoch floor Hs Hsized).
        destruct (train_num_samples_of k args) as [n|]; [|done].
        destruct (n =? 0); [done|].
        destruct (_ && _); [done|]. apply Hplanned.
      * by rewrite (get_dataset_fn_unreadable braceexpand k fs args pattern e
                      epoch floor Hs Hsized).
    + rewrite get_dataset_fn_unfold, Hs. done.
  - intros pattern sized n p Hs Hsized Hn Hn0 Hws Hplan. subst outcome.
    rewrite (get_dataset_fn_cases braceexpand k fs args pattern sized
               epoch floor Hs Hsized), Hn.
    destruct (Z.eqb_spec n 0); [done|].
    assert ((Z.of_nat (length (braceexpand pattern))
             <? workers args * world_size args) = false) as ->.
    { apply Z.ltb_ge. nia. }
    rewrite andb_false_r.
    unfold planned. rewrite Hplan. simpl. by rewrite Hcheck.
Qed.

(** When [sizes.json] exists, a [__len__] file in the same directory is
    never read, and the total is zero when the map lists none of the
    expanded shards. *)
Theorem sizes_json_takes_precedence fs pattern first rest sizes :
  braceexpand pattern = first :: rest ->
  sizes_json fs !! Path.join (Path.dirname first) "sizes.json"
  = Some (Return sizes) ->
  (forall lens,
     get_dataset_size braceexpand
       {| sizes_json := sizes_json fs; len_file := lens |} pattern
     = get_dataset_size braceexpand fs pattern)
  /\ (Forall (fun shard => sizes !! Path.basename shard = None) (first :: rest) ->
      get_dataset_size braceexpand fs pattern
      = Return (Some (LitInt 0), Z.of_nat (length (first :: rest)))).
Proof.
  intros Hbe Hsizes. split.
  - intros lens. unfold get_dataset_size. rewrite Hbe.
    cbn [sizes_json len_file]. by rewrite Hsizes.
  - intros Hnone. unfold get_dataset_size. rewrite Hbe, Hsizes.
    assert (Hzero : forall shards,
              Forall (fun shard => sizes !! Path.basename shard = None) shards ->
              exists ns, shard_sizes sizes shards = Return ns /\ sum ns = 0).
    { intros shards H. induction H as [|shard shards Hshard _ (ns & Hns & Hsum)].
      - by exists [].
      - exists (0 :: ns). cbn [shard_sizes]. rewrite Hshard, Hns. done. }
    destruct (Hzero _ Hnone) as (ns & Hns & Hsum).
    unfold mbind, result_bind. by rewrite Hns, Hsum.
Qed.

End Planning.


Lemma no_loader_without_workers_witness :
  Webdataset.workers Examples.main_process_args <= 0
  /\ forall info,
       Webdataset.get_dataset_fn Examples.one_shard Webdataset.mmc4
         Examples.no_sidecars Examples.main_process_args 0 false
       ≠ Return info.
Proof.
  split; [vm_compute; discriminate|].
  apply (no_loader_without_workers Examples.one_shard Webdataset.mmc4
           Examples.no_sidecars Examples.main_process_args 0 false).
  vm_compute. discriminate.
Defined.

Lemma sizes_json_takes_precedence_witness :
  (Examples.one_shard "/data/mmc4/shard-9.tar" = ["/data/mmc4/shard-9.tar"]
   /\ ShardLocator.sizes_json Examples.sized_directory
        !! Path.join (Path.dirname "/data/mmc4/shard-9.tar") "sizes.json"
      = Some (Return {[ "shard-0.tar" := Return 100 ]}))
  /\ (Forall (fun shard =>
                ({[ "shard-0.tar" := Return 100 ]} : gmap string (result Z))
                  !! Path.basename shard = None)
        ["/data/mmc4/shard-9.tar"] ->
      ShardLocator.get_dataset_size Examples.one_shard Examples.sized_directory
        "/data/mmc4/shard-9.tar"
      = Return (Some (ShardLocator.LitInt 0),
                Z.of_nat (length ["/data/mmc4/shard-9.tar"]))).
Proof.
  split; [split; reflexivity|].
  apply (sizes_json_takes_precedence Examples.one_shard
           Examples.sized_directory "/data/mmc4/shard-9.tar"
           "/data/mmc4/shard-9.tar" [] {[ "shard-0.tar" := Return 100 ]});
    reflexivity.
Defined.

(** ** Seeds and epochs *)

Section Seeds.

Import Shuffle Notions.

(** Worker seeds are spaced so that they cannot overlap: when the workers
    of a loader carry the seeds [base + i] for their ids [0 <= i < nw], as
    PyTorch assigns them, two calls of [pytorch_worker_seed] give the same
    seed only for the same worker and the same increment. *)
Theorem worker_seeds_do_not_overlap (base nw i1 i2 e1 e2 fallback1 fallback2 : Z) :
  0 <= i1 < nw -> 0 <= i2 < nw ->
  pytorch_worker_seed
    {| get_worker_info := Some {| wi_seed := base + i1; wi_num_workers := nw |};
       wds_pytorch_worker_seed := fallback1 |} e1
  = pytorch_worker_seed
      {| get_worker_info := Some {| wi_seed := base + i2; wi_num_workers := nw |};
         wds_pytorch_worker_seed := fallback2 |} e2 ->
  i1 = i2 /\ e1 = e2.
Proof.
  intros H1 H2. unfold pytorch_worker_seed. simpl.
  replace (Z.max 1 nw) with nw by lia. intros Heq.
  assert (Heq' : base + i1 + e1 * nw = base + i2 + e2 * nw).
  { destruct (Z.eqb_spec e1 0) as [->|_], (Z.eqb_spec e2 0) as [->|_];
      simpl in Heq; lia. }
  clear Heq.
  assert (e1 = e2) by nia. subst e2. lia.
Qed.

Lemma worker_seeds_do_not_overlap_witness :
  (0 <= 1 < 4 /\ 0 <= 1 < 4
   /\ pytorch_worker_seed
        {| get_worker_info := Some {| wi_seed := 1000 + 1; wi_num_workers := 4 |};
           wds_pytorch_worker_seed := 0 |} 2
      = pytorch_worker_seed
          {| get_worker_info := Some {| wi_seed := 1000 + 1; wi_num_workers := 4 |};
             wds_pytorch_worker_seed := 5 |} 2)
  /\ (1 = 1 /\ 2 = 2).
Proof.
  split; [repeat split; lia|].
  apply (worker_seeds_do_not_overlap 1000 4 1 1 2 2 0 5); [lia|lia|reflexivity].
Defined.

(** Successive runs of a stage with a fixed base seed: a stage that counts
    epochs itself from [n] seeds its runs with [seed + n + 1],
    [seed + n + 2], ..., so a stage left at the default epoch of -1 starts
    at [seed]; a stage that reads a shared epoch seeds every run with
    [seed + value] and is left unchanged by a run. *)
Theorem seeds_of_successive_runs (k : nat) (p : process) (self : detshuffle2) :
  0 <= seed self ->
  (forall n, epoch self = OwnCounter n ->
     seeds_of_runs k p self
     = map (fun i => seed self + n + 1 + Z.of_nat i) (seq 0 k))
  /\ (forall value, epoch self = SharedEpoch value ->
        seeds_of_runs k p self = replicate k (seed self + value)
        /\ snd (next_epoch self) = self).
Proof.
  intros Hseed. split.
  - revert self Hseed. induction k as [|k IH]; intros self Hseed n He; [done|].
    cbn [seeds_of_runs]. rewrite run_seed_fixed by done.
    destruct (next_epoch_own self n He) as [Hfst Hsnd].
    rewrite Hfst.
    rewrite (IH (snd (next_epoch self)) ltac:(unfold next_epoch; rewrite He; done)
               (n + 1) Hsnd).
    cbn [seq map]. f_equal; [lia|].
    rewrite <- seq_shift, map_map.
    unfold next_epoch. rewrite He. simpl.
    apply map_ext. intros i. lia.
  - intros value He.
    assert (Hsame : snd (next_epoch self) = self)
      by (by rewrite (next_epoch_shared self value He)).
    split; [|done].
    induction k as [|k IH]; [done|].
    cbn [seeds_of_runs replicate]. rewrite Hsame, IH.
    rewrite run_seed_fixed by done.
    by rewrite (next_epoch_shared self value He).
Qed.

Lemma seeds_of_successive_runs_witness :
  0 <= seed Fixtures.default_stage
  /\ seeds_of_runs 3 Examples.main_process Fixtures.default_stage = [7; 8; 9].
Proof.
  split; [vm_compute; congruence|].
  exact (proj1 (seeds_of_successive_runs 3 Examples.main_process
                  Fixtures.default_stage ltac:(vm_compute; congruence))
           (-1) eq_refl).
Defined.

End Seeds.

(** ** The resampled shard source *)

Section Resampling.

Import Shuffle Resample.

Variable Rng : Type.
Variable rng_seed : Z -> Rng.
Variable randbelow : Rng -> nat -> nat * Rng.

Local Abbreviation draw := (Resample.draw Rng randbelow).
Local Abbreviation iter := (Resample.iter Rng rng_seed randbelow).

Lemma choice_nonempty (rng : Rng) (urls : list string) :
  urls ≠ [] ->
  choice Rng randbelow rng urls =
  match urls !! fst (randbelow rng (length urls)) with
  | Some url => Return (url, snd (randbelow rng (length urls)))
  | None => Raise (IndexError "list index out of range")
  end.
Proof.
  intros Hne. unfold choice. destruct urls as [|u us]; [done|].
  by destruct (randbelow rng (length (u :: us))).
Qed.

Lemma draw_in_range (urls : list string) (n : nat) (rng : Rng) :
  (forall rng m, (0 < m)%nat -> (fst (randbelow rng m) < m)%nat) ->
  urls ≠ [] ->
  exists out rng',
    draw n rng urls = (out, rng', None)
    /\ length out = n
    /\ Forall (fun url => url ∈ urls) out.
Proof.
  intros Hlt Hne. revert rng. induction n as [|n IH]; intros rng.
  - exists [], rng. by repeat split.
  - cbn [Resample.draw]. rewrite choice_nonempty by done.
    assert (Hpos : (0 < length urls)%nat) by (destruct urls; [done|simpl; lia]).
    specialize (Hlt rng (length urls) Hpos).
    destruct (lookup_lt_is_Some_2 urls _ Hlt) as [url Hurl].
    rewrite Hurl.
    destruct (IH (snd (randbelow rng (length urls))))
      as (out & rng' & Hd & Hlen & Hall).
    rewrite Hd. exists (url :: out), rng'. repeat split.
    + simpl. by rewrite Hlen.
    + constructor; [|done]. by eapply list_elem_of_lookup_2.
Qed.

(** An object built by [__init__] has a non-empty url list, and when the
    generator's draws stay below their bound an iteration over it ends
    without an exception after exactly [nshards] yields, each of them one
    of the urls; the object keeps its urls. *)
Theorem resampled_iteration (p : process) (fresh : Rng) (urls : list string)
  (nshards : nat) (worker_seed : option Z) (deterministic : bool)
  (epoch : epoch_ref) (self : ResampledShards2 Rng) :
  (forall rng m, (0 < m)%nat -> (fst (randbelow rng m) < m)%nat) ->
  init Rng fresh urls nshards worker_seed deterministic epoch = Return self ->
  urls ≠ []
  /\ exists out self',
       iter p self = (out, None, self')
       /\ length out = nshards
       /\ Forall (fun url => url ∈ urls) out
       /\ Resample.urls Rng self' = urls.
Proof.
  intros Hlt Hinit. unfold init in Hinit.
  assert (Hne : urls ≠ []) by (by destruct urls).
  assert (Hself : self =
    {| Resample.urls := urls; Resample.nshards := nshards;
       rng := fresh; Resample.worker_seed := worker_seed;
       Resample.deterministic := deterministic;
       Resample.epoch := epoch |}).
  { destruct urls; [done|]. by injection Hinit as <-. }
  split; [done|]. subst self.
  unfold Resample.iter. cbn [Resample.urls Resample.nshards].
  destruct (draw_in_range urls nshards
              (iter_rng Rng rng_seed p
                 {| Resample.urls := urls; Resample.nshards := nshards;
                    rng := fresh; Resample.worker_seed := worker_seed;
                    Resample.deterministic := deterministic;
                    Resample.epoch := epoch |}) Hlt Hne)
    as (out & rng' & Hd & Hlen & Hall).
  rewrite Hd. eauto 10.
Qed.

(** A deterministic source that reads a shared epoch replays: iterating
    again, after the first iteration has used up the generator, yields
    the same urls as long as the shared epoch is not changed. *)
Theorem resampled_replay (p : process) (self : ResampledShards2 Rng) (value : Z) :
  Resample.deterministic Rng self = true ->
  Resample.epoch Rng self = SharedEpoch value ->
  let first := iter p self in
  let second := iter p (snd first) in
  fst (fst second) = fst (fst first)
  /\ snd (fst second) = snd (fst first).
Proof.
  intros Hdet He first second. subst second first.
  unfold Resample.iter.
  assert (Hrng : forall r,
    iter_rng Rng rng_seed p
      {| Resample.urls := Resample.urls Rng self;
         Resample.nshards := Resample.nshards Rng self;
         rng := r; Resample.worker_seed := Resample.worker_seed Rng self;
         Resample.deterministic := Resample.deterministic Rng self;
         Resample.epoch := snd (iter_epoch Rng self) |}
    = iter_rng Rng rng_seed p self).
  { intros r. unfold iter_rng, iter_epoch. simpl. by rewrite Hdet, He. }
  destruct (draw (Resample.nshards Rng self) (iter_rng Rng rng_seed p self)
              (Resample.urls Rng self)) as [[out rng'] e] eqn:Hd.
  cbn [fst snd Resample.urls Resample.nshards]. rewrite Hrng, Hd. done.
Qed.

End Resampling.

Lemma lcg_randbelow_lt (rng : Z) (m : nat) :
  (0 < m)%nat -> (fst (Resample.lcg_randbelow rng m) < m)%nat.
Proof.
  intros Hm. unfold Resample.lcg_randbelow. simpl.
  pose proof (Z.mod_pos_bound (Shuffle.lcg_next rng) (Z.of_nat m)). lia.
Qed.

Lemma resampled_iteration_witness :
  ((forall rng m, (0 < m)%nat -> (fst (Resample.lcg_randbelow rng m) < m)%nat)
   /\ Resample.init Z 99 Fixtures.three_urls 5 None true (Shuffle.SharedEpoch 3)
      = Return Fixtures.resampled_source)
  /\ exists out self',
       Resample.iter Z Shuffle.lcg_seed Resample.lcg_randbelow
         Examples.worker_process Fixtures.resampled_source = (out, None, self')
       /\ length out = 5%nat
       /\ Forall (fun url => url ∈ Fixtures.three_urls) out
       /\ Resample.urls Z self' = Fixtures.three_urls.
Proof.
  split; [split; [exact lcg_randbelow_lt|reflexivity]|].
  exact (proj2 (resampled_iteration Z Shuffle.lcg_seed Resample.lcg_randbelow
                  Examples.worker_process 99 Fixtures.three_urls 5 None true
                  (Shuffle.SharedEpoch 3) Fixtures.resampled_source
                  lcg_randbelow_lt eq_refl)).
Defined.

Lemma resampled_replay_witness :
  (Resample.deterministic Z Fixtures.resampled_source = true
   /\ Resample.epoch Z Fixtures.resampled_source = Shuffle.SharedEpoch 3)
  /\ fst (fst (Resample.iter Z Shuffle.lcg_seed Resample.lcg_randbelow
                 Examples.worker_process
                 (snd (Resample.iter Z Shuffle.lcg_seed Resample.lcg_randbelow
                         Examples.worker_process Fixtures.resampled_source))))
     = fst (fst (Resample.iter Z Shuffle.lcg_seed Resample.lcg_randbelow
                   Examples.worker_process Fixtures.resampled_source)).
Proof.
  split; [split; reflexivity|].
  exact (proj1 (resampled_replay Z Shuffle.lcg_seed Resample.lcg_randbelow
                  Examples.worker_process Fixtures.resampled_source 3
                  eq_refl eq_refl)).
Defined.

Example resampled_source_yields :
  fst (fst (Resample.iter Z Shuffle.lcg_seed Resample.lcg_randbelow
              Examples.worker_process Fixtures.resampled_source))
  = ["s1.tar"; "s0.tar"; "s0.tar"; "s1.tar"; "s2.tar"].
Proof. vm_compute. reflexivity. Qed.

(** ** Invariants of the regrouping loop *)

Section RegroupingInvariants.

Import Regroup Notions Loader.

Variable keys : string -> option (string * string).
Variable lower : string -> string.

(** The two bookkeeping entries are present. *)
Local Abbreviation bookkept :=
  (fun c : gmap string value =>
     is_Some (c !! "__key__") /\ is_Some (c !! "__url__")).

Lemma new_sample_bookkept (p u : string) : bookkept (new_sample p u).
Proof.
  unfold new_sample. split.
  - rewrite lookup_insert_ne by done. rewrite lookup_singleton_eq. eauto.
  - rewrite lookup_insert_eq. eauto.
Qed.

Lemma insert_bookkept (c : gmap string value) (s : string) (v : value) :
  bookkept c -> bookkept (<[s := v]> c).
Proof.
  intros [Hk Hu]. split; rewrite lookup_insert_is_Some; destruct (decide (s = "__key__")),
    (decide (s = "__url__")); auto.
Qed.

Lemma group_loop_yields_valid (lcase : bool) (suffixes : option (list string))
  (stream : list filesample) (cur : option (gmap string value)) :
  (forall c, cur = Some c -> bookkept c) ->
  Forall (fun smp => valid_sample (Some smp) = true /\ bookkept smp)
    (group_loop keys lower lcase suffixes stream cur).
Proof.
  assert (Hflush : forall cur : option (gmap string value),
            (forall c, cur = Some c -> bookkept c) ->
            Forall (fun smp => valid_sample (Some smp) = true /\ bookkept smp)
              (flush cur)).
  { intros [c|] Hc; unfold flush; [|by destruct (valid_sample None)].
    destruct (valid_sample (Some c)) eqn:Hv; [|done].
    simpl. constructor; [|done]. split; [done|]. by apply Hc. }
  revert cur. induction stream as [|r stream IH]; intros cur Hcur.
  - by apply Hflush.
  - cbn [group_loop]. destruct (keys (fname r)) as [[p s]|]; [|by apply IH].
    set (s' := if lcase then lower s else s).
    set (start := match cur with
                  | Some c => bool_decide (c !! "__key__" ≠ Some (VStr p))
                              || bool_decide (is_Some (c !! s'))
                  | None => true
                  end).
    apply Forall_app. split.
    + destruct start; [by apply Hflush|done].
    + apply IH. intros c Hc.
      assert (Hbase : forall c0,
                (if start
                 then Some (<["__url__" := VStr (url r)]> {["__key__" := VStr p]})
                 else cur) = Some c0 -> bookkept c0).
      { intros c0. destruct start.
        - intros [= <-]. apply (new_sample_bookkept p (url r)).
        - apply Hcur. }
      destruct (match suffixes with
                | Some allowed => bool_decide (s' ∈ allowed)
                | None => true
                end).
      * destruct (if start then _ else cur) as [c0|] eqn:E; [|done].
        injection Hc as <-. apply insert_bookkept. by apply Hbase.
      * by apply Hbase.
Qed.

(** Whatever the stream, the key function and the options, every sample
    [group_by_keys_nothrow] yields is valid and carries both bookkeeping
    entries [__key__] and [__url__]. *)
Theorem regroup_yields_valid_samples (stream : list filesample) (lcase : bool)
  (suffixes : option (list string)) :
  Forall (fun smp => valid_sample (Some smp) = true
                     /\ is_Some (smp !! "__key__")
                     /\ is_Some (smp !! "__url__"))
    (group_by_keys_nothrow keys lower stream lcase suffixes).
Proof. unfold group_by_keys_nothrow. by apply group_loop_yields_valid. Qed.

Lemma group_loop_skips (lcase : bool) (suffixes : option (list string))
  (stream : list filesample) (cur : option (gmap string value)) :
  group_loop keys lower lcase suffixes stream cur
  = group_loop keys lower lcase suffixes (List.filter (splittable keys) stream) cur.
Proof.
  revert cur. induction stream as [|r stream IH]; intros cur; [done|].
  cbn [List.filter]. unfold splittable at 1.
  destruct (keys (fname r)) as [[p s]|] eqn:Hk.
  - cbn [group_loop]. rewrite Hk. by rewrite IH.
  - cbn [group_loop]. rewrite Hk. by apply IH.
Qed.

Lemma flush_length (cur : option (gmap string value)) :
  (length (flush cur) <= match cur with Some _ => 1 | None => 0 end)%nat.
Proof.
  unfold flush. destruct cur as [c|]; simpl; [|done].
  destruct (_ && _); simpl; lia.
Qed.

Lemma group_loop_length (lcase : bool) (suffixes : option (list string))
  (stream : list filesample) (cur : option (gmap string value)) :
  (length (group_loop keys lower lcase suffixes stream cur)
   <= length (List.filter (splittable keys) stream)
      + match cur with Some _ => 1 | None => 0 end)%nat.
Proof.
  revert cur. induction stream as [|r stream IH]; intros cur.
  - apply flush_length.
  - cbn [List.filter group_loop]. unfold splittable at 1.
    destruct (keys (fname r)) as [[p s]|]; [|by apply IH].
    rewrite length_app.
    match goal with
    | |- context [group_loop keys lower lcase suffixes stream ?c] =>
        specialize (IH c); set (next := c) in *
    end.
    assert (Hnext : (length (group_loop keys lower lcase suffixes stream next)
                     <= length (List.filter (splittable keys) stream) + 1)%nat).
    { destruct next; lia. }
    destruct cur as [c|].
    + destruct (_ || _).
      * pose proof (flush_length (Some c)). simpl in *. lia.
      * simpl. lia.
    + pose proof (flush_length None). simpl in *. lia.
Qed.

(** Records whose name does not split into a prefix and an extension are
    skipped: the stream without them yields the same samples; at most one
    sample is yielded per record that does split, so a stream without any
    such record yields nothing. *)
Theorem regroup_skips_unsplittable_names (stream : list filesample)
  (lcase : bool) (suffixes : option (list string)) :
  let out := group_by_keys_nothrow keys lower stream lcase suffixes in
  out = group_by_keys_nothrow keys lower (List.filter (splittable keys) stream)
          lcase suffixes
  /\ (length out <= length (List.filter (splittable keys) stream))%nat
  /\ (List.filter (splittable keys) stream = [] -> out = []).
Proof.
  intros out. subst out. unfold group_by_keys_nothrow.
  pose proof (group_loop_length lcase suffixes stream None) as Hlen.
  rewrite Nat.add_0_r in Hlen.
  split; [apply group_loop_skips|]. split; [done|].
  intros Hnone. rewrite Hnone in Hlen.
  by destruct (group_loop keys lower lcase suffixes stream None); [|simpl in Hlen; lia].
Qed.

(** Only bookkeeping keys and allowed extensions are present. *)
Local Abbreviation restricted :=
  (fun (allowed : list string) (c : gmap string value) =>
     forall key, is_Some (c !! key) -> key ∈ allowed \/ bookkeeping key = true).

Lemma group_loop_restricted (lcase : bool) (allowed : list string)
  (stream : list filesample) (cur : option (gmap string value)) :
  (forall c, cur = Some c -> restricted allowed c) ->
  Forall (restricted allowed)
    (group_loop keys lower lcase (Some allowed) stream cur).
Proof.
  assert (Hflush : forall cur : option (gmap string value),
            (forall c, cur = Some c -> restricted allowed c) ->
            Forall (restricted allowed) (flush cur)).
  { intros [c|] Hc; unfold flush; [|by destruct (valid_sample None)].
    destruct (valid_sample (Some c)); [|done].
    simpl. constructor; [|done]. by apply Hc. }
  revert cur. induction stream as [|r stream IH]; intros cur Hcur.
  - by apply Hflush.
  - cbn [group_loop]. destruct (keys (fname r)) as [[p s]|]; [|by apply IH].
    set (s' := if lcase then lower s else s).
    set (start := match cur with
                  | Some c => bool_decide (c !! "__key__" ≠ Some (VStr p))
                              || bool_decide (is_Some (c !! s'))
                  | None => true
                  end).
    apply Forall_app. split.
    + destruct start; [by apply Hflush|done].
    + apply IH. intros c Hc.
      assert (Hbase : forall c0,
                (if start
                 then Some (<["__url__" := VStr (url r)]> {["__key__" := VStr p]})
                 else cur) = Some c0 -> restricted allowed c0).
      { intros c0. destruct start; [|apply Hcur].
        intros [= <-] key. rewrite lookup_insert_is_Some.
        intros [<-|[_ Hin]]; [by right|].
        rewrite lookup_singleton_is_Some in Hin. subst key. by right. }
      destruct (bool_decide (s' ∈ allowed)) eqn:Hallowed.
      * destruct (if start then _ else cur) as [c0|] eqn:E; [|done].
        injection Hc as <-. intros key. rewrite lookup_insert_is_Some.
        intros [<-|[_ Hin]].
        -- left. by apply bool_decide_eq_true in Hallowed.
        -- by apply (Hbase c0).
      * by apply Hbase.
Qed.

(** With a [suffixes] list, a yielded sample holds nothing but the two
    bookkeeping entries and extensions of the list. *)
Theorem regroup_keeps_listed_suffixes (stream : list filesample) (lcase : bool)
  (allowed : list string) :
  Forall (fun smp =>
            forall key, is_Some (smp !! key) ->
              key ∈ allowed \/ bookkeeping key = true)
    (group_by_keys_nothrow keys lower stream lcase (Some allowed)).
Proof. unfold group_by_keys_nothrow. by apply group_loop_restricted. Qed.

Lemma sample_of_keys (p : string) (rs : list filesample) (s : string) :
  group_ok keys lower (p, rs) = true ->
  bookkeeping s = false ->
  is_Some (sample_of keys lower (p, rs) !! s) <-> Some s ∈ map (suffix_of keys lower) rs.
Proof.
  intros Hok Hb. split.
  - intros Hsome.
    destruct (decide (Some s ∈ map (suffix_of keys lower) rs)) as [|Hnot]; [done|].
    unfold sample_of in Hsome. rewrite foldl_add_untouched in Hsome by done.
    rewrite new_sample_fresh in Hsome; [by destruct Hsome| |].
    + intros ->. done.
    + intros ->. done.
  - intros (r & Heq & Hin)%list_elem_of_fmap.
    destruct (sample_of_field keys lower p rs r Hok Hin) as (s0 & Hs0 & Hl).
    rewrite <- Heq in Hs0. injection Hs0 as <-. eauto.
Qed.

Lemma filter_of_sample (g : string * list filesample) :
  group_ok keys lower g = true ->
  filter_no_caption_or_no_image (sample_of keys lower g)
  = has_caption_and_image keys lower g.
Proof.
  destruct g as [p rs]. intros Hok.
  unfold filter_no_caption_or_no_image, has_caption_and_image. simpl snd.
  assert (H : forall s, bookkeeping s = false ->
            bool_decide (is_Some (sample_of keys lower (p, rs) !! s))
            = bool_decide (Some s ∈ map (suffix_of keys lower) rs)).
  { intros s Hs. apply bool_decide_ext. by apply sample_of_keys. }
  by rewrite !H.
Qed.

(** Regrouping followed by the selection of the image-caption pipelines:
    on a stream of well-formed groups with distinct prefixes, the samples
    that pass [filter_no_caption_or_no_image] are exactly those of the
    groups with a [txt] record and a [png], [jpg] or [jpeg] record, the
    extensions compared after case folding. *)
Theorem select_after_regroup (groups : list (string * list filesample)) :
  forallb (group_ok keys lower) groups = true ->
  NoDup (map fst groups) ->
  List.filter filter_no_caption_or_no_image
    (group_by_keys_nothrow keys lower (concat (map snd groups)) true None)
  = map (sample_of keys lower) (List.filter (has_caption_and_image keys lower) groups).
Proof.
  intros Hok Hnd. unfold group_by_keys_nothrow.
  rewrite (group_loop_groups keys lower groups None Hok Hnd) by done.
  cbn [flush valid_sample app]. clear Hnd.
  induction groups as [|g groups IH]; [done|].
  cbn [forallb] in Hok. apply andb_true_iff in Hok as [Hg Hok].
  cbn [map List.filter]. rewrite (filter_of_sample g Hg), (IH Hok).
  by destruct (has_caption_and_image keys lower g).
Qed.

End RegroupingInvariants.

Lemma select_after_regroup_witness :
  (forallb (Regroup.group_ok Regroup.base_plus_ext Str.ascii_lower) Fixtures.mixed_groups = true
   /\ NoDup (map fst Fixtures.mixed_groups))
  /\ map (fun smp => smp !! "__key__")
       (List.filter Loader.filter_no_caption_or_no_image
          (Regroup.group_by_keys_nothrow Regroup.base_plus_ext Str.ascii_lower
             (concat (map snd Fixtures.mixed_groups)) true None))
     = [Some (Regroup.VStr "0001")].
Proof.
  assert (H1 : forallb (Regroup.group_ok Regroup.base_plus_ext Str.ascii_lower)
                 Fixtures.mixed_groups = true) by (vm_compute; reflexivity).
  assert (H2 : NoDup (map fst Fixtures.mixed_groups))
    by (eapply bool_decide_eq_true_1; vm_compute; reflexivity).
  split; [by split|].
  rewrite (select_after_regroup Regroup.base_plus_ext Str.ascii_lower
             Fixtures.mixed_groups H1 H2).
  vm_compute. reflexivity.
Defined.

(** ** Sentence marking, image filtering and the error handler *)

Section Marking.

Import Interleaved Notions.

(** [mark_sentences] succeeds exactly when every index is a valid Python
    index into the sentence list, negative ones counted from the end, and
    then returns as many sentences as it was given; otherwise it raises
    [IndexError].  A single valid index [ix] marks the sentence at
    position [ix mod len(sentences)]. *)
Theorem mark_sentences_indexes (sentences : list string) (ixs : list Z) :
  (forallb (in_range (length sentences)) ixs = true ->
   exists marked,
     mark_sentences sentences ixs = Return marked
     /\ length marked = length sentences)
  /\ (forallb (in_range (length sentences)) ixs = false ->
      mark_sentences sentences ixs
      = Raise (IndexError "list index out of range"))
  /\ (forall ix, in_range (length sentences) ix = true ->
        exists sent,
          sentences !! Z.to_nat (ix mod Z.of_nat (length sentences)) = Some sent
          /\ mark_sentences sentences [ix]
             = Return (<[Z.to_nat (ix mod Z.of_nat (length sentences))
                         := "<|endofchunk|><image>" +:+ sent]> sentences)).
Proof.
  split; [|split].
  - revert sentences. induction ixs as [|ix ixs IH]; intros sentences Hall.
    + by exists sentences.
    + cbn [forallb] in Hall. apply andb_true_iff in Hall as [Hix Hall].
      destruct (py_index_in_range sentences ix Hix) as (i & Hi & Hlt & _).
      cbn [mark_sentences]. rewrite Hi.
      destruct (lookup_lt_is_Some_2 sentences i Hlt) as [sent Hsent].
      rewrite Hsent.
      destruct (IH (<[i := "<|endofchunk|><image>" +:+ sent]> sentences))
        as (marked & Hm & Hlen).
      { by rewrite length_insert. }
      exists marked. split; [done|]. by rewrite Hlen, length_insert.
  - revert sentences. induction ixs as [|ix ixs IH]; intros sentences Hall;
      [done|].
    cbn [forallb] in Hall. cbn [mark_sentences].
    destruct (in_range (length sentences) ix) eqn:Hix.
    + destruct (py_index_in_range sentences ix Hix) as (i & Hi & Hlt & _).
      rewrite Hi.
      destruct (lookup_lt_is_Some_2 sentences i Hlt) as [sent Hsent].
      rewrite Hsent. apply IH. by rewrite length_insert.
    + by rewrite (py_index_out_of_range sentences ix Hix).
  - intros ix Hix.
    destruct (py_index_in_range sentences ix Hix) as (i & Hi & Hlt & Heq).
    destruct (lookup_lt_is_Some_2 sentences i Hlt) as [sent Hsent].
    exists sent. rewrite <- Heq. split; [done|].
    cbn [mark_sentences]. by rewrite Hi, Hsent.
Qed.

Variable b64decode : string -> result (list Byte.byte).
Variable Image : Type.
Variable Image_open : list Byte.byte -> result Image.
Variable clip_preprocess : Image -> Tensor3.
Variable hflip : Tensor3 -> Tensor3.
Variable eos_token : string.
Variable tokenizer : string -> list Z * list Z.
Variable image_token_id : Z.

Local Abbreviation collect := (collect_images b64decode Image Image_open).
Local Abbreviation process := (preprocess_image Image clip_preprocess hflip).
Local Abbreviation assembler :=
  (preprocess_interleaved b64decode Image Image_open clip_preprocess hflip
     eos_token tokenizer image_token_id).

(** Raising the similarity threshold never retains more: when the images
    of a list of descriptors are collected under a threshold, they are
    collected under any higher threshold too, and the images and sentence
    indexes kept under the higher threshold are subsequences, in the same
    order, of those kept under the lower one; no more images are kept
    than the document lists. *)
Theorem higher_threshold_keeps_fewer (infos : list sample_image) (thr thr' : Q)
  (images : list Image) (sentence_ixs : list Z) :
  (thr <= thr')%Q ->
  collect infos thr = Return (images, sentence_ixs) ->
  exists images' sentence_ixs',
    collect infos thr' = Return (images', sentence_ixs')
    /\ images' `sublist_of` images
    /\ sentence_ixs' `sublist_of` sentence_ixs
    /\ (length images <= length infos)%nat.
Proof.
  intros Hle. revert images sentence_ixs.
  induction infos as [|x infos IH]; intros images sentence_ixs.
  - intros [= <- <-]. by exists [], [].
  - rewrite !(collect_images_cons b64decode Image Image_open).
    unfold mbind, result_bind.
    destruct (b64decode (image_base64 x)) as [raw|e]; [|done].
    destruct (bool_decide (11000 <= Z.of_nat (length raw))); simpl.
    2:{ intros H. destruct (IH _ _ H) as (images' & ixs' & ? & ? & ? & ?).
        exists images', ixs'. repeat split; try done. simpl. lia. }
    destruct (Qle_bool thr' (matched_sim x)) eqn:H'.
    + assert (Qle_bool thr (matched_sim x) = true) as ->.
      { apply Qle_bool_iff. apply Qle_bool_iff in H'.
        by eapply Qle_trans. }
      destruct (Image_open raw) as [image|e]; [|done].
      destruct (collect infos thr) as [[imgs ixs]|e]; [|done].
      intros [= <- <-].
      destruct (IH imgs ixs eq_refl) as (images' & ixs' & -> & ? & ? & ?).
      exists (image :: images'), (matched_text_index x :: ixs').
      repeat split; try by apply sublist_skip. simpl. lia.
    + destruct (Qle_bool thr (matched_sim x)).
      * destruct (Image_open raw) as [image|e]; [|done].
        destruct (collect infos thr) as [[imgs ixs]|e]; [|done].
        intros [= <- <-].
        destruct (IH imgs ixs eq_refl) as (images' & ixs' & -> & ? & ? & ?).
        exists images', ixs'.
        repeat split; try by apply sublist_cons. simpl. lia.
      * intros H. destruct (IH _ _ H) as (images' & ixs' & ? & ? & ? & ?).
        exists images', ixs'. repeat split; try done. simpl. lia.
Qed.




Lemma log_and_continue_warning (e : exn) (log : list string) :
  log_and_continue e log = (true, log ++ warning_of e).
Proof.
  unfold log_and_continue, warning_of.
  destruct (_ || _); [by rewrite app_nil_r|done].
Qed.

(** The warnings of a mapping stage run with [log_and_continue]: the log
    grows by one warning per sample whose exception is not one of the two
    image-count rejections, in stream order, and by nothing else. *)
Theorem one_warning_per_other_failure {A B : Type} (f : A -> result B)
  (data : list A) (log : list string) :
  snd (wds_map f log_and_continue data log) = log ++ warnings f data
  /\ (forall e, length (warning_of e) <= 1)%nat
  /\ warning_of (ValueError "No images in sample") = []
  /\ warning_of (ValueError "Only one image in sample") = []
  /\ warning_of (IndexError "list index out of range")
     = ["Handling webdataset error (IndexError('list index out of range')). Ignoring."].
Proof.
  split; [|split; [|by repeat split]].
  - revert log. induction data as [|x data IH]; intros log.
    + simpl. by rewrite app_nil_r.
    + cbn [wds_map warnings]. destruct (f x) as [b|e].
      * specialize (IH log). by destruct (wds_map f log_and_continue data log).
      * rewrite log_and_continue_warning. cbv beta iota.
        by rewrite IH, <- app_assoc.
  - intros e. unfold warning_of. destruct (_ || _); simpl; lia.
Qed.

End Marking.

Lemma higher_threshold_keeps_fewer_witness :
  (((24 # 100) <= (26 # 100))%Q
   /\ Interleaved.collect_images Examples.toy_b64decode Z
        Examples.toy_open (Interleaved.image_info Examples.two_image_doc)
        (24 # 100)
      = Return ([12000%Z; 20000%Z], [0; 3]))
  /\ exists images' sentence_ixs',
       Interleaved.collect_images Examples.toy_b64decode Z
         Examples.toy_open (Interleaved.image_info Examples.two_image_doc)
         (26 # 100)
       = Return (images', sentence_ixs')
       /\ images' `sublist_of` [12000%Z; 20000%Z]
       /\ sentence_ixs' `sublist_of` [0; 3]
       /\ (length [12000%Z; 20000%Z]
           <= length (Interleaved.image_info Examples.two_image_doc))%nat.
Proof.
  assert (H1 : ((24 # 100) <= (26 # 100))%Q) by (vm_compute; discriminate).
  assert (H2 : Interleaved.collect_images Examples.toy_b64decode
                 Z Examples.toy_open
                 (Interleaved.image_info Examples.two_image_doc) (24 # 100)
               = Return ([12000%Z; 20000%Z], [0; 3]))
    by (vm_compute; reflexivity).
  split; [by split|].
  exact (higher_threshold_keeps_fewer Examples.toy_b64decode Z
           Examples.toy_open (Interleaved.image_info Examples.two_image_doc)
           (24 # 100) (26 # 100) _ _ H1 H2).
Defined.


(** ** Counting the samples of a loader *)

Section Counting.

Import Loader.

Lemma count_loop_totals {I T : Type} (dataloader : list (list I * list T))
  (n_elements n_batches : Z) :
  count_loop dataloader n_elements n_batches =
  if forallb (fun b => (length (fst b) =? length (snd b))%nat) dataloader
  then Return (n_elements
               + foldr Z.add 0 (map (fun b => Z.of_nat (length (fst b))) dataloader),
               n_batches + Z.of_nat (length dataloader))
  else Raise (AssertionError "").
Proof.
  revert n_elements n_batches.
  induction dataloader as [|[images texts] rest IH]; intros n_elements n_batches.
  - simpl. do 2 f_equal; lia.
  - cbn [count_loop forallb fst snd map foldr length].
    destruct (Nat.eqb_spec (length images) (length texts)) as [E|E].
    + rewrite E, Z.eqb_refl. simpl. unfold mbind, result_bind. simpl.
      rewrite IH. destruct (forallb _ rest); [|done].
      do 2 f_equal; lia.
    + destruct (Z.eqb_spec (Z.of_nat (length images)) (Z.of_nat (length texts)));
        [lia|]. done.
Qed.

(** [count_samples] sets [WDS_EPOCH] to ["0"] in the environment; over a
    loader whose batches all have as many texts as images it returns the
    total number of images and the number of batches, and as soon as one
    batch disagrees it raises an assertion error instead. *)
Theorem count_samples_totals {I T : Type} (environ : gmap string string)
  (dataloader : list (list I * list T)) :
  fst (count_samples environ dataloader) !! "WDS_EPOCH" = Some "0"
  /\ (forall key, key ≠ "WDS_EPOCH" ->
        fst (count_samples environ dataloader) !! key = environ !! key)
  /\ snd (count_samples environ dataloader) =
     if forallb (fun b => (length (fst b) =? length (snd b))%nat) dataloader
     then Return (foldr Z.add 0
                    (map (fun b => Z.of_nat (length (fst b))) dataloader),
                  Z.of_nat (length dataloader))
     else Raise (AssertionError "").
Proof.
  unfold count_samples. cbn [fst snd]. split; [apply lookup_insert_eq|].
  split; [by intros key Hk; apply lookup_insert_ne|].
  by rewrite count_loop_totals.
Qed.

End Counting.

(** ** The instruction-tuning loaders *)

Section InstructionTuningLoaders.

Import Mimicit Notions.

Variable len : MimicitDataset -> Z.

Lemma status_of_length (new past : string) :
  length (status_of new past) = length (all_paths new past past).
Proof.
  unfold status_of, all_paths.
  destruct (nonempty past); by rewrite ?length_app, !length_replicate.
Qed.

(** The datasets [get_mimicit_dataset] builds: at most four training and
    two validation datasets, all distinct objects; a validation dataset is
    built only next to its training dataset, so there are never more
    validation than training datasets, and none at all when neither the
    in-context nor the image-text training path is configured, whatever
    the validation paths say; every training dataset gets one status per
    instruction path. *)
Theorem build_datasets_shape (args : Args) :
  let train := fst (build_datasets args) in
  let val := snd (build_datasets args) in
  (length val <= length train <= 4)%nat
  /\ (length val <= 2)%nat
  /\ NoDup (map slot (train ++ val))
  /\ (mimicit_ic_path args = "" -> mimicit_path args = "" -> val = [])
  /\ Forall (fun d => Some (length (status_list d)) = length <$> head (paths d))
       train.
Proof.
  intros train val. subst train val. unfold build_datasets.
  destruct (nonempty (mimicit_ic_path args)) eqn:Hic,
    (nonempty (val_mimicit_ic_path args)),
    (nonempty (mimicit_path args)) eqn:Hm,
    (nonempty (val_mimicit_path args)),
    (nonempty (mimicit_text_path args)),
    (nonempty (mimicit_vt_path args)); cbn [fst snd app length].
  all: split; [lia|]; split; [lia|]; split;
    [apply (bool_decide_eq_true_1 _); reflexivity|]; split.
  all: try (intros H1 H2; rewrite ?H1, ?H2 in *; done).
  all: repeat constructor; cbn [paths status_list head fmap option_fmap option_map];
    by rewrite status_of_length.
Qed.

Lemma build_datasets_validation_needs_training (args : Args) :
  snd (build_datasets args) ≠ [] -> fst (build_datasets args) ≠ [].
Proof.
  unfold build_datasets.
  destruct (nonempty (mimicit_ic_path args)),
    (nonempty (val_mimicit_ic_path args)),
    (nonempty (mimicit_path args)),
    (nonempty (val_mimicit_path args)),
    (nonempty (mimicit_text_path args)),
    (nonempty (mimicit_vt_path args)); simpl; done.
Qed.





(** What a successful call returns: the loaders of the two loops. *)
Lemma get_mimicit_dataset_returns (args : Args) (floor : bool)
  (dls vdls : list DataLoader) :
  get_mimicit_dataset len args floor = Return (dls, vdls) ->
  let train := fst (build_datasets args) in
  let val := snd (build_datasets args) in
  exists batches : Z,
    let num_samples := batches * (batch_size args * world_size args) in
    dls = map (train_loader len args train num_samples) train
    /\ (val = [] /\ vdls = []
        \/ exists unified_dataset,
             last train = Some unified_dataset
             /\ vdls = map (val_loader len args val num_samples unified_dataset)
                         val).
Proof.
  unfold get_mimicit_dataset.
  destruct (build_datasets args) as [tr va]. cbn [fst snd].
  unfold mbind, result_bind.
  destruct (if train_num_samples args =? -1 then _ else _) as [t|]; [|done].
  destruct (if val_num_samples args =? -1 then _ else _) as [v|]; [|done].
  destruct (py_max (map len tr)) as [largest|]; [|done].
  destruct (assert _ _); [|done].
  destruct (py_max (map len va)) as [vlargest|]; [|done].
  destruct (assert _ _); [|done].
  destruct (true_div t _) as [q|]; [|done].
  destruct (true_div v _) as [q'|]; [|done].
  destruct va as [|v0 va].
  - intros [= <- <-]. eexists. split; [done|]. by left.
  - destruct (last tr) as [u|]; [|done].
    intros [= <- <-]. eexists. split; [done|]. right. eauto.
Qed.

(** When [get_mimicit_dataset] returns, there is one loader per dataset,
    in the order of the datasets; every loader has the configured batch
    size and worker count, pins memory and drops the last batch; its
    sampler is wrapped in the distributed proxy exactly for the
    distributed types DEEPSPEED and MULTI_GPU; every training loader
    collates with its own dataset; a single training dataset is sampled
    without replacement over its full length, several ones with
    replacement with one common count that is a multiple of
    [batch_size * world_size]. *)
Theorem loaders_follow_datasets (args : Args) (floor : bool)
  (dls vdls : list DataLoader) :
  get_mimicit_dataset len args floor = Return (dls, vdls) ->
  let train := fst (build_datasets args) in
  let val := snd (build_datasets args) in
  map dataset dls = train
  /\ map dataset vdls = val
  /\ Forall (fun l => loader_batch_size l = batch_size args
                      /\ num_workers l = workers args
                      /\ pin_memory l = true
                      /\ drop_last l = true
                      /\ is_proxy (loader_sampler l) = distributed args)
       (dls ++ vdls)
  /\ Forall (fun l => collate_fn l = dataset l) dls
  /\ (length train = 1%nat ->
      Forall (fun l => base_sampler (loader_sampler l)
                       = RandomSampler (dataset l) false (len (dataset l))) dls)
  /\ (length train ≠ 1%nat ->
      exists batches : Z,
        Forall (fun l => base_sampler (loader_sampler l)
                         = RandomSampler (dataset l) true
                             (batches * (batch_size args * world_size args)))
          dls).
Proof.
  intros Hret train val.
  destruct (get_mimicit_dataset_returns args floor dls vdls Hret)
    as (batches & Hdls & Hvdls).
  fold train val in Hdls, Hvdls. cbv zeta in Hdls, Hvdls.
  set (n := batches * (batch_size args * world_size args)) in *.
  assert (Hwrap : forall s, is_proxy (wrap_distributed args s) = distributed args
                            \/ is_proxy s = true).
  { intros s. unfold wrap_distributed, distributed.
    destruct (_ || _); [by left|]. destruct s; [by left|by right]. }
  assert (Hbase : forall d r k, base_sampler (wrap_distributed args (RandomSampler d r k))
                                = RandomSampler d r k).
  { intros d r k. unfold wrap_distributed. by destruct (_ || _). }
  assert (Hproxy : forall d r k, is_proxy (wrap_distributed args (RandomSampler d r k))
                                 = distributed args).
  { intros d r k. unfold wrap_distributed, distributed. by destruct (_ || _). }
  assert (Htl : forall d,
            is_proxy (loader_sampler (train_loader len args train n d))
            = distributed args).
  { intros d. unfold train_loader. cbn [loader_sampler].
    destruct (_ =? 1)%nat; apply Hproxy. }
  assert (Hvl : forall u d,
            is_proxy (loader_sampler (val_loader len args val n u d))
            = distributed args).
  { intros u d. unfold val_loader. cbn [loader_sampler].
    destruct (_ =? 1)%nat; apply Hproxy. }
  split; [|split; [|split; [|split; [|split]]]].
  - rewrite Hdls, map_map. apply map_id.
  - destruct Hvdls as [[-> ->]|(u & _ & ->)]; [done|].
    rewrite map_map. apply map_id.
  - apply Forall_app. split.
    + rewrite Hdls. apply Forall_forall. intros l (d & -> & _)%list_elem_of_fmap.
      repeat split; first [done|apply Htl].
    + destruct Hvdls as [[_ ->]|(u & _ & ->)]; [done|].
      apply Forall_forall. intros l (d & -> & _)%list_elem_of_fmap.
      repeat split; first [done|apply Hvl].
  - rewrite Hdls. apply Forall_forall. by intros l (d & -> & _)%list_elem_of_fmap.
  - intros Hone. rewrite Hdls. apply Forall_forall.
    intros l (d & -> & _)%list_elem_of_fmap.
    unfold train_loader. cbn [loader_sampler dataset]. rewrite Hone. simpl.
    apply Hbase.
  - intros Hmany. exists batches. rewrite Hdls. apply Forall_forall.
    intros l (d & -> & _)%list_elem_of_fmap.
    unfold train_loader. cbn [loader_sampler dataset].
    destruct (Nat.eqb_spec (length train) 1); [done|]. apply Hbase.
Qed.


End InstructionTuningLoaders.

Lemma loaders_follow_datasets_witness :
  Mimicit.get_mimicit_dataset Examples.mimicit_len
    (Examples.mimicit_args (-1) (-1) "val/instructions.json") false
  = Return (Fixtures.train_loaders, Fixtures.val_loaders)
  /\ map Mimicit.dataset Fixtures.train_loaders
     = fst (Mimicit.build_datasets
              (Examples.mimicit_args (-1) (-1) "val/instructions.json")).
Proof.
  assert (H : Mimicit.get_mimicit_dataset Examples.mimicit_len
                (Examples.mimicit_args (-1) (-1) "val/instructions.json") false
              = Return (Fixtures.train_loaders, Fixtures.val_loaders))
    by (vm_compute; reflexivity).
  split; [exact H|].
  exact (proj1 (loaders_follow_datasets Examples.mimicit_len
                  (Examples.mimicit_args (-1) (-1) "val/instructions.json")
                  false Fixtures.train_loaders Fixtures.val_loaders H)).
Defined.


(** ** Dispatch and the shard order of a pipeline *)

Section Dispatch.

Import ShardLocator Webdataset Notions.

Variable braceexpand : string -> list string.
Variable len : Mimicit.MimicitDataset -> Z.

Lemma c_int_in_range (epoch : Z) :
  - 2 ^ 31 <= epoch < 2 ^ 31 -> c_int epoch = epoch.
Proof.
  intros H. unfold c_int. rewrite Z.mod_small; lia.
Qed.



(** The shard order of a pipeline without resampling: the constructor
    puts the shard shuffle right after the shard list and before the two
    partitioning stages, gives it [args.seed] and the shared epoch cell it
    returns in the [DataInfo], which holds the epoch reduced to a C
    [int] (the epoch itself when it fits 32 bits); with a non-negative
    seed the stage is seeded with [args.seed] plus the epoch of the cell
    and orders any shard list alike in every process, so that all nodes
    and workers partition one common order. *)
Theorem shard_order_agrees_across_processes (k : dataset_type) fs args pattern
  sized n epoch floor :
  shards_of k args = Some pattern ->
  get_dataset_size braceexpand fs pattern = Return sized ->
  train_num_samples_of k args = Some n ->
  0 < n < 2 ^ 53 ->
  dataset_resampled args = false ->
  0 < workers args < 2 ^ 1075 ->
  workers args * world_size args <= Z.of_nat (length (braceexpand pattern)) ->
  0 < batch_size_of k args -> 0 < world_size args ->
  batch_size_of k args * world_size args < 2 ^ 1075 ->
  0 <= seed args ->
  exists info st,
    get_dataset_fn braceexpand k fs args epoch floor = Return info
    /\ take 4 (pipeline (dataloader info))
       = [SimpleShardList pattern; shard_shuffle st; split_by_node;
          split_by_worker]
    /\ shared_epoch info = c_int epoch
    /\ (- 2 ^ 31 <= epoch < 2 ^ 31 -> shared_epoch info = epoch)
    /\ (forall p, Shuffle.run_seed p st = seed args + c_int epoch)
    /\ (forall (Rng : Type) (rng_seed : Z -> Rng) (A : Type)
          (_shuffle : list A -> Z -> Z -> Rng -> list A)
          (p1 p2 : Shuffle.process) (src : list A),
          fst (Shuffle.run Rng rng_seed A _shuffle p1 st src)
          = fst (Shuffle.run Rng rng_seed A _shuffle p2 st src)).
Proof.
  intros Hs Hsized Hn Hrange Hres Hw Hshards Hbs Hws Hg Hseed.
  rewrite (get_dataset_fn_cases braceexpand k fs args pattern sized epoch floor
             Hs Hsized).
  rewrite Hn. destruct (Z.eqb_spec n 0); [lia|].
  assert ((Z.of_nat (length (braceexpand pattern))
           <? workers args * world_size args) = false) as ->
    by (apply Z.ltb_ge; lia).
  rewrite andb_false_r.
  destruct (plan_batches_positive floor n (batch_size_of k args)
              (world_size args) (workers args) ltac:(lia) Hbs Hws Hg
              ltac:(lia))
    as (nb & nwb & _ & _ & Hplan).
  unfold planned. rewrite Hplan. unfold check_num_workers.
  assert ((workers args <? 0) = false) as Hneg by (apply Z.ltb_ge; lia).
  assert ((workers args =? 0) = false) as Hzero by (apply Z.eqb_neq; lia).
  cbn [mbind result_bind]. rewrite Hneg, Hzero.
  eexists _, _. split; [done|].
  cbn [dataloader pipeline shared_epoch]. unfold built_pipeline.
  rewrite Hres. split; [reflexivity|]. split; [done|].
  split; [apply c_int_in_range|].
  assert (Hrun : forall p,
            Shuffle.run_seed p
              {| Shuffle.bufsize := _SHARD_SHUFFLE_SIZE;
                 Shuffle.initial := _SHARD_SHUFFLE_INITIAL;
                 Shuffle.seed := seed args;
                 Shuffle.epoch := Shuffle.SharedEpoch (c_int epoch) |}
            = seed args + c_int epoch).
  { intros p. by rewrite run_seed_fixed. }
  split; [done|].
  intros Rng rng_seed A _shuffle p1 p2 src. unfold Shuffle.run.
  cbn [fst]. by rewrite !Hrun.
Qed.

End Dispatch.

Lemma shard_order_agrees_across_processes_witness :
  (Webdataset.shards_of Webdataset.mmc4 Examples.small_args
   = Some "/data/mmc4/shard-0.tar"
   /\ ShardLocator.get_dataset_size Examples.one_shard Examples.no_sidecars
        "/data/mmc4/shard-0.tar" = Return (None, 1)
   /\ Webdataset.train_num_samples_of Webdataset.mmc4 Examples.small_args
      = Some 64
   /\ 0 < 64 < 2 ^ 53
   /\ Webdataset.dataset_resampled Examples.small_args = false
   /\ 0 < Webdataset.workers Examples.small_args < 2 ^ 1075
   /\ Webdataset.workers Examples.small_args
      * Webdataset.world_size Examples.small_args
      <= Z.of_nat (length (Examples.one_shard "/data/mmc4/shard-0.tar"))
   /\ 0 < Webdataset.batch_size_of Webdataset.mmc4 Examples.small_args
   /\ 0 < Webdataset.world_size Examples.small_args
   /\ Webdataset.batch_size_of Webdataset.mmc4 Examples.small_args
      * Webdataset.world_size Examples.small_args < 2 ^ 1075
   /\ 0 <= Webdataset.seed Examples.small_args)
  /\ exists info st,
       Webdataset.get_dataset_fn Examples.one_shard Webdataset.mmc4
         Examples.no_sidecars Examples.small_args 3 false = Return info
       /\ take 4 (Webdataset.pipeline (Webdataset.dataloader info))
          = [Webdataset.SimpleShardList "/data/mmc4/shard-0.tar";
             Webdataset.shard_shuffle st; Webdataset.split_by_node;
             Webdataset.split_by_worker]
       /\ Webdataset.shared_epoch info = Webdataset.c_int 3
       /\ (- 2 ^ 31 <= 3 < 2 ^ 31 -> Webdataset.shared_epoch info = 3)
       /\ (forall p, Shuffle.run_seed p st
                     = Webdataset.seed Examples.small_args + Webdataset.c_int 3)
       /\ (forall (Rng : Type) (rng_seed : Z -> Rng) (A : Type)
             (_shuffle : list A -> Z -> Z -> Rng -> list A)
             (p1 p2 : Shuffle.process) (src : list A),
             fst (Shuffle.run Rng rng_seed A _shuffle p1 st src)
             = fst (Shuffle.run Rng rng_seed A _shuffle p2 st src)).
Proof.
  split; [repeat split; first [reflexivity|discriminate|vm_compute; congruence]|].
  apply (shard_order_agrees_across_processes Examples.one_shard Webdataset.mmc4
           Examples.no_sidecars Examples.small_args "/data/mmc4/shard-0.tar"
           (None, 1) 64 3 false);
    first [reflexivity|discriminate|split; vm_compute; congruence
          |vm_compute; congruence].
Defined.
